(** * A verified model of the healthchecks.io v3 client

    Shallow embedding of [pkg/healthchecksio/client.go] together with the
    parts of the Go libraries the client delegates to ([strings], [strconv],
    [path], [net/url], [net/http], [encoding/json] and
    [github.com/hashicorp/go-retryablehttp]).

    Conventions.
    - A Go [string] is a sequence of bytes: Rocq's [string] ([ascii] = byte).
    - A Go [(T, error)] result is a sum [T + error].
    - [int], [int64] and [time.Duration] values are integers in [Z]; the
      client performs no arithmetic on them.
    - Every operation is split into the three stages its body runs in order:
      [_address] (build the URL), [_request] (create the request and set its
      headers), [_response] (classify and decode the response); the
      operation itself chains them around [retryablehttp.Do].
    - The [context.Context] argument is a context that is never cancelled,
      and the telemetry span of each operation is omitted: both only observe
      the call.  A response body is delivered whole (reading it cannot
      fail half-way). *)

From Stdlib Require Import ZArith Ascii String List Bool Lia DecimalString.
From stdpp Require Import base option list strings gmap.

Set Warnings "-register-all".

(* ================================================================== *)
(** ** Bytes *)

Module byte.

Local Open Scope char_scope.

Definition code (c : ascii) : N := N_of_ascii c.

(** [lo <= c && c <= hi] on byte values. *)
Definition between (lo hi c : ascii) : bool :=
  (code lo <=? code c)%N && (code c <=? code hi)%N.

Definition is_lower (c : ascii) : bool := between "a" "z" c.
Definition is_upper (c : ascii) : bool := between "A" "Z" c.
Definition is_digit (c : ascii) : bool := between "0" "9" c.
Definition is_alnum (c : ascii) : bool := is_lower c || is_upper c || is_digit c.

(** Membership of a byte in a set written as a string. *)
Fixpoint one_of (set : string) (c : ascii) : bool :=
  match set with
  | EmptyString => false
  | String x set' => Ascii.eqb c x || one_of set' c
  end.

Definition to_lower (c : ascii) : ascii :=
  if is_upper c then ascii_of_N (code c + 32) else c.

Definition to_upper (c : ascii) : ascii :=
  if is_lower c then ascii_of_N (code c - 32) else c.

(** [ishex] and [unhex] of net/url. *)
Definition ishex (c : ascii) : bool :=
  is_digit c || between "a" "f" c || between "A" "F" c.

Definition unhex (c : ascii) : N :=
  if is_digit c then (code c - code "0")%N
  else if between "a" "f" c then (code c - code "a" + 10)%N
  else if between "A" "F" c then (code c - code "A" + 10)%N
  else 0%N.

(** ["0123456789ABCDEF"[n]] *)
Definition upperhex (n : N) : ascii :=
  if (n <? 10)%N then ascii_of_N (code "0" + n) else ascii_of_N (code "A" + (n - 10)).

Local Close Scope char_scope.

End byte.

(* ================================================================== *)
(** ** Package [strings] *)

Module strings.

Fixpoint HasPrefix (s prefix : string) {struct prefix} : bool :=
  match prefix with
  | EmptyString => true
  | String p prefix' =>
      match s with
      | EmptyString => false
      | String c s' => Ascii.eqb c p && HasPrefix s' prefix'
      end
  end.

Fixpoint HasSuffix (s suffix : string) : bool :=
  String.eqb s suffix ||
  match s with
  | EmptyString => false
  | String _ s' => HasSuffix s' suffix
  end.

(** [s[:n]] and [s[n:]] (for [n] within bounds). *)
Fixpoint slice_to (n : nat) (s : string) : string :=
  match n, s with
  | S n', String c s' => String c (slice_to n' s')
  | _, _ => EmptyString
  end.

Fixpoint slice_from (n : nat) (s : string) : string :=
  match n, s with
  | S n', String _ s' => slice_from n' s'
  | _, _ => s
  end.

(** [Index] returns [None] where Go returns [-1]. *)
Fixpoint Index (s substr : string) : option nat :=
  if HasPrefix s substr then Some 0
  else match s with
       | EmptyString => None
       | String _ s' => S <$> Index s' substr
       end.

Fixpoint LastIndex (s substr : string) : option nat :=
  match s with
  | EmptyString => if HasPrefix s substr then Some 0 else None
  | String _ s' =>
      match LastIndex s' substr with
      | Some i => Some (S i)
      | None => if HasPrefix s substr then Some 0 else None
      end
  end.

Definition Contains (s substr : string) : bool :=
  match Index s substr with Some _ => true | None => false end.

(** [before, after, found := strings.Cut(s, sep)] *)
Definition Cut (s sep : string) : string * string * bool :=
  match Index s sep with
  | Some i => (slice_to i s, slice_from (i + String.length sep) s, true)
  | None => (s, EmptyString, false)
  end.

(** [strings.Count(s, string(c))] for a one-byte separator. *)
Fixpoint CountByte (s : string) (c : ascii) : nat :=
  match s with
  | EmptyString => 0
  | String x s' => (if Ascii.eqb x c then 1 else 0) + CountByte s' c
  end.

(** [strings.ToLower] on ASCII text (its only use, on a URL scheme). *)
Fixpoint ToLower (s : string) : string :=
  match s with
  | EmptyString => EmptyString
  | String c s' => String (byte.to_lower c) (ToLower s')
  end.

Definition TrimSuffix (s suffix : string) : string :=
  if HasSuffix s suffix
  then slice_to (String.length s - String.length suffix) s
  else s.

(** [strings.Join(elems, sep)] *)
Fixpoint Join (elems : list string) (sep : string) : string :=
  match elems with
  | [] => EmptyString
  | [e] => e
  | e :: rest => e +:+ sep +:+ Join rest sep
  end.

(** Every byte of [s] satisfies [p]. *)
Fixpoint all (p : ascii -> bool) (s : string) : bool :=
  match s with
  | EmptyString => true
  | String c s' => p c && all p s'
  end.

(** [s[0] == c], false on the empty string. *)
Definition first_is (c : ascii) (s : string) : bool :=
  match s with
  | String x _ => Ascii.eqb x c
  | EmptyString => false
  end.

End strings.

(* ================================================================== *)
(** ** Package [strconv] *)

Module strconv.

(** [strconv.Itoa]: the decimal representation, with a leading [-] for
    negative numbers.  [fmt.Sprintf("%d", n)] prints the same text. *)
Definition Itoa (n : Z) : string := NilZero.string_of_int (Z.to_int n).

End strconv.

(* ================================================================== *)
(** ** Package [path] *)

Module path.

(** The slash-separated elements of a path; ["a//b/"] has the elements
    ["a"], [""], ["b"], [""]. *)
Fixpoint elements (s : string) : list string :=
  match s with
  | EmptyString => [EmptyString]
  | String c s' =>
      if Ascii.eqb c "/"%char then EmptyString :: elements s'
      else match elements s' with
           | e :: rest => String c e :: rest
           | [] => [String c EmptyString]
           end
  end.

(** The non-empty elements of a path. *)
Definition components (s : string) : list string :=
  List.filter (fun e => negb (String.eqb e "")) (elements s).

(** No element strictly inside the path is empty: the path has no double
    slash. *)
Definition no_double_slash (p : string) : bool :=
  match elements p with
  | [] => true
  | _ :: inner => forallb (fun e => negb (String.eqb e "")) (removelast inner)
  end.

(** One element read by [Clean]; [out] is the output so far, last
    element first.
    - an empty element or [.] is dropped;
    - [..] removes the last real element; at the root of a rooted path
      it is dropped, at the start of a relative path it is kept;
    - anything else is appended. *)
Definition clean_step (rooted : bool) (out : list string) (e : string) : list string :=
  if String.eqb e "" || String.eqb e "." then out
  else if String.eqb e ".." then
    match out with
    | top :: below =>
        if rooted then below
        else if String.eqb top ".." then e :: out else below
    | [] => if rooted then [] else [e]
    end
  else e :: out.

(** [path.Clean]: the shortest path equivalent to [p] by the rules of its
    documentation (single slashes, no [.] element, no inner [..] element,
    no [..] at the root), ["."] for the empty path. *)
Definition Clean (p : string) : string :=
  if String.eqb p "" then "."
  else
    let rooted := strings.first_is "/"%char p in
    let out := rev (fold_left (clean_step rooted) (elements p) []) in
    if rooted then "/" +:+ strings.Join out "/"
    else match out with
         | [] => "."
         | _ => strings.Join out "/"
         end.

(** The buffer [path.Join] builds before cleaning it: the elements joined
    with slashes, leading empty elements skipped. *)
Fixpoint join_buf (buf : string) (elem : list string) : string :=
  match elem with
  | [] => buf
  | e :: rest =>
      if negb (String.eqb buf "") then join_buf (buf +:+ "/" +:+ e) rest
      else if negb (String.eqb e "") then join_buf e rest
      else join_buf buf rest
  end.

(** [path.Join(elem...)] *)
Definition Join (elem : list string) : string :=
  if forallb (fun e => String.eqb e "") elem then ""
  else Clean (join_buf "" elem).

End path.

(* ================================================================== *)
(** ** Go's [error] values *)

(** The error values the client can return, by the Go type that carries
    them. *)
Inductive error : Type :=
| errorString (s : string)                       (* errors.New, fmt.Errorf without %w *)
| wrapError (msg : string) (err : error)         (* fmt.Errorf with %w; [msg] is the whole text *)
| EscapeError (s : string)                       (* url.EscapeError *)
| InvalidHostError (s : string)                  (* url.InvalidHostError *)
| invalidPortError (colonPort : string)          (* "invalid port %q after host" *)
| invalidMethodError (method : string)           (* "net/http: invalid method %q" *)
| urlError (Op URL : string) (Err : error)       (* *url.Error *)
| SyntaxError (msg : string)                     (* *json.SyntaxError *)
| ErrUnexpectedEOF                               (* io.ErrUnexpectedEOF *)
| EOF                                            (* io.EOF *)
| UnmarshalTypeError (Value Typ Struct Field : string)  (* *json.UnmarshalTypeError *)
| timeError (msg : string)                       (* an error of Time.UnmarshalJSON *)
| transportError (msg : string) (permanent : bool).
    (* what the HTTP transport reports; [permanent] marks the failures
       go-retryablehttp never retries (too many redirects, unsupported
       scheme, invalid header, untrusted certificate) *)

(** A result [(T, error)]. *)
Notation "'let?' x ':=' e 'in' k" :=
  (match e with inl x => k | inr err => inr err end)
  (at level 10, x pattern, e at level 100, k at level 200, only parsing).

(* ================================================================== *)
(** ** Package [net/url] *)

Module url.

Inductive encoding : Set :=
| encodePath | encodePathSegment | encodeHost | encodeZone
| encodeUserPassword | encodeQueryComponent | encodeFragment.

Definition is_host_mode (mode : encoding) : bool :=
  match mode with encodeHost | encodeZone => true | _ => false end.

(** [shouldEscape(c, mode)] *)
Definition shouldEscape (c : ascii) (mode : encoding) : bool :=
  if byte.is_alnum c then false
  else if is_host_mode mode && (byte.one_of "!$&'()*+,;=:[]<>" c || Ascii.eqb c "034") then false
  else if byte.one_of "-_.~" c then false
  else if byte.one_of "$&+,/:;=?@" c then
    match mode with
    | encodePath => Ascii.eqb c "?"
    | encodePathSegment => byte.one_of "/;,?" c
    | encodeUserPassword => byte.one_of "@/?:" c
    | encodeQueryComponent => true
    | encodeFragment => false
    | encodeHost | encodeZone => true
    end
  else if match mode with encodeFragment => byte.one_of "!()*" c | _ => false end then false
  else true.

(** The three bytes [%XY] that escape [c]. *)
Definition pct (c : ascii) (rest : string) : string :=
  String "%" (String (byte.upperhex (N.shiftr (byte.code c) 4))
             (String (byte.upperhex (N.land (byte.code c) 15)) rest)).

(** [escape(s, mode)] *)
Fixpoint escape (s : string) (mode : encoding) : string :=
  match s with
  | EmptyString => EmptyString
  | String c s' =>
      if shouldEscape c mode then
        match mode with
        | encodeQueryComponent =>
            if Ascii.eqb c " " then String "+" (escape s' mode) else pct c (escape s' mode)
        | _ => pct c (escape s' mode)
        end
      else String c (escape s' mode)
  end.

(** [unescape(s, mode)]: the checking pass and the decoding pass of the
    Go function, run together. *)
Fixpoint unescape (s : string) (mode : encoding) : string + error :=
  match s with
  | EmptyString => inl EmptyString
  | String c s' =>
      if Ascii.eqb c "%" then
        match s' with
        | String h (String l s'') =>
            if negb (byte.ishex h && byte.ishex l) then
              inr (EscapeError (strings.slice_to 3 s))
            else if match mode with
                    | encodeHost =>
                        (byte.unhex h <? 8)%N && negb (String.eqb (strings.slice_to 3 s) "%25")
                    | encodeZone =>
                        let v := ascii_of_N (N.lor (N.shiftl (byte.unhex h) 4) (byte.unhex l)) in
                        negb (String.eqb (strings.slice_to 3 s) "%25")
                        && negb (Ascii.eqb v " ") && shouldEscape v encodeHost
                    | _ => false
                    end then
              inr (EscapeError (strings.slice_to 3 s))
            else
              let? t := unescape s'' mode in
              inl (String (ascii_of_N (N.lor (N.shiftl (byte.unhex h) 4) (byte.unhex l))) t)
        | _ => inr (EscapeError s)
        end
      else if Ascii.eqb c "+" then
        let? t := unescape s' mode in
        inl (String (match mode with encodeQueryComponent => " "%char | _ => c end) t)
      else if is_host_mode mode && (byte.code c <? 128)%N && shouldEscape c encodeHost then
        inr (InvalidHostError (String c EmptyString))
      else
        let? t := unescape s' mode in
        inl (String c t)
  end.

(** [validEncoded(s, mode)] *)
Fixpoint validEncoded (s : string) (mode : encoding) : bool :=
  match s with
  | EmptyString => true
  | String c s' =>
      (byte.one_of "!$&'()*+,;=:@[]%" c || negb (shouldEscape c mode))
      && validEncoded s' mode
  end.

Definition QueryEscape (s : string) : string := escape s encodeQueryComponent.

Record Userinfo : Set := {
  username : string;
  password : string;
  passwordSet : bool
}.

(** [url.URL]; [User] is [None] for a nil [*Userinfo]. *)
Record URL : Set := {
  Scheme : string;
  Opaque : string;
  User : option Userinfo;
  Host : string;
  Path : string;
  RawPath : string;
  OmitHost : bool;
  ForceQuery : bool;
  RawQuery : string;
  Fragment : string;
  RawFragment : string
}.

(** [new(URL)] *)
Definition zero : URL :=
  {| Scheme := ""; Opaque := ""; User := None; Host := ""; Path := "";
     RawPath := ""; OmitHost := false; ForceQuery := false; RawQuery := "";
     Fragment := ""; RawFragment := "" |}.

Definition with_Path (u : URL) (p raw : string) : URL :=
  {| Scheme := Scheme u; Opaque := Opaque u; User := User u; Host := Host u;
     Path := p; RawPath := raw; OmitHost := OmitHost u;
     ForceQuery := ForceQuery u; RawQuery := RawQuery u;
     Fragment := Fragment u; RawFragment := RawFragment u |}.

Definition with_RawQuery (u : URL) (q : string) : URL :=
  {| Scheme := Scheme u; Opaque := Opaque u; User := User u; Host := Host u;
     Path := Path u; RawPath := RawPath u; OmitHost := OmitHost u;
     ForceQuery := ForceQuery u; RawQuery := q;
     Fragment := Fragment u; RawFragment := RawFragment u |}.

Definition with_Fragment (u : URL) (f raw : string) : URL :=
  {| Scheme := Scheme u; Opaque := Opaque u; User := User u; Host := Host u;
     Path := Path u; RawPath := RawPath u; OmitHost := OmitHost u;
     ForceQuery := ForceQuery u; RawQuery := RawQuery u;
     Fragment := f; RawFragment := raw |}.

Definition with_Host (u : URL) (h : string) : URL :=
  {| Scheme := Scheme u; Opaque := Opaque u; User := User u; Host := h;
     Path := Path u; RawPath := RawPath u; OmitHost := OmitHost u;
     ForceQuery := ForceQuery u; RawQuery := RawQuery u;
     Fragment := Fragment u; RawFragment := RawFragment u |}.

(** [u.setPath(p)] *)
Definition setPath (u : URL) (p : string) : URL + error :=
  let? path := unescape p encodePath in
  inl (with_Path u path (if String.eqb p (escape path encodePath) then "" else p)).

(** [u.EscapedPath()] *)
Definition EscapedPath (u : URL) : string :=
  if negb (String.eqb (RawPath u) "") && validEncoded (RawPath u) encodePath
     && match unescape (RawPath u) encodePath with
        | inl p => String.eqb p (Path u)
        | inr _ => false
        end
  then RawPath u
  else if String.eqb (Path u) "*" then "*"
  else escape (Path u) encodePath.

(** [u.setFragment(f)] *)
Definition setFragment (u : URL) (f : string) : URL + error :=
  let? frag := unescape f encodeFragment in
  inl (with_Fragment u frag (if String.eqb f (escape frag encodeFragment) then "" else f)).

(** [u.EscapedFragment()] *)
Definition EscapedFragment (u : URL) : string :=
  if negb (String.eqb (RawFragment u) "") && validEncoded (RawFragment u) encodeFragment
     && match unescape (RawFragment u) encodeFragment with
        | inl f => String.eqb f (Fragment u)
        | inr _ => false
        end
  then RawFragment u
  else escape (Fragment u) encodeFragment.

(** [getScheme(rawURL)]: the scheme and the rest after its colon. *)
Fixpoint getScheme_from (i : nat) (rawURL s : string) : (string * string) + error :=
  match s with
  | EmptyString => inl (EmptyString, rawURL)
  | String c s' =>
      if byte.is_lower c || byte.is_upper c then getScheme_from (S i) rawURL s'
      else if byte.is_digit c || byte.one_of "+-." c then
        match i with
        | O => inl (EmptyString, rawURL)
        | S _ => getScheme_from (S i) rawURL s'
        end
      else if Ascii.eqb c ":" then
        match i with
        | O => inr (errorString "missing protocol scheme")
        | S _ => inl (strings.slice_to i rawURL, s')
        end
      else inl (EmptyString, rawURL)
  end.

Definition getScheme (rawURL : string) : (string * string) + error :=
  getScheme_from 0 rawURL rawURL.

(** [stringContainsCTLByte(s)] *)
Definition stringContainsCTLByte (s : string) : bool :=
  negb (strings.all (fun c => negb ((byte.code c <? 32)%N || Ascii.eqb c "127")) s).

(** [validOptionalPort(port)] *)
Definition validOptionalPort (port : string) : bool :=
  match port with
  | EmptyString => true
  | String c digits => Ascii.eqb c ":" && strings.all byte.is_digit digits
  end.

(** [validUserinfo(s)] *)
Definition validUserinfo (s : string) : bool :=
  strings.all (fun c => byte.is_alnum c || byte.one_of "-._:~!$&'()*+,;=%@" c) s.

(** [parseHost(host)]; a bracketed host is checked as far as its brackets,
    port and escapes. *)
Definition parseHost (host : string) : string + error :=
  let plain :=
    if strings.HasPrefix host "[" then inl tt
    else match strings.LastIndex host ":" with
         | Some i =>
             if validOptionalPort (strings.slice_from i host) then inl tt
             else inr (invalidPortError (strings.slice_from i host))
         | None => inl tt
         end in
  if strings.HasPrefix host "[" then
    match strings.LastIndex host "]" with
    | None => inr (errorString "missing ']' in host")
    | Some i =>
        if negb (validOptionalPort (strings.slice_from (S i) host)) then
          inr (invalidPortError (strings.slice_from (S i) host))
        else
          match strings.Index (strings.slice_to i host) "%25" with
          | Some zone =>
              let? host1 := unescape (strings.slice_to zone host) encodeHost in
              let? host2 :=
                unescape (strings.slice_from zone (strings.slice_to i host)) encodeZone in
              let? host3 := unescape (strings.slice_from i host) encodeHost in
              inl (host1 +:+ host2 +:+ host3)
          | None => unescape host encodeHost
          end
    end
  else
    let? ok := plain in
    unescape host encodeHost.

(** [parseAuthority(authority)] *)
Definition parseAuthority (authority : string) : (option Userinfo * string) + error :=
  match strings.LastIndex authority "@" with
  | None =>
      let? host := parseHost authority in
      inl (None, host)
  | Some i =>
      let? host := parseHost (strings.slice_from (S i) authority) in
      let userinfo := strings.slice_to i authority in
      if negb (validUserinfo userinfo) then
        inr (errorString "net/url: invalid userinfo")
      else if negb (strings.Contains userinfo ":") then
        let? name := unescape userinfo encodeUserPassword in
        inl (Some {| username := name; password := ""; passwordSet := false |}, host)
      else
        let '(name, pass, _) := strings.Cut userinfo ":" in
        let? name := unescape name encodeUserPassword in
        let? pass := unescape pass encodeUserPassword in
        inl (Some {| username := name; password := pass; passwordSet := true |}, host)
  end.

(** [parse(rawURL, viaRequest = false)] *)
Definition parse (rawURL : string) : URL + error :=
  if stringContainsCTLByte rawURL then
    inr (errorString "net/url: invalid control character in URL")
  else if String.eqb rawURL "*" then inl (with_Path zero "*" "")
  else
    let? (scheme, rest) := getScheme rawURL in
    let scheme := strings.ToLower scheme in
    let '(rest, force, query) :=
      if strings.HasSuffix rest "?" && Nat.eqb (strings.CountByte rest "?") 1
      then (strings.slice_to (String.length rest - 1) rest, true, EmptyString)
      else let '(r, q, _) := strings.Cut rest "?" in (r, false, q) in
    let u0 :=
      {| Scheme := scheme; Opaque := ""; User := None; Host := ""; Path := "";
         RawPath := ""; OmitHost := false; ForceQuery := force; RawQuery := query;
         Fragment := ""; RawFragment := "" |} in
    if negb (strings.HasPrefix rest "/") && negb (String.eqb scheme "") then
      inl {| Scheme := scheme; Opaque := rest; User := None; Host := ""; Path := "";
             RawPath := ""; OmitHost := false; ForceQuery := force; RawQuery := query;
             Fragment := ""; RawFragment := "" |}
    else if negb (strings.HasPrefix rest "/")
            && strings.Contains (fst (fst (strings.Cut rest "/"))) ":" then
      inr (errorString "first path segment in URL cannot contain colon")
    else if (negb (String.eqb scheme "") || negb (strings.HasPrefix rest "///"))
            && strings.HasPrefix rest "//" then
      let authority := strings.slice_from 2 rest in
      let '(authority, rest) :=
        match strings.Index authority "/" with
        | Some i => (strings.slice_to i authority, strings.slice_from i authority)
        | None => (authority, EmptyString)
        end in
      let? (user, host) := parseAuthority authority in
      setPath {| Scheme := scheme; Opaque := ""; User := user; Host := host; Path := "";
                 RawPath := ""; OmitHost := false; ForceQuery := force; RawQuery := query;
                 Fragment := ""; RawFragment := "" |} rest
    else if negb (String.eqb scheme "") && strings.HasPrefix rest "/" then
      setPath {| Scheme := scheme; Opaque := ""; User := None; Host := ""; Path := "";
                 RawPath := ""; OmitHost := true; ForceQuery := force; RawQuery := query;
                 Fragment := ""; RawFragment := "" |} rest
    else setPath u0 rest.

(** [url.Parse(rawURL)] *)
Definition Parse (rawURL : string) : URL + error :=
  let '(u, frag, _) := strings.Cut rawURL "#" in
  match parse u with
  | inr err => inr (urlError "parse" u err)
  | inl url =>
      if String.eqb frag "" then inl url
      else match setFragment url frag with
           | inr err => inr (urlError "parse" rawURL err)
           | inl url => inl url
           end
  end.

(** [ui.String()] for a non-nil [*Userinfo] *)
Definition Userinfo_String (ui : Userinfo) : string :=
  escape (username ui) encodeUserPassword +:+
  (if passwordSet ui then ":" +:+ escape (password ui) encodeUserPassword else "").

(** [u.String()] *)
Definition String_ (u : URL) : string :=
  (if negb (String.eqb (Scheme u) "") then Scheme u +:+ ":" else "") +:+
  (if negb (String.eqb (Opaque u) "") then Opaque u
   else
     let authority :=
       if negb (String.eqb (Scheme u) "") || negb (String.eqb (Host u) "")
          || bool_decide (is_Some (User u)) then
         if OmitHost u && String.eqb (Host u) "" && negb (bool_decide (is_Some (User u)))
         then ""
         else
           (if negb (String.eqb (Host u) "") || negb (String.eqb (Path u) "")
               || bool_decide (is_Some (User u)) then "//" else "") +:+
           (match User u with Some ui => Userinfo_String ui +:+ "@" | None => "" end) +:+
           (if negb (String.eqb (Host u) "") then escape (Host u) encodeHost else "")
       else "" in
     let path := EscapedPath u in
     let sep :=
       if negb (String.eqb path "") && negb (strings.first_is "/" path)
          && negb (String.eqb (Host u) "") then "/" else "" in
     let dot :=
       if String.eqb ((if negb (String.eqb (Scheme u) "") then Scheme u +:+ ":" else "")
                      +:+ authority +:+ sep) ""
          && strings.Contains (fst (fst (strings.Cut path "/"))) ":"
       then "./" else "" in
     authority +:+ sep +:+ dot +:+ path) +:+
  (if ForceQuery u || negb (String.eqb (RawQuery u) "") then "?" +:+ RawQuery u else "") +:+
  (if negb (String.eqb (Fragment u) "") then "#" +:+ EscapedFragment u else "").

(** [u.JoinPath(elem...)]; the error of [setPath] is dropped as the Go
    method drops it, leaving the path of [u]. *)
Definition JoinPath (u : URL) (elem : list string) : URL :=
  let rooted := strings.HasPrefix (EscapedPath u) "/" in
  let first := if rooted then EscapedPath u else "/" +:+ EscapedPath u in
  let p :=
    if rooted then path.Join (first :: elem)
    else strings.slice_from 1 (path.Join (first :: elem)) in
  let last := List.last elem first in
  let p := if strings.HasSuffix last "/" && negb (strings.HasSuffix p "/")
           then p +:+ "/" else p in
  match setPath u p with
  | inl url => url
  | inr _ => u
  end.

(** [url.Values]: the values of each key. *)
Abbreviation Values := (gmap string (list string)).

(** [v.Set(key, value)] *)
Definition Set_ (v : Values) (key value : string) : Values := <[key := [value]]> v.

(** [slices.Sort] on strings: insertion into a list sorted by bytes. *)
Fixpoint insert_sorted (k : string) (keys : list string) : list string :=
  match keys with
  | [] => [k]
  | k' :: rest => if String.leb k k' then k :: keys else k' :: insert_sorted k rest
  end.

Definition sort (keys : list string) : list string := fold_right insert_sorted [] keys.

(** [v.Encode()]: [key=value] pairs, sorted by key, joined by [&]. *)
Definition Encode (v : Values) : string :=
  strings.Join
    (flat_map (fun k => map (fun x => QueryEscape k +:+ "=" +:+ QueryEscape x)
                            (default [] (v !! k)))
              (sort (map fst (map_to_list v))))
    "&".

End url.

(* ================================================================== *)
(** ** Package [encoding/json] *)

Module json.

(** A JSON document.  A number written as an integer is [Int]; any other
    number keeps its text. *)
Inductive value : Type :=
| Null
| Bool (b : bool)
| Int (z : Z)
| Float (lit : string)
| Str (s : string)
| Array (elems : list value)
| Object (members : list (string * value)).

(** What the decoder calls a value in an [UnmarshalTypeError]. *)
Definition describe (v : value) : string :=
  match v with
  | Null => "null"
  | Bool _ => "bool"
  | Int _ | Float _ => "number"
  | Str _ => "string"
  | Array _ => "array"
  | Object _ => "object"
  end.

(** The text of a number. *)
Definition literal (v : value) : string :=
  match v with
  | Int z => strconv.Itoa z
  | Float lit => lit
  | _ => EmptyString
  end.

(** *** Encoding: [omitempty] fields *)

Definition omitempty_string (name s : string) : list (string * value) :=
  if String.eqb s "" then [] else [(name, Str s)].

Definition omitempty_int (name : string) (z : Z) : list (string * value) :=
  if (z =? 0)%Z then [] else [(name, Int z)].

Definition omitempty_bool (name : string) (b : bool) : list (string * value) :=
  if b then [(name, Bool true)] else [].

(** A [[]string]: [None] is the nil slice; an empty slice, nil or not, is
    left out. *)
Definition omitempty_strings (name : string) (l : option (list string))
    : list (string * value) :=
  match l with
  | Some (x :: rest) => [(name, Array (map Str (x :: rest)))]
  | _ => []
  end.

(** *** Decoding into a struct

    The decoder reads the members of an object in order.  A member selects
    the field of its name, or else the first field whose name matches it
    without regard to case, or no field.  A value of the right type is
    stored into the field; [null] leaves the field as it is (a slice,
    pointer or interface becomes nil); for a value of the wrong type the
    field is skipped and the first such error is returned at the end. *)

(** Folding of a member name for the case-insensitive match: ASCII
    letters to upper case, and the two non-ASCII letters that fold to an
    ASCII one (U+017F to [S], U+212A to [K]). *)
Fixpoint foldName_from (skip : nat) (s : string) : string :=
  match s with
  | EmptyString => EmptyString
  | String c s' =>
      match skip with
      | S n => foldName_from n s'
      | O =>
          if Ascii.eqb c "197" && strings.HasPrefix s' (String "191" EmptyString)
          then String "S" (foldName_from 1 s')
          else if Ascii.eqb c "226"
                  && strings.HasPrefix s' (String "132" (String "170" EmptyString))
          then String "K" (foldName_from 2 s')
          else String (byte.to_upper c) (foldName_from 0 s')
      end
  end.

Definition foldName (s : string) : string := foldName_from 0 s.

(** The field, of those named [names], that the member name [key] selects. *)
Definition select (names : list string) (key : string) : option string :=
  match find (String.eqb key) names with
  | Some n => Some n
  | None => find (fun n => String.eqb (foldName n) (foldName key)) names
  end.

Definition selects (names : list string) (name key : string) : bool :=
  match select names key with
  | Some n => String.eqb n name
  | None => false
  end.

(** The value of the field [name] after the members [ms] have been read
    into a struct whose field held [cur]; [read] stores one value. *)
Definition field {A} (names : list string) (name : string)
    (read : value -> A -> A) (ms : list (string * value)) (cur : A) : A :=
  fold_left (fun cur m => if selects names name (fst m) then read (snd m) cur else cur)
            ms cur.

Definition in_int_range (z : Z) : bool :=
  ((- 2 ^ 63 <=? z) && (z <? 2 ^ 63))%Z.

Definition read_string (v : value) (cur : string) : string :=
  match v with Str s => s | _ => cur end.

Definition read_int (v : value) (cur : Z) : Z :=
  match v with Int z => if in_int_range z then z else cur | _ => cur end.

Definition read_bool (v : value) (cur : bool) : bool :=
  match v with Bool b => b | _ => cur end.

(** Into a [[]string]: the elements are decoded over the elements already
    there (none, for a nil slice), so an element of the wrong type keeps
    what it held.  Spare capacity of the slice is not modelled. *)
Definition read_strings (v : value) (cur : option (list string)) : option (list string) :=
  match v with
  | Array elems =>
      Some (imap (fun i e => read_string e (nth i (default [] cur) EmptyString)) elems)
  | Null => None
  | _ => cur
  end.

(** Into an [any]: every value is taken; [Null] is the nil interface. *)
Definition read_any (v : value) (cur : value) : value := v.

(** Into a [*string]: a value of the wrong type still allocates the string. *)
Definition read_string_ptr (v : value) (cur : option string) : option string :=
  match v with
  | Str s => Some s
  | Null => None
  | _ => Some (default EmptyString cur)
  end.

(** The error for a value [v] of the wrong kind for the Go type [typ] of
    the field [name] of the struct [struct]. *)
Definition mismatch (v : value) (typ struct name : string) : option error :=
  Some (UnmarshalTypeError (describe v) typ struct name).

(** The error for a number that the numeric Go type [typ] cannot hold:
    it quotes the number. *)
Definition overflow (v : value) (typ struct name : string) : option error :=
  Some (UnmarshalTypeError ("number " +:+ literal v) typ struct name).

Definition check_string (struct name : string) (v : value) : option error :=
  match v with Str _ | Null => None | _ => mismatch v "string" struct name end.

Definition check_int (struct name : string) (v : value) : option error :=
  match v with
  | Int z => if in_int_range z then None else overflow v "int" struct name
  | Float _ => overflow v "int" struct name
  | Null => None
  | _ => mismatch v "int" struct name
  end.

Definition check_bool (struct name : string) (v : value) : option error :=
  match v with Bool _ | Null => None | _ => mismatch v "bool" struct name end.

(** The first of a list of results that is an error. *)
Definition first_error (errs : list (option error)) : option error :=
  head (omap id errs).

Definition check_strings (struct name : string) (v : value) : option error :=
  match v with
  | Array elems => first_error (map (check_string struct name) elems)
  | Null => None
  | _ => mismatch v "[]string" struct name
  end.

Definition check_any (v : value) : option error := None.

(** The type error of each field's values, by field name. *)
Definition checks : Type := list (string * (value -> option error)).

(** The first type error among the members [ms]. *)
Definition saved_error (names : list string) (cs : checks)
    (ms : list (string * value)) : option error :=
  first_error
    (map (fun m =>
            match select names (fst m) with
            | Some n =>
                match find (fun c => String.eqb (fst c) n) cs with
                | Some c => snd c (snd m)
                | None => None
                end
            | None => None
            end)
         ms).

(** Decoding of [v] into a struct of Go type [typ]: [fill] stores the
    members, [names] and [cs] describe the fields. *)
Definition object {T} (typ : string) (names : list string) (cs : checks)
    (fill : list (string * value) -> T -> T) (v : value) (cur : T) : T * option error :=
  match v with
  | Object ms => (fill ms cur, saved_error names cs ms)
  | Null => (cur, None)
  | _ => (cur, mismatch v typ EmptyString EmptyString)
  end.

(** An error found in an element of the field [name] of the struct
    [struct]: a type error names the innermost struct and the path of
    fields that leads to the value. *)
Definition within (struct name : string) (o : option error) : option error :=
  match o with
  | Some (UnmarshalTypeError v typ s f) =>
      if String.eqb s "" && String.eqb f ""
      then Some (UnmarshalTypeError v typ struct name)
      else Some (UnmarshalTypeError v typ s (name +:+ "." +:+ f))
  | _ => o
  end.

(** Decoding of [v] into a slice of structs, each element over the
    element already there or else over a zero value; [None] is the nil
    slice. *)
Definition read_structs {E} (zero : E) (elem : value -> E -> E * option error)
    (v : value) (cur : option (list E)) : option (list E) :=
  match v with
  | Array elems =>
      Some (imap (fun i e => fst (elem e (nth i (default [] cur) zero))) elems)
  | Null => None
  | _ => cur
  end.

Definition check_structs {E} (typ struct name : string) (zero : E)
    (elem : value -> E -> E * option error) (v : value) : option error :=
  match v with
  | Array elems => first_error (map (fun e => within struct name (snd (elem e zero))) elems)
  | Null => None
  | _ => mismatch v typ struct name
  end.

End json.

(* ================================================================== *)
(** ** What the client takes from its environment *)

(** The library functions and types the model leaves uninterpreted: the
    text of JSON documents, quoting in error messages, floating-point
    numbers, time stamps, and the clock behind [Retry-After]. *)
Class Runtime : Type := {
  (** [strconv.Quote], the [%q] verb *)
  Quote : string -> string;
  (** the bytes [json.Marshal] writes for a document *)
  encode_text : json.value -> string;
  (** the document at the front of a body, as the decoder's scanner reads
      it, or the error it stops with ([SyntaxError], [EOF] or
      [ErrUnexpectedEOF]) *)
  scan : string -> json.value + string;
  (** [float64] and the value of a JSON number *)
  float64 : Type;
  float64_zero : float64;
  parseFloat : string -> option float64;
  (** [time.Time] and its [UnmarshalJSON] *)
  Time_ : Type;
  Time_zero : Time_;
  Time_UnmarshalJSON : json.value -> Time_ + string;
  (** [parseRetryAfterHeader] of go-retryablehttp: the wait a [Retry-After]
      header asks for *)
  parseRetryAfterHeader : list string -> option Z
}.

(** [err.Error()] *)
Fixpoint Error_ `{Runtime} (err : error) : string :=
  match err with
  | errorString s => s
  | wrapError msg _ => msg
  | EscapeError s => "invalid URL escape " +:+ Quote s
  | InvalidHostError s => "invalid character " +:+ Quote s +:+ " in host name"
  | invalidPortError p => "invalid port " +:+ Quote p +:+ " after host"
  | invalidMethodError m => "net/http: invalid method " +:+ Quote m
  | urlError op u e => op +:+ " " +:+ Quote u +:+ ": " +:+ Error_ e
  | SyntaxError msg => msg
  | ErrUnexpectedEOF => "unexpected EOF"
  | EOF => "EOF"
  | UnmarshalTypeError v typ struct field =>
      if String.eqb struct "" && String.eqb field "" then
        "json: cannot unmarshal " +:+ v +:+ " into Go value of type " +:+ typ
      else
        "json: cannot unmarshal " +:+ v +:+ " into Go struct field " +:+ struct
        +:+ "." +:+ field +:+ " of type " +:+ typ
  | timeError msg => msg
  | transportError msg _ => msg
  end.

(** [fmt.Errorf(format, ...)] without [%w]: the arguments are already
    formatted into [text]. *)
Definition Errorf (text : string) : error := errorString text.

(** What the decoder's scanner stops with on a body that does not start
    with a JSON document. *)
Definition scan_error (msg : string) : error :=
  if String.eqb msg "EOF" then EOF
  else if String.eqb msg "unexpected EOF" then ErrUnexpectedEOF
  else SyntaxError msg.

(** [json.NewDecoder(body).Decode(&target)] for a target whose decoder is
    [dec]: the target after the call and the error returned. *)
Definition Decode `{Runtime} {T} (dec : json.value -> T -> T * option error)
    (body : string) (target : T) : T * option error :=
  match scan body with
  | inr msg => (target, Some (scan_error msg))
  | inl v => dec v target
  end.

(* ================================================================== *)
(** ** Package [net/http] *)

Module http.

(** [http.Header] *)
Abbreviation Header := (gmap string (list string)).

(** The bytes of an HTTP token. *)
Definition is_token_byte (c : ascii) : bool :=
  byte.is_alnum c || byte.one_of "!#$%&'*+-.^_`|~" c.

Fixpoint canonical (upper : bool) (s : string) : string :=
  match s with
  | EmptyString => EmptyString
  | String c s' =>
      let c' := if upper then byte.to_upper c else byte.to_lower c in
      String c' (canonical (Ascii.eqb c' "-") s')
  end.

(** [textproto.CanonicalMIMEHeaderKey] *)
Definition CanonicalMIMEHeaderKey (key : string) : string :=
  if strings.all is_token_byte key then canonical true key else key.

(** [h.Set(key, value)] *)
Definition Header_Set (h : Header) (key value : string) : Header :=
  <[CanonicalMIMEHeaderKey key := [value]]> h.

(** [h.Get(key)] *)
Definition Header_Get (h : Header) (key : string) : string :=
  match h !! CanonicalMIMEHeaderKey key with
  | Some (v :: _) => v
  | _ => EmptyString
  end.

(** [http.Request], as far as the client fills it.  [Body] is [None] for
    a request without a body. *)
Record Request : Type := {
  Method : string;
  URL : url.URL;
  Header_ : Header;
  Body : option string;
  Host : string
}.

Definition with_Header (req : Request) (h : Header) : Request :=
  {| Method := Method req; URL := URL req; Header_ := h;
     Body := Body req; Host := Host req |}.

(** [req.Header.Set(key, value)] *)
Definition Set_ (req : Request) (key value : string) : Request :=
  with_Header req (Header_Set (Header_ req) key value).

(** [http.Response]; [Body] is the whole body. *)
Record Response : Type := {
  StatusCode : Z;
  RespHeader : Header;
  RespBody : string
}.

Definition StatusOK : Z := 200.
Definition StatusCreated : Z := 201.
Definition StatusTooManyRequests : Z := 429.
Definition StatusNotImplemented : Z := 501.
Definition StatusServiceUnavailable : Z := 503.

(** [validMethod(method)] *)
Definition validMethod (method : string) : bool :=
  negb (String.eqb method "") && strings.all is_token_byte method.

(** [removeEmptyPort(host)] *)
Definition removeEmptyPort (host : string) : string :=
  let hasPort :=
    match strings.LastIndex host ":", strings.LastIndex host "]" with
    | Some i, Some j => Nat.ltb j i
    | Some _, None => true
    | None, _ => false
    end in
  if hasPort then strings.TrimSuffix host ":" else host.

(** [http.NewRequestWithContext(ctx, method, url, body)] *)
Definition NewRequestWithContext (method address : string) (body : option string)
    : Request + error :=
  let method := if String.eqb method "" then "GET" else method in
  if negb (validMethod method) then inr (invalidMethodError method)
  else
    let? u := url.Parse address in
    let u := url.with_Host u (removeEmptyPort (url.Host u)) in
    inl {| Method := method; URL := u; Header_ := ∅; Body := body; Host := url.Host u |}.

(** [http.Client]: whatever answers the [i]-th call to [Do] made while one
    request is being sent, with a response or with a transport error. *)
Definition Client : Type := nat -> Request -> Response + error.

End http.

(* ================================================================== *)
(** ** Package [github.com/hashicorp/go-retryablehttp] *)

Module retryablehttp.

(** What a call did on the network, in order. *)
Inductive Event : Type :=
| Sent (req : http.Request)      (* one invocation of the transport *)
| Slept (wait : Z).              (* one wait before a retry, in nanoseconds *)

Definition is_Sent (e : Event) : bool :=
  match e with Sent _ => true | Slept _ => false end.

(** The number of transport invocations in a trace. *)
Definition invocations (t : list Event) : nat := length (filter is_Sent t).

(** The waits of a trace, in order. *)
Definition waits (t : list Event) : list Z :=
  omap (fun e => match e with Slept w => Some w | Sent _ => None end) t.

(** The requests of a trace, in order. *)
Definition requests (t : list Event) : list http.Request :=
  omap (fun e => match e with Sent r => Some r | Slept _ => None end) t.

Definition Millisecond : Z := 1000000.
Definition Second : Z := 1000000000.

Record Client : Type := {
  HTTPClient : http.Client;
  RetryWaitMin : Z;
  RetryWaitMax : Z;
  RetryMax : Z;
  (** [CheckRetry(ctx, resp, err)] *)
  CheckRetry : http.Response + error -> bool * option error;
  (** [Backoff(min, max, attemptNum, resp)]; [resp] is [None] after a
      transport error *)
  Backoff : Z -> Z -> Z -> option http.Response -> Z
}.

(** [baseRetryPolicy], under [DefaultRetryPolicy] *)
Definition DefaultRetryPolicy (o : http.Response + error) : bool * option error :=
  match o with
  | inr (transportError _ permanent) => (negb permanent, None)
  | inr _ => (true, None)
  | inl resp =>
      let code := http.StatusCode resp in
      if (code =? http.StatusTooManyRequests)%Z then (true, None)
      else if (code =? 0)%Z
              || ((500 <=? code)%Z && negb (code =? http.StatusNotImplemented)%Z)
      then (true, None)
      else (false, None)
  end.

(** [DefaultBackoff]: the wait a [Retry-After] header of a 429 or 503
    response asks for, else [min * 2^attemptNum] capped at [max].  The Go
    function computes the product in floating point, where it is exact
    for the delays used here. *)
Definition DefaultBackoff `{Runtime} (min max attemptNum : Z)
    (resp : option http.Response) : Z :=
  let capped :=
    let mult := (2 ^ attemptNum * min)%Z in
    if (max <? mult)%Z then max else mult in
  match resp with
  | Some r =>
      if (http.StatusCode r =? http.StatusTooManyRequests)%Z
         || (http.StatusCode r =? http.StatusServiceUnavailable)%Z
      then match parseRetryAfterHeader (default [] (http.RespHeader r !! "Retry-After")) with
           | Some sleep => sleep
           | None => capped
           end
      else capped
  | None => capped
  end.

(** [retryablehttp.NewClient()] over the transport [net] *)
Definition NewClient `{Runtime} (net : http.Client) : Client :=
  {| HTTPClient := net;
     RetryWaitMin := 1 * Second;
     RetryWaitMax := 30 * Second;
     RetryMax := 4;
     CheckRetry := DefaultRetryPolicy;
     Backoff := DefaultBackoff |}.

(** [retryablehttp.NewRequestWithContext(ctx, method, url, rawBody)]; the
    bodies the client passes ([nil], a [*bytes.Reader], a
    [*strings.Reader]) are all accepted. *)
Definition NewRequestWithContext (method address : string) (rawBody : option string)
    : http.Request + error :=
  http.NewRequestWithContext method address rawBody.

(** [redactURL(u)] *)
Definition redactURL (u : url.URL) : string :=
  url.String_
    match url.User u with
    | Some ui =>
        if url.passwordSet ui then
          {| url.Scheme := url.Scheme u; url.Opaque := url.Opaque u;
             url.User := Some {| url.username := url.username ui;
                                 url.password := "xxxxx"; url.passwordSet := true |};
             url.Host := url.Host u; url.Path := url.Path u;
             url.RawPath := url.RawPath u; url.OmitHost := url.OmitHost u;
             url.ForceQuery := url.ForceQuery u; url.RawQuery := url.RawQuery u;
             url.Fragment := url.Fragment u; url.RawFragment := url.RawFragment u |}
        else u
    | None => u
    end.

(** What [Do] returns once its loop has ended after [attempt] attempts,
    the last of which had the outcome [o]. *)
Definition finish `{Runtime} (req : http.Request) (o : http.Response + error)
    (shouldRetry : bool) (checkErr : option error) (attempt : nat)
    : http.Response + error :=
  let gave_up :=
    http.Method req +:+ " " +:+ redactURL (http.URL req) +:+ " giving up after "
    +:+ strconv.Itoa (Z.of_nat attempt) +:+ " attempt(s)" in
  let fail (err : option error) :=
    match err with
    | None => inr (errorString gave_up)
    | Some e => inr (wrapError (gave_up +:+ ": " +:+ Error_ e) e)
    end in
  match o, checkErr with
  | inl resp, None => if shouldRetry then fail None else inl resp
  | inl _, Some e => fail (Some e)
  | inr doErr, None => fail (Some doErr)
  | inr _, Some e => fail (Some e)
  end.

(** The loop of [c.Do(req)]: attempt number [i] (from 0) with [remain]
    retries left. *)
Fixpoint attempts `{Runtime} (c : Client) (req : http.Request) (remain i : nat)
    : (http.Response + error) * list Event :=
  let o := HTTPClient c i req in
  let '(shouldRetry, checkErr) := CheckRetry c o in
  if negb shouldRetry then (finish req o shouldRetry checkErr (S i), [Sent req])
  else
    match remain with
    | O => (finish req o shouldRetry checkErr (S i), [Sent req])
    | S remain' =>
        let wait :=
          Backoff c (RetryWaitMin c) (RetryWaitMax c) (Z.of_nat i)
                  (match o with inl resp => Some resp | inr _ => None end) in
        let '(r, t) := attempts c req remain' (S i) in
        (r, Sent req :: Slept wait :: t)
    end.

(** [c.Do(req)]: the response or error, and what happened on the network. *)
Definition Do `{Runtime} (c : Client) (req : http.Request)
    : (http.Response + error) * list Event :=
  attempts c req (Z.to_nat (RetryMax c)) 0.

End retryablehttp.

(* ================================================================== *)
(** ** Package [healthchecksio]: the types *)

(** [type Error struct]: the error document of the service. *)
Module Error.

Record t : Type := {
  Err : string  (* json:"error" *)
}.

Definition zero : t :=
  {| Err := "" |}.

(** The JSON names of the fields. *)
Definition names : list string :=
  [ "error" ].

Definition checks : json.checks :=
  [ ("error", json.check_string "Error" "error") ].

(** The struct [c] after the members [ms] have been read into it. *)
Definition fill (ms : list (string * json.value)) (c : t) : t :=
  {| Err := json.field names "error" json.read_string ms (Err c) |}.

(** Decoding of a JSON value into an [Error]. *)
Definition decode : json.value -> t -> t * option error :=
  json.object "healthchecksio.Error" names checks fill.

(** [func (e Error) Error() string] *)
Definition Error (e : t) : string := Err e.

End Error.

(** [type CreateCheck struct]: the create shape of a check. *)
Module CreateCheck.

Record t : Type := {
  Name : string;  (* json:"name,omitempty" *)
  Slug : string;  (* json:"slug,omitempty" *)
  Tags : string;  (* json:"tags,omitempty" *)
  Description : string;  (* json:"desc,omitempty" *)
  Timeout : Z;  (* json:"timeout,omitempty" *)
  Grace : Z;  (* json:"grace,omitempty" *)
  Schedule : string;  (* json:"schedule,omitempty" *)
  Timezone : string;  (* json:"tz,omitempty" *)
  ManualResume : bool;  (* json:"manual_resume,omitempty" *)
  Methods : string;  (* json:"methods,omitempty" *)
  Channels : string;  (* json:"channels,omitempty" *)
  Unique : option (list string);  (* json:"unique,omitempty" *)
  StartKeywords : string;  (* json:"start_kw,omitempty" *)
  SuccessKeywords : string;  (* json:"success_kw,omitempty" *)
  FailureKeywords : string;  (* json:"failure_kw,omitempty" *)
  FilterSubject : bool;  (* json:"filter_subject,omitempty" *)
  FilterBody : bool;  (* json:"filter_body,omitempty" *)
  FilterHttpBody : bool;  (* json:"filter_http_body,omitempty" *)
  FilterDefaultFail : bool  (* json:"filter_default_fail,omitempty" *)
}.

Definition zero : t :=
  {| Name := ""; Slug := ""; Tags := ""; Description := ""; Timeout := 0%Z;
     Grace := 0%Z; Schedule := ""; Timezone := ""; ManualResume := false;
     Methods := ""; Channels := ""; Unique := None; StartKeywords := "";
     SuccessKeywords := ""; FailureKeywords := ""; FilterSubject := false;
     FilterBody := false; FilterHttpBody := false; FilterDefaultFail := false |}.

(** The JSON names of the fields. *)
Definition names : list string :=
  [ "name"; "slug"; "tags"; "desc"; "timeout"; "grace"; "schedule"; "tz";
    "manual_resume"; "methods"; "channels"; "unique"; "start_kw"; "success_kw";
    "failure_kw"; "filter_subject"; "filter_body"; "filter_http_body";
    "filter_default_fail" ].

Definition checks : json.checks :=
  [ ("name", json.check_string "CreateCheck" "name");
    ("slug", json.check_string "CreateCheck" "slug");
    ("tags", json.check_string "CreateCheck" "tags");
    ("desc", json.check_string "CreateCheck" "desc");
    ("timeout", json.check_int "CreateCheck" "timeout");
    ("grace", json.check_int "CreateCheck" "grace");
    ("schedule", json.check_string "CreateCheck" "schedule");
    ("tz", json.check_string "CreateCheck" "tz");
    ("manual_resume", json.check_bool "CreateCheck" "manual_resume");
    ("methods", json.check_string "CreateCheck" "methods");
    ("channels", json.check_string "CreateCheck" "channels");
    ("unique", json.check_strings "CreateCheck" "unique");
    ("start_kw", json.check_string "CreateCheck" "start_kw");
    ("success_kw", json.check_string "CreateCheck" "success_kw");
    ("failure_kw", json.check_string "CreateCheck" "failure_kw");
    ("filter_subject", json.check_bool "CreateCheck" "filter_subject");
    ("filter_body", json.check_bool "CreateCheck" "filter_body");
    ("filter_http_body", json.check_bool "CreateCheck" "filter_http_body");
    ("filter_default_fail", json.check_bool "CreateCheck" "filter_default_fail") ].

(** The struct [c] after the members [ms] have been read into it. *)
Definition fill (ms : list (string * json.value)) (c : t) : t :=
  {| Name := json.field names "name" json.read_string ms (Name c);
     Slug := json.field names "slug" json.read_string ms (Slug c);
     Tags := json.field names "tags" json.read_string ms (Tags c);
     Description := json.field names "desc" json.read_string ms (Description c);
     Timeout := json.field names "timeout" json.read_int ms (Timeout c);
     Grace := json.field names "grace" json.read_int ms (Grace c);
     Schedule := json.field names "schedule" json.read_string ms (Schedule c);
     Timezone := json.field names "tz" json.read_string ms (Timezone c);
     ManualResume := json.field names "manual_resume" json.read_bool ms (ManualResume c);
     Methods := json.field names "methods" json.read_string ms (Methods c);
     Channels := json.field names "channels" json.read_string ms (Channels c);
     Unique := json.field names "unique" json.read_strings ms (Unique c);
     StartKeywords := json.field names "start_kw" json.read_string ms (StartKeywords c);
     SuccessKeywords := json.field names "success_kw" json.read_string ms (SuccessKeywords c);
     FailureKeywords := json.field names "failure_kw" json.read_string ms (FailureKeywords c);
     FilterSubject := json.field names "filter_subject" json.read_bool ms (FilterSubject c);
     FilterBody := json.field names "filter_body" json.read_bool ms (FilterBody c);
     FilterHttpBody := json.field names "filter_http_body" json.read_bool ms (FilterHttpBody c);
     FilterDefaultFail :=
       json.field names "filter_default_fail" json.read_bool ms (FilterDefaultFail c) |}.

(** Decoding of a JSON value into a [CreateCheck]. *)
Definition decode : json.value -> t -> t * option error :=
  json.object "healthchecksio.CreateCheck" names checks fill.

(** [json.Marshal] of a [CreateCheck]: the fields in order, a field marked
    [omitempty] left out when it is empty. *)
Definition Marshal (c : t) : json.value :=
  json.Object
    (json.omitempty_string "name" (Name c)
     ++ json.omitempty_string "slug" (Slug c)
     ++ json.omitempty_string "tags" (Tags c)
     ++ json.omitempty_string "desc" (Description c)
     ++ json.omitempty_int "timeout" (Timeout c)
     ++ json.omitempty_int "grace" (Grace c)
     ++ json.omitempty_string "schedule" (Schedule c)
     ++ json.omitempty_string "tz" (Timezone c)
     ++ json.omitempty_bool "manual_resume" (ManualResume c)
     ++ json.omitempty_string "methods" (Methods c)
     ++ json.omitempty_string "channels" (Channels c)
     ++ json.omitempty_strings "unique" (Unique c)
     ++ json.omitempty_string "start_kw" (StartKeywords c)
     ++ json.omitempty_string "success_kw" (SuccessKeywords c)
     ++ json.omitempty_string "failure_kw" (FailureKeywords c)
     ++ json.omitempty_bool "filter_subject" (FilterSubject c)
     ++ json.omitempty_bool "filter_body" (FilterBody c)
     ++ json.omitempty_bool "filter_http_body" (FilterHttpBody c)
     ++ json.omitempty_bool "filter_default_fail" (FilterDefaultFail c)).

End CreateCheck.

(** [type UpdateCheck struct]: the update shape of a check. *)
Module UpdateCheck.

Record t : Type := {
  Name : string;  (* json:"name,omitempty" *)
  Slug : string;  (* json:"slug,omitempty" *)
  Tags : string;  (* json:"tags,omitempty" *)
  Description : string;  (* json:"desc,omitempty" *)
  Timeout : Z;  (* json:"timeout,omitempty" *)
  Grace : Z;  (* json:"grace,omitempty" *)
  Schedule : string;  (* json:"schedule,omitempty" *)
  Timezone : string;  (* json:"tz,omitempty" *)
  ManualResume : bool;  (* json:"manual_resume,omitempty" *)
  Methods : string;  (* json:"methods,omitempty" *)
  Channels : string;  (* json:"channels,omitempty" *)
  StartKeywords : string;  (* json:"start_kw,omitempty" *)
  SuccessKeywords : string;  (* json:"success_kw,omitempty" *)
  FailureKeywords : string;  (* json:"failure_kw,omitempty" *)
  FilterSubject : bool;  (* json:"filter_subject,omitempty" *)
  FilterBody : bool;  (* json:"filter_body,omitempty" *)
  FilterHttpBody : bool;  (* json:"filter_http_body,omitempty" *)
  FilterDefaultFail : bool  (* json:"filter_default_fail,omitempty" *)
}.

Definition zero : t :=
  {| Name := ""; Slug := ""; Tags := ""; Description := ""; Timeout := 0%Z;
     Grace := 0%Z; Schedule := ""; Timezone := ""; ManualResume := false;
     Methods := ""; Channels := ""; StartKeywords := ""; SuccessKeywords := "";
     FailureKeywords := ""; FilterSubject := false; FilterBody := false;
     FilterHttpBody := false; FilterDefaultFail := false |}.

(** [json.Marshal] of a [UpdateCheck]: the fields in order, a field marked
    [omitempty] left out when it is empty. *)
Definition Marshal (c : t) : json.value :=
  json.Object
    (json.omitempty_string "name" (Name c)
     ++ json.omitempty_string "slug" (Slug c)
     ++ json.omitempty_string "tags" (Tags c)
     ++ json.omitempty_string "desc" (Description c)
     ++ json.omitempty_int "timeout" (Timeout c)
     ++ json.omitempty_int "grace" (Grace c)
     ++ json.omitempty_string "schedule" (Schedule c)
     ++ json.omitempty_string "tz" (Timezone c)
     ++ json.omitempty_bool "manual_resume" (ManualResume c)
     ++ json.omitempty_string "methods" (Methods c)
     ++ json.omitempty_string "channels" (Channels c)
     ++ json.omitempty_string "start_kw" (StartKeywords c)
     ++ json.omitempty_string "success_kw" (SuccessKeywords c)
     ++ json.omitempty_string "failure_kw" (FailureKeywords c)
     ++ json.omitempty_bool "filter_subject" (FilterSubject c)
     ++ json.omitempty_bool "filter_body" (FilterBody c)
     ++ json.omitempty_bool "filter_http_body" (FilterHttpBody c)
     ++ json.omitempty_bool "filter_default_fail" (FilterDefaultFail c)).

End UpdateCheck.

(** [type Check struct]: a check as the service returns it. *)
Module Check.

Record t : Type := {
  Name : string;  (* json:"name" *)
  Slug : string;  (* json:"slug" *)
  Tags : string;  (* json:"tags" *)
  Desc : string;  (* json:"desc" *)
  Grace : Z;  (* json:"grace" *)
  NPings : Z;  (* json:"n_pings" *)
  Status : string;  (* json:"status" *)
  Started : bool;  (* json:"started" *)
  LastPing : json.value;  (* json:"last_ping" *)
  NextPing : json.value;  (* json:"next_ping" *)
  ManualResume : bool;  (* json:"manual_resume" *)
  Methods : string;  (* json:"methods" *)
  Subject : string;  (* json:"subject" *)
  SubjectFail : string;  (* json:"subject_fail" *)
  StartKw : string;  (* json:"start_kw" *)
  SuccessKw : string;  (* json:"success_kw" *)
  FailureKw : string;  (* json:"failure_kw" *)
  FilterSubject : bool;  (* json:"filter_subject" *)
  FilterBody : bool;  (* json:"filter_body" *)
  FilterHTTPBody : bool;  (* json:"filter_http_body" *)
  FilterDefaultFail : bool;  (* json:"filter_default_fail" *)
  BadgeURL : string;  (* json:"badge_url" *)
  UUID : string;  (* json:"uuid" *)
  PingURL : string;  (* json:"ping_url" *)
  UpdateURL : string;  (* json:"update_url" *)
  PauseURL : string;  (* json:"pause_url" *)
  ResumeURL : string;  (* json:"resume_url" *)
  Channels : string;  (* json:"channels" *)
  Timeout : Z  (* json:"timeout" *)
}.

Definition zero : t :=
  {| Name := ""; Slug := ""; Tags := ""; Desc := ""; Grace := 0%Z; NPings := 0%Z;
     Status := ""; Started := false; LastPing := json.Null; NextPing := json.Null;
     ManualResume := false; Methods := ""; Subject := ""; SubjectFail := "";
     StartKw := ""; SuccessKw := ""; FailureKw := ""; FilterSubject := false;
     FilterBody := false; FilterHTTPBody := false; FilterDefaultFail := false;
     BadgeURL := ""; UUID := ""; PingURL := ""; UpdateURL := ""; PauseURL := "";
     ResumeURL := ""; Channels := ""; Timeout := 0%Z |}.

(** The JSON names of the fields. *)
Definition names : list string :=
  [ "name"; "slug"; "tags"; "desc"; "grace"; "n_pings"; "status"; "started";
    "last_ping"; "next_ping"; "manual_resume"; "methods"; "subject"; "subject_fail";
    "start_kw"; "success_kw"; "failure_kw"; "filter_subject"; "filter_body";
    "filter_http_body"; "filter_default_fail"; "badge_url"; "uuid"; "ping_url";
    "update_url"; "pause_url"; "resume_url"; "channels"; "timeout" ].

Definition checks : json.checks :=
  [ ("name", json.check_string "Check" "name"); ("slug", json.check_string "Check" "slug");
    ("tags", json.check_string "Check" "tags"); ("desc", json.check_string "Check" "desc");
    ("grace", json.check_int "Check" "grace");
    ("n_pings", json.check_int "Check" "n_pings");
    ("status", json.check_string "Check" "status");
    ("started", json.check_bool "Check" "started"); ("last_ping", json.check_any);
    ("next_ping", json.check_any);
    ("manual_resume", json.check_bool "Check" "manual_resume");
    ("methods", json.check_string "Check" "methods");
    ("subject", json.check_string "Check" "subject");
    ("subject_fail", json.check_string "Check" "subject_fail");
    ("start_kw", json.check_string "Check" "start_kw");
    ("success_kw", json.check_string "Check" "success_kw");
    ("failure_kw", json.check_string "Check" "failure_kw");
    ("filter_subject", json.check_bool "Check" "filter_subject");
    ("filter_body", json.check_bool "Check" "filter_body");
    ("filter_http_body", json.check_bool "Check" "filter_http_body");
    ("filter_default_fail", json.check_bool "Check" "filter_default_fail");
    ("badge_url", json.check_string "Check" "badge_url");
    ("uuid", json.check_string "Check" "uuid");
    ("ping_url", json.check_string "Check" "ping_url");
    ("update_url", json.check_string "Check" "update_url");
    ("pause_url", json.check_string "Check" "pause_url");
    ("resume_url", json.check_string "Check" "resume_url");
    ("channels", json.check_string "Check" "channels");
    ("timeout", json.check_int "Check" "timeout") ].

(** The struct [c] after the members [ms] have been read into it. *)
Definition fill (ms : list (string * json.value)) (c : t) : t :=
  {| Name := json.field names "name" json.read_string ms (Name c);
     Slug := json.field names "slug" json.read_string ms (Slug c);
     Tags := json.field names "tags" json.read_string ms (Tags c);
     Desc := json.field names "desc" json.read_string ms (Desc c);
     Grace := json.field names "grace" json.read_int ms (Grace c);
     NPings := json.field names "n_pings" json.read_int ms (NPings c);
     Status := json.field names "status" json.read_string ms (Status c);
     Started := json.field names "started" json.read_bool ms (Started c);
     LastPing := json.field names "last_ping" json.read_any ms (LastPing c);
     NextPing := json.field names "next_ping" json.read_any ms (NextPing c);
     ManualResume := json.field names "manual_resume" json.read_bool ms (ManualResume c);
     Methods := json.field names "methods" json.read_string ms (Methods c);
     Subject := json.field names "subject" json.read_string ms (Subject c);
     SubjectFail := json.field names "subject_fail" json.read_string ms (SubjectFail c);
     StartKw := json.field names "start_kw" json.read_string ms (StartKw c);
     SuccessKw := json.field names "success_kw" json.read_string ms (SuccessKw c);
     FailureKw := json.field names "failure_kw" json.read_string ms (FailureKw c);
     FilterSubject := json.field names "filter_subject" json.read_bool ms (FilterSubject c);
     FilterBody := json.field names "filter_body" json.read_bool ms (FilterBody c);
     FilterHTTPBody := json.field names "filter_http_body" json.read_bool ms (FilterHTTPBody c);
     FilterDefaultFail :=
       json.field names "filter_default_fail" json.read_bool ms (FilterDefaultFail c);
     BadgeURL := json.field names "badge_url" json.read_string ms (BadgeURL c);
     UUID := json.field names "uuid" json.read_string ms (UUID c);
     PingURL := json.field names "ping_url" json.read_string ms (PingURL c);
     UpdateURL := json.field names "update_url" json.read_string ms (UpdateURL c);
     PauseURL := json.field names "pause_url" json.read_string ms (PauseURL c);
     ResumeURL := json.field names "resume_url" json.read_string ms (ResumeURL c);
     Channels := json.field names "channels" json.read_string ms (Channels c);
     Timeout := json.field names "timeout" json.read_int ms (Timeout c) |}.

(** Decoding of a JSON value into a [Check]. *)
Definition decode : json.value -> t -> t * option error :=
  json.object "healthchecksio.Check" names checks fill.

End Check.

(** [type Ping struct]: a ping as the service returns it. *)
Module Ping.

Section WithRuntime.
Context `{Runtime}.

Record t : Type := {
  Type_ : string;  (* json:"type" *)
  Date : Time_;  (* json:"date" *)
  N : Z;  (* json:"n" *)
  Scheme : string;  (* json:"scheme" *)
  RemoteAddr : string;  (* json:"remote_addr" *)
  Method : string;  (* json:"method" *)
  Ua : string;  (* json:"ua" *)
  Rid : string;  (* json:"rid" *)
  Duration : float64;  (* json:"duration,omitempty" *)
  BodyURL : option string  (* json:"body_url" *)
}.

Definition zero : t :=
  {| Type_ := ""; Date := Time_zero; N := 0%Z; Scheme := ""; RemoteAddr := "";
     Method := ""; Ua := ""; Rid := ""; Duration := float64_zero; BodyURL := None |}.

(** Into a [float64]. *)
Definition float_of (v : json.value) : option float64 :=
  match v with
  | json.Int z => parseFloat (strconv.Itoa z)
  | json.Float lit => parseFloat lit
  | _ => None
  end.

Definition read_float (v : json.value) (cur : float64) : float64 :=
  default cur (float_of v).

Definition check_float (name : string) (v : json.value) : option error :=
  match v, float_of v with
  | json.Null, _ => None
  | _, Some _ => None
  | (json.Int _ | json.Float _), None => json.overflow v "float64" "Ping" name
  | _, None => json.mismatch v "float64" "Ping" name
  end.

Definition check_string_ptr (name : string) (v : json.value) : option error :=
  json.check_string "Ping" name v.

(** Into a [time.Time], through its [UnmarshalJSON]; [null] is ignored. *)
Definition read_time (v : json.value) (cur : Time_) : Time_ :=
  match v with
  | json.Null => cur
  | _ => match Time_UnmarshalJSON v with inl t => t | inr _ => cur end
  end.

(** The JSON names of the fields. *)
Definition names : list string :=
  [ "type"; "date"; "n"; "scheme"; "remote_addr"; "method"; "ua"; "rid"; "duration";
    "body_url" ].

Definition checks : json.checks :=
  [ ("type", json.check_string "Ping" "type"); ("date", json.check_any);
    ("n", json.check_int "Ping" "n"); ("scheme", json.check_string "Ping" "scheme");
    ("remote_addr", json.check_string "Ping" "remote_addr");
    ("method", json.check_string "Ping" "method"); ("ua", json.check_string "Ping" "ua");
    ("rid", json.check_string "Ping" "rid"); ("duration", check_float "duration");
    ("body_url", check_string_ptr "body_url") ].

(** The struct [c] after the members [ms] have been read into it. *)
Definition fill (ms : list (string * json.value)) (c : t) : t :=
  {| Type_ := json.field names "type" json.read_string ms (Type_ c);
     Date := json.field names "date" read_time ms (Date c);
     N := json.field names "n" json.read_int ms (N c);
     Scheme := json.field names "scheme" json.read_string ms (Scheme c);
     RemoteAddr := json.field names "remote_addr" json.read_string ms (RemoteAddr c);
     Method := json.field names "method" json.read_string ms (Method c);
     Ua := json.field names "ua" json.read_string ms (Ua c);
     Rid := json.field names "rid" json.read_string ms (Rid c);
     Duration := json.field names "duration" read_float ms (Duration c);
     BodyURL := json.field names "body_url" json.read_string_ptr ms (BodyURL c) |}.

(** The error of [Time.UnmarshalJSON] on a member, which stops the
    decoding where it occurs. *)
Definition stop_error (m : string * json.value) : option error :=
  if json.selects names "date" (fst m) then
    match snd m with
    | json.Null => None
    | v => match Time_UnmarshalJSON v with inl _ => None | inr msg => Some (timeError msg) end
    end
  else None.

(** The members read before the decoding stops, and the stopping error. *)
Fixpoint until_stop (ms : list (string * json.value))
    : list (string * json.value) * option error :=
  match ms with
  | [] => ([], None)
  | m :: rest =>
      match stop_error m with
      | Some err => ([], Some err)
      | None => let '(read, err) := until_stop rest in (m :: read, err)
      end
  end.

(** Decoding of a JSON value into a [Ping]: the target, the first type
    error saved, and the error that stopped the decoding, if one did. *)
Definition decode (v : json.value) (cur : t) : t * option error * option error :=
  match v with
  | json.Object ms =>
      let '(read, stopped) := until_stop ms in
      (fill read cur, json.saved_error names checks read, stopped)
  | json.Null => (cur, None, None)
  | _ => (cur, json.mismatch v "healthchecksio.Ping" EmptyString EmptyString, None)
  end.

End WithRuntime.

End Ping.

(** [type Flip struct]: a status flip as the service returns it. *)
Module Flip.

Record t : Type := {
  Timestamp : string;  (* json:"timestamp" *)
  Up : Z  (* json:"up" *)
}.

Definition zero : t :=
  {| Timestamp := ""; Up := 0%Z |}.

(** The JSON names of the fields. *)
Definition names : list string :=
  [ "timestamp"; "up" ].

Definition checks : json.checks :=
  [ ("timestamp", json.check_string "Flip" "timestamp");
    ("up", json.check_int "Flip" "up") ].

(** The struct [c] after the members [ms] have been read into it. *)
Definition fill (ms : list (string * json.value)) (c : t) : t :=
  {| Timestamp := json.field names "timestamp" json.read_string ms (Timestamp c);
     Up := json.field names "up" json.read_int ms (Up c) |}.

(** Decoding of a JSON value into a [Flip]. *)
Definition decode : json.value -> t -> t * option error :=
  json.object "healthchecksio.Flip" names checks fill.

End Flip.

(** [type CheckListResponse struct] *)
Module CheckListResponse.

Record t : Type := {
  Checks : option (list Check.t)  (* json:"checks" *)
}.

Definition zero : t := {| Checks := None |}.

Definition names : list string := [ "checks" ].

Definition checks : json.checks :=
  [ ("checks",
     json.check_structs "[]healthchecksio.Check" "CheckListResponse" "checks"
       Check.zero Check.decode) ].

Definition fill (ms : list (string * json.value)) (c : t) : t :=
  {| Checks := json.field names "checks" (json.read_structs Check.zero Check.decode)
                          ms (Checks c) |}.

Definition decode : json.value -> t -> t * option error :=
  json.object "healthchecksio.CheckListResponse" names checks fill.

End CheckListResponse.

(** [type FlipListResponse struct] *)
Module FlipListResponse.

Record t : Type := {
  Flips : option (list Flip.t)  (* json:"flips" *)
}.

Definition zero : t := {| Flips := None |}.

Definition names : list string := [ "flips" ].

Definition checks : json.checks :=
  [ ("flips",
     json.check_structs "[]healthchecksio.Flip" "FlipListResponse" "flips"
       Flip.zero Flip.decode) ].

Definition fill (ms : list (string * json.value)) (c : t) : t :=
  {| Flips := json.field names "flips" (json.read_structs Flip.zero Flip.decode)
                         ms (Flips c) |}.

Definition decode : json.value -> t -> t * option error :=
  json.object "healthchecksio.FlipListResponse" names checks fill.

End FlipListResponse.

(** [type PingListResponse struct].  A time stamp that does not parse stops
    the decoding at once, so the pings are decoded one by one. *)
Module PingListResponse.

Section WithRuntime.
Context `{Runtime}.

Record t : Type := {
  Pings : option (list Ping.t)  (* json:"pings" *)
}.

Definition zero : t := {| Pings := None |}.

Definition names : list string := [ "pings" ].

(** The elements of an array decoded over [cur], up to the one that stops:
    the pings, the first saved error, the stopping error. *)
Fixpoint elements (elems : list json.value) (cur : list Ping.t)
    : list Ping.t * option error * option error :=
  match elems with
  | [] => ([], None, None)
  | e :: rest =>
      let '(p, sv, sp) := Ping.decode e (hd Ping.zero cur) in
      let sv := json.within "PingListResponse" "pings" sv in
      match sp with
      | Some _ => ([p], sv, sp)
      | None =>
          let '(ps, sv', sp') := elements rest (tl cur) in
          (p :: ps, json.first_error [sv; sv'], sp')
      end
  end.

(** One member read into the struct. *)
Definition member (st : t * option error * option error) (m : string * json.value)
    : t * option error * option error :=
  let '(c, sv, sp) := st in
  match sp with
  | Some _ => st
  | None =>
      if json.selects names "pings" (fst m) then
        match snd m with
        | json.Array elems =>
            let '(ps, sv', sp') := elements elems (default [] (Pings c)) in
            ({| Pings := Some ps |}, json.first_error [sv; sv'], sp')
        | json.Null => ({| Pings := None |}, sv, None)
        | v =>
            (c, json.first_error
                  [sv; json.mismatch v "[]healthchecksio.Ping" "PingListResponse" "pings"],
             None)
        end
      else st
  end.

(** Decoding of a JSON value into a [PingListResponse]: the stopping
    error, if any, is the one returned. *)
Definition decode (v : json.value) (cur : t) : t * option error :=
  match v with
  | json.Object ms =>
      let '(c, sv, sp) := fold_left member ms (cur, None, None) in
      (c, match sp with Some e => Some e | None => sv end)
  | json.Null => (cur, None)
  | _ => (cur, json.mismatch v "healthchecksio.PingListResponse" EmptyString EmptyString)
  end.

End WithRuntime.

End PingListResponse.

(** [type GetChecks struct]: the filters of [GetChecks]. *)
Module GetChecks.

Record t : Type := {
  Slug : string;
  Tags : string
}.

End GetChecks.

(** [type GetFlipsRequest struct]: the filters of [GetFlips]. *)
Module GetFlipsRequest.

Record t : Type := {
  Seconds : Z;
  Start : Z;
  End_ : Z
}.

End GetFlipsRequest.

(* ================================================================== *)
(** ** Package [healthchecksio]: the client *)

Module client.

Section WithRuntime.
Context `{Runtime}.

(** [type client struct] *)
Record client : Type := {
  apiKey : string;
  baseURL : string;
  httpClient : retryablehttp.Client
}.

(** [NewClient(apiKey)], over the transport [net] that
    [retryablehttp.NewClient()] would reach the network through. *)
Definition NewClient (net : http.Client) (apiKey : string) : client :=
  let retryClient := retryablehttp.NewClient net in
  let retryClient :=
    {| retryablehttp.HTTPClient := retryablehttp.HTTPClient retryClient;
       retryablehttp.RetryWaitMin := 500 * retryablehttp.Millisecond;
       retryablehttp.RetryWaitMax := 4 * retryablehttp.Second;
       retryablehttp.RetryMax := 5;
       retryablehttp.CheckRetry := retryablehttp.CheckRetry retryClient;
       retryablehttp.Backoff := retryablehttp.Backoff retryClient |} in
  {| apiKey := apiKey;
     baseURL := "https://healthchecks.io/api/v3";
     httpClient := retryClient |}.

(** [c.buildAddress(slugs...)] *)
Definition buildAddress (c : client) (slugs : list string) : url.URL + error :=
  match url.Parse (baseURL c) with
  | inr err => inr (wrapError ("problem parsing baseAddress: " +:+ Error_ err) err)
  | inl base => inl (url.JoinPath base slugs)
  end.

(** *** [CreateCheck]: creates a new check *)

Definition CreateCheck_address (c : client) : url.URL + error :=
  match buildAddress c ["/checks/"] with
  | inr err => inr (Errorf ("get checks: " +:+ Error_ err))
  | inl address => inl address
  end.

Definition CreateCheck_request (c : client) (check : CreateCheck.t) : http.Request + error :=
  let reqBody := encode_text (CreateCheck.Marshal check) in
  let? address := CreateCheck_address c in
  let? req := retryablehttp.NewRequestWithContext "POST" (url.String_ address) (Some reqBody) in
  let req := http.Set_ req "X-Api-Key" (apiKey c) in
  inl (http.Set_ req "Content-Type" "application/json").

Definition CreateCheck_response (resp : http.Response) : Check.t + error :=
  if negb (http.StatusCode resp =? http.StatusCreated)%Z then
    let err2 := fst (Decode Error.decode (http.RespBody resp) Error.zero) in
    inr (Errorf ("create check failed with " +:+ strconv.Itoa (http.StatusCode resp)
                 +:+ ": " +:+ Error.Error err2))
  else
    match Decode Check.decode (http.RespBody resp) Check.zero with
    | (_, Some err) => inr err
    | (v, None) => inl v
    end.

Definition CreateCheck (c : client) (check : CreateCheck.t)
    : (Check.t + error) * list retryablehttp.Event :=
  match CreateCheck_request c check with
  | inr err => (inr err, [])
  | inl req =>
      match retryablehttp.Do (httpClient c) req with
      | (inr err, trace) => (inr err, trace)
      | (inl resp, trace) => (CreateCheck_response resp, trace)
      end
  end.

(** The query of [GetChecks]. *)
Definition GetChecks_query (params : GetChecks.t) : url.Values :=
  let q : url.Values := ∅ in
  let q := if negb (String.eqb (GetChecks.Slug params) "")
           then url.Set_ q "slug" (GetChecks.Slug params) else q in
  let q := if negb (String.eqb (GetChecks.Tags params) "")
           then url.Set_ q "tags" (GetChecks.Tags params) else q in
  q.

(** *** [GetChecks]: lists all checks (query parameters: slug, tags) *)

Definition GetChecks_address (c : client) (params : GetChecks.t) : url.URL + error :=
  match buildAddress c ["/checks/"] with
  | inr err => inr (Errorf ("get checks: " +:+ Error_ err))
  | inl address => inl (url.with_RawQuery address (url.Encode (GetChecks_query params)))
  end.

Definition GetChecks_request (c : client) (params : GetChecks.t) : http.Request + error :=
  let? address := GetChecks_address c params in
  let? req := retryablehttp.NewRequestWithContext "GET" (url.String_ address) None in
  inl (http.Set_ req "X-Api-Key" (apiKey c)).

Definition GetChecks_response (resp : http.Response) : CheckListResponse.t + error :=
  if negb (http.StatusCode resp =? http.StatusOK)%Z then
    let err2 := fst (Decode Error.decode (http.RespBody resp) Error.zero) in
    inr (Errorf ("get checks failed with " +:+ strconv.Itoa (http.StatusCode resp)
                 +:+ ": " +:+ Error.Error err2))
  else
    match Decode CheckListResponse.decode (http.RespBody resp) CheckListResponse.zero with
    | (_, Some err) => inr err
    | (v, None) => inl v
    end.

Definition GetChecks (c : client) (params : GetChecks.t)
    : (CheckListResponse.t + error) * list retryablehttp.Event :=
  match GetChecks_request c params with
  | inr err => (inr err, [])
  | inl req =>
      match retryablehttp.Do (httpClient c) req with
      | (inr err, trace) => (inr err, trace)
      | (inl resp, trace) => (GetChecks_response resp, trace)
      end
  end.

(** *** [GetCheck]: retrieves a single check by UUID or unique key *)

Definition GetCheck_address (c : client) (identifier : string) : url.URL + error :=
  match buildAddress c ["/checks/"; identifier] with
  | inr err => inr (Errorf ("get checks: " +:+ Error_ err))
  | inl address => inl address
  end.

Definition GetCheck_request (c : client) (identifier : string) : http.Request + error :=
  let? address := GetCheck_address c identifier in
  let? req := retryablehttp.NewRequestWithContext "GET" (url.String_ address) None in
  inl (http.Set_ req "X-Api-Key" (apiKey c)).

Definition GetCheck_response (resp : http.Response) : Check.t + error :=
  if negb (http.StatusCode resp =? http.StatusOK)%Z then
    let err2 := fst (Decode Error.decode (http.RespBody resp) Error.zero) in
    inr (Errorf ("get check failed with " +:+ strconv.Itoa (http.StatusCode resp)
                 +:+ ": " +:+ Error.Error err2))
  else
    match Decode Check.decode (http.RespBody resp) Check.zero with
    | (_, Some err) => inr err
    | (v, None) => inl v
    end.

Definition GetCheck (c : client) (identifier : string)
    : (Check.t + error) * list retryablehttp.Event :=
  match GetCheck_request c identifier with
  | inr err => (inr err, [])
  | inl req =>
      match retryablehttp.Do (httpClient c) req with
      | (inr err, trace) => (inr err, trace)
      | (inl resp, trace) => (GetCheck_response resp, trace)
      end
  end.

(** *** [UpdateCheck]: updates an existing check by UUID *)

Definition UpdateCheck_address (c : client) (uuid : string) : url.URL + error :=
  match buildAddress c ["/checks/"; uuid] with
  | inr err => inr (Errorf ("get checks: " +:+ Error_ err))
  | inl address => inl address
  end.

Definition UpdateCheck_request (c : client) (uuid : string) (update : UpdateCheck.t)
    : http.Request + error :=
  let reqBody := encode_text (UpdateCheck.Marshal update) in
  let? address := UpdateCheck_address c uuid in
  let? req := retryablehttp.NewRequestWithContext "POST" (url.String_ address) (Some reqBody) in
  let req := http.Set_ req "X-Api-Key" (apiKey c) in
  inl (http.Set_ req "Content-Type" "application/json").

Definition UpdateCheck_response (resp : http.Response) : Check.t + error :=
  if negb (http.StatusCode resp =? http.StatusOK)%Z then
    let err2 := fst (Decode Error.decode (http.RespBody resp) Error.zero) in
    inr (Errorf ("update check failed with " +:+ strconv.Itoa (http.StatusCode resp)
                 +:+ ": " +:+ Error.Error err2))
  else
    match Decode Check.decode (http.RespBody resp) Check.zero with
    | (_, Some err) => inr err
    | (v, None) => inl v
    end.

Definition UpdateCheck (c : client) (uuid : string) (update : UpdateCheck.t)
    : (Check.t + error) * list retryablehttp.Event :=
  match UpdateCheck_request c uuid update with
  | inr err => (inr err, [])
  | inl req =>
      match retryablehttp.Do (httpClient c) req with
      | (inr err, trace) => (inr err, trace)
      | (inl resp, trace) => (UpdateCheck_response resp, trace)
      end
  end.

(** *** [DeleteCheck]: deletes a check by UUID *)

Definition DeleteCheck_address (c : client) (uuid : string) : url.URL + error :=
  match buildAddress c ["/checks/"; uuid] with
  | inr err => inr (Errorf ("get checks: " +:+ Error_ err))
  | inl address => inl address
  end.

Definition DeleteCheck_request (c : client) (uuid : string) : http.Request + error :=
  let? address := DeleteCheck_address c uuid in
  let? req := retryablehttp.NewRequestWithContext "DELETE" (url.String_ address) None in
  inl (http.Set_ req "X-Api-Key" (apiKey c)).

Definition DeleteCheck_response (resp : http.Response) : Check.t + error :=
  if negb (http.StatusCode resp =? http.StatusOK)%Z then
    let err2 := fst (Decode Error.decode (http.RespBody resp) Error.zero) in
    inr (Errorf ("delete check failed with " +:+ strconv.Itoa (http.StatusCode resp)
                 +:+ ": " +:+ Error.Error err2))
  else
    match Decode Check.decode (http.RespBody resp) Check.zero with
    | (_, Some err) => inr err
    | (v, None) => inl v
    end.

Definition DeleteCheck (c : client) (uuid : string)
    : (Check.t + error) * list retryablehttp.Event :=
  match DeleteCheck_request c uuid with
  | inr err => (inr err, [])
  | inl req =>
      match retryablehttp.Do (httpClient c) req with
      | (inr err, trace) => (inr err, trace)
      | (inl resp, trace) => (DeleteCheck_response resp, trace)
      end
  end.

(** *** [PauseCheck]: pauses a check by UUID *)

Definition PauseCheck_address (c : client) (uuid : string) : url.URL + error :=
  match buildAddress c ["/checks/"; uuid; "/pause"] with
  | inr err => inr (Errorf ("get checks: " +:+ Error_ err))
  | inl address => inl address
  end.

Definition PauseCheck_request (c : client) (uuid : string) : http.Request + error :=
  let? address := PauseCheck_address c uuid in
  let? req := retryablehttp.NewRequestWithContext "POST" (url.String_ address) None in
  inl (http.Set_ req "X-Api-Key" (apiKey c)).

Definition PauseCheck_response (resp : http.Response) : Check.t + error :=
  if negb (http.StatusCode resp =? http.StatusOK)%Z then
    let err2 := fst (Decode Error.decode (http.RespBody resp) Error.zero) in
    inr (Errorf ("pause check failed with " +:+ strconv.Itoa (http.StatusCode resp)
                 +:+ ": " +:+ Error.Error err2))
  else
    match Decode Check.decode (http.RespBody resp) Check.zero with
    | (_, Some err) => inr err
    | (v, None) => inl v
    end.

Definition PauseCheck (c : client) (uuid : string)
    : (Check.t + error) * list retryablehttp.Event :=
  match PauseCheck_request c uuid with
  | inr err => (inr err, [])
  | inl req =>
      match retryablehttp.Do (httpClient c) req with
      | (inr err, trace) => (inr err, trace)
      | (inl resp, trace) => (PauseCheck_response resp, trace)
      end
  end.

(** *** [ResumeCheck]: resumes a paused check by UUID *)

Definition ResumeCheck_address (c : client) (uuid : string) : url.URL + error :=
  match buildAddress c ["/checks/"; uuid; "/resume"] with
  | inr err => inr (Errorf ("get checks: " +:+ Error_ err))
  | inl address => inl address
  end.

Definition ResumeCheck_request (c : client) (uuid : string) : http.Request + error :=
  let? address := ResumeCheck_address c uuid in
  let? req := retryablehttp.NewRequestWithContext "POST" (url.String_ address) None in
  inl (http.Set_ req "X-Api-Key" (apiKey c)).

Definition ResumeCheck_response (resp : http.Response) : Check.t + error :=
  if negb (http.StatusCode resp =? http.StatusOK)%Z then
    let err2 := fst (Decode Error.decode (http.RespBody resp) Error.zero) in
    inr (Errorf ("resume check failed with " +:+ strconv.Itoa (http.StatusCode resp)
                 +:+ ": " +:+ Error.Error err2))
  else
    match Decode Check.decode (http.RespBody resp) Check.zero with
    | (_, Some err) => inr err
    | (v, None) => inl v
    end.

Definition ResumeCheck (c : client) (uuid : string)
    : (Check.t + error) * list retryablehttp.Event :=
  match ResumeCheck_request c uuid with
  | inr err => (inr err, [])
  | inl req =>
      match retryablehttp.Do (httpClient c) req with
      | (inr err, trace) => (inr err, trace)
      | (inl resp, trace) => (ResumeCheck_response resp, trace)
      end
  end.

(** *** [GetPings]: lists the pings of a check *)

Definition GetPings_address (c : client) (identifier : string) : url.URL + error :=
  match buildAddress c ["/checks/"; identifier; "/pings/"] with
  | inr err => inr (Errorf ("get checks: " +:+ Error_ err))
  | inl address => inl address
  end.

Definition GetPings_request (c : client) (identifier : string) : http.Request + error :=
  let? address := GetPings_address c identifier in
  let? req := retryablehttp.NewRequestWithContext "GET" (url.String_ address) None in
  inl (http.Set_ req "X-Api-Key" (apiKey c)).

Definition GetPings_response (resp : http.Response) : PingListResponse.t + error :=
  if negb (http.StatusCode resp =? http.StatusOK)%Z then
    let err2 := fst (Decode Error.decode (http.RespBody resp) Error.zero) in
    inr (Errorf ("get check failed with " +:+ strconv.Itoa (http.StatusCode resp)
                 +:+ ": " +:+ Error.Error err2))
  else
    match Decode PingListResponse.decode (http.RespBody resp) PingListResponse.zero with
    | (_, Some err) => inr err
    | (v, None) => inl v
    end.

Definition GetPings (c : client) (identifier : string)
    : (PingListResponse.t + error) * list retryablehttp.Event :=
  match GetPings_request c identifier with
  | inr err => (inr err, [])
  | inl req =>
      match retryablehttp.Do (httpClient c) req with
      | (inr err, trace) => (inr err, trace)
      | (inl resp, trace) => (GetPings_response resp, trace)
      end
  end.

(** *** [GetPingBody]: retrieves the body of the ping numbered [n] *)

Definition GetPingBody_address (c : client) (uuid : string) (n : Z) : url.URL + error :=
  match buildAddress c ["/checks/"; uuid; "/pings/"; strconv.Itoa n; "/body"] with
  | inr err => inr (Errorf ("get checks: " +:+ Error_ err))
  | inl address => inl address
  end.

Definition GetPingBody_request (c : client) (uuid : string) (n : Z) : http.Request + error :=
  let? address := GetPingBody_address c uuid n in
  let? req := retryablehttp.NewRequestWithContext "GET" (url.String_ address) None in
  inl (http.Set_ req "X-Api-Key" (apiKey c)).

Definition GetPingBody_response (resp : http.Response) : string + error :=
  if negb (http.StatusCode resp =? http.StatusOK)%Z then
    let err2 := fst (Decode Error.decode (http.RespBody resp) Error.zero) in
    inr (Errorf ("get ping body failed with " +:+ strconv.Itoa (http.StatusCode resp)
                 +:+ ": " +:+ Error.Error err2))
  else
    inl (http.RespBody resp).

Definition GetPingBody (c : client) (uuid : string) (n : Z)
    : (string + error) * list retryablehttp.Event :=
  match GetPingBody_request c uuid n with
  | inr err => (inr err, [])
  | inl req =>
      match retryablehttp.Do (httpClient c) req with
      | (inr err, trace) => (inr err, trace)
      | (inl resp, trace) => (GetPingBody_response resp, trace)
      end
  end.

(** The query of [GetFlips]. *)
Definition GetFlips_query (params : GetFlipsRequest.t) : url.Values :=
  let q : url.Values := ∅ in
  let q := if (0 <? GetFlipsRequest.Seconds params)%Z
           then url.Set_ q "seconds" (strconv.Itoa (GetFlipsRequest.Seconds params)) else q in
  let q := if (0 <? GetFlipsRequest.Start params)%Z
           then url.Set_ q "start" (strconv.Itoa (GetFlipsRequest.Start params)) else q in
  let q := if (0 <? GetFlipsRequest.End_ params)%Z
           then url.Set_ q "end" (strconv.Itoa (GetFlipsRequest.End_ params)) else q in
  q.

(** *** [GetFlips]: lists the status flips of a check (query parameters: seconds, start, end) *)

Definition GetFlips_address (c : client) (identifier : string) (params : GetFlipsRequest.t)
    : url.URL + error :=
  match buildAddress c ["/checks/"; identifier; "/flips/"] with
  | inr err => inr (Errorf ("get checks: " +:+ Error_ err))
  | inl address => inl (url.with_RawQuery address (url.Encode (GetFlips_query params)))
  end.

Definition GetFlips_request (c : client) (identifier : string) (params : GetFlipsRequest.t)
    : http.Request + error :=
  let? address := GetFlips_address c identifier params in
  let? req := retryablehttp.NewRequestWithContext "GET" (url.String_ address) None in
  inl (http.Set_ req "X-Api-Key" (apiKey c)).

Definition GetFlips_response (resp : http.Response) : FlipListResponse.t + error :=
  if negb (http.StatusCode resp =? http.StatusOK)%Z then
    let err2 := fst (Decode Error.decode (http.RespBody resp) Error.zero) in
    inr (Errorf ("get flips failed with " +:+ strconv.Itoa (http.StatusCode resp)
                 +:+ ": " +:+ Error.Error err2))
  else
    match Decode FlipListResponse.decode (http.RespBody resp) FlipListResponse.zero with
    | (_, Some err) => inr err
    | (v, None) => inl v
    end.

Definition GetFlips (c : client) (identifier : string) (params : GetFlipsRequest.t)
    : (FlipListResponse.t + error) * list retryablehttp.Event :=
  match GetFlips_request c identifier params with
  | inr err => (inr err, [])
  | inl req =>
      match retryablehttp.Do (httpClient c) req with
      | (inr err, trace) => (inr err, trace)
      | (inl resp, trace) => (GetFlips_response resp, trace)
      end
  end.

(** *** [Ping]: sends a ping to a check *)

(** [type PingOption]: a function from URL to URL. *)
Definition PingOption : Type := url.URL -> url.URL.

Definition WithStart : PingOption := fun u => url.JoinPath u ["/start"].

Definition WithFail : PingOption := fun u => url.JoinPath u ["/fail"].

Definition Ping_address (pingURL : string) (opts : list PingOption) : url.URL + error :=
  match url.Parse pingURL with
  | inr err => inr (Errorf ("parsing ping url: " +:+ Error_ err))
  | inl addr => inl (fold_left (fun addr opt => opt addr) opts addr)
  end.

Definition Ping_request (c : client) (pingURL body : string) (opts : list PingOption)
    : http.Request + error :=
  let? addr := Ping_address pingURL opts in
  let? req := retryablehttp.NewRequestWithContext "POST" (url.String_ addr) (Some body) in
  inl (http.Set_ req "User-Agent" "go-healthchecks-client").

(** The [error] result of [Ping]: [inl tt] is [nil]. *)
Definition Ping_response (resp : http.Response) : unit + error :=
  if negb (http.StatusCode resp =? http.StatusOK)%Z then
    let bs := http.RespBody resp in
    inr (Errorf ("ping failed with " +:+ strconv.Itoa (http.StatusCode resp)
                 +:+ ": " +:+ bs))
  else inl tt.

Definition Ping (c : client) (pingURL body : string) (opts : list PingOption)
    : (unit + error) * list retryablehttp.Event :=
  match Ping_request c pingURL body opts with
  | inr err => (inr err, [])
  | inl req =>
      match retryablehttp.Do (httpClient c) req with
      | (inr err, trace) => (inr (Errorf ("ping: " +:+ Error_ err)), trace)
      | (inl resp, trace) => (Ping_response resp, trace)
      end
  end.

(** *** The operations as one family *)

(** A call of one of the eleven operations of [type Client interface]. *)
Inductive Call : Type :=
| CallCreateCheck (check : CreateCheck.t)
| CallGetChecks (params : GetChecks.t)
| CallGetCheck (identifier : string)
| CallUpdateCheck (uuid : string) (update : UpdateCheck.t)
| CallDeleteCheck (uuid : string)
| CallPauseCheck (uuid : string)
| CallResumeCheck (uuid : string)
| CallGetPings (identifier : string)
| CallGetPingBody (uuid : string) (n : Z)
| CallGetFlips (identifier : string) (params : GetFlipsRequest.t)
| CallPing (pingURL body : string) (opts : list PingOption).

(** What a call returns beside its error. *)
Inductive Value : Type :=
| ACheck (ch : Check.t)
| AChecks (list : CheckListResponse.t)
| APings (list : PingListResponse.t)
| AFlips (list : FlipListResponse.t)
| AText (body : string)
| ANone.

Definition is_Ping (call : Call) : bool :=
  match call with CallPing _ _ _ => true | _ => false end.


Definition tag {A} (f : A -> Value) (r : A + error) : Value + error :=
  match r with inl a => inl (f a) | inr err => inr err end.

(** The request the call creates. *)
Definition request_of (c : client) (call : Call) : http.Request + error :=
  match call with
  | CallCreateCheck check => CreateCheck_request c check
  | CallGetChecks params => GetChecks_request c params
  | CallGetCheck identifier => GetCheck_request c identifier
  | CallUpdateCheck uuid update => UpdateCheck_request c uuid update
  | CallDeleteCheck uuid => DeleteCheck_request c uuid
  | CallPauseCheck uuid => PauseCheck_request c uuid
  | CallResumeCheck uuid => ResumeCheck_request c uuid
  | CallGetPings identifier => GetPings_request c identifier
  | CallGetPingBody uuid n => GetPingBody_request c uuid n
  | CallGetFlips identifier params => GetFlips_request c identifier params
  | CallPing pingURL body opts => Ping_request c pingURL body opts
  end.

(** What the call makes of a response. *)
Definition response_of (call : Call) (resp : http.Response) : Value + error :=
  match call with
  | CallCreateCheck _ => tag ACheck (CreateCheck_response resp)
  | CallGetChecks _ => tag AChecks (GetChecks_response resp)
  | CallGetCheck _ => tag ACheck (GetCheck_response resp)
  | CallUpdateCheck _ _ => tag ACheck (UpdateCheck_response resp)
  | CallDeleteCheck _ => tag ACheck (DeleteCheck_response resp)
  | CallPauseCheck _ => tag ACheck (PauseCheck_response resp)
  | CallResumeCheck _ => tag ACheck (ResumeCheck_response resp)
  | CallGetPings _ => tag APings (GetPings_response resp)
  | CallGetPingBody _ _ => tag AText (GetPingBody_response resp)
  | CallGetFlips _ _ => tag AFlips (GetFlips_response resp)
  | CallPing _ _ _ => tag (fun _ => ANone) (Ping_response resp)
  end.

Definition tagged {A} (f : A -> Value) (r : (A + error) * list retryablehttp.Event)
    : (Value + error) * list retryablehttp.Event :=
  (tag f (fst r), snd r).

(** The call itself: its result and what it did on the network. *)
Definition run (c : client) (call : Call) : (Value + error) * list retryablehttp.Event :=
  match call with
  | CallCreateCheck check => tagged ACheck (CreateCheck c check)
  | CallGetChecks params => tagged AChecks (GetChecks c params)
  | CallGetCheck identifier => tagged ACheck (GetCheck c identifier)
  | CallUpdateCheck uuid update => tagged ACheck (UpdateCheck c uuid update)
  | CallDeleteCheck uuid => tagged ACheck (DeleteCheck c uuid)
  | CallPauseCheck uuid => tagged ACheck (PauseCheck c uuid)
  | CallResumeCheck uuid => tagged ACheck (ResumeCheck c uuid)
  | CallGetPings identifier => tagged APings (GetPings c identifier)
  | CallGetPingBody uuid n => tagged AText (GetPingBody c uuid n)
  | CallGetFlips identifier params => tagged AFlips (GetFlips c identifier params)
  | CallPing pingURL body opts => tagged (fun _ => ANone) (Ping c pingURL body opts)
  end.

End WithRuntime.

End client.

(* ================================================================== *)
(** ** Vocabulary of the properties *)

Definition not_slash (c : ascii) : bool := negb (Ascii.eqb c "/").
Definition not_pct (c : ascii) : bool := negb (Ascii.eqb c "%").
Definition nonempty (e : string) : bool := negb (String.eqb e "").

(** An element [path.Clean] neither drops nor resolves. *)
Definition not_dots (e : string) : bool :=
  negb (String.eqb e ".") && negb (String.eqb e "..").

(** A path segment without percent sign whose elements are not [.] or [..]:
    joining it neither decodes an escape nor removes an element. *)
Definition plain_segment (s : string) : bool :=
  strings.all not_pct s
  && forallb (fun e => String.eqb e "" || not_dots e) (path.elements s).

(** The bytes of a UUID or slug: letters, digits, [-] and [_]. *)
Definition identifier_byte (c : ascii) : bool :=
  byte.is_alnum c || byte.one_of "-_" c.

(** A non-empty identifier made of such bytes. *)
Definition identifier (s : string) : bool :=
  nonempty s && strings.all identifier_byte s.

(** The bytes of a path made of identifiers. *)
Definition path_byte (c : ascii) : bool :=
  identifier_byte c || Ascii.eqb c "/".

(** The components a list of segments contributes, after those of the
    base address. *)
Definition joined_components (slugs : list string) : list string :=
  ["api"; "v3"] ++ flat_map path.components slugs.

(** The path [buildAddress] computes for plain segments: the components
    joined by single slashes, and a final slash if the last segment has one. *)
Definition joined_path (slugs : list string) : string :=
  String "/" (strings.Join (joined_components slugs) "/")
  +:+ (if strings.HasSuffix (List.last slugs "") "/" then "/" else "").

(** The base address of [NewClient], parsed. *)
Definition base_address : url.URL :=
  {| url.Scheme := "https"; url.Opaque := ""; url.User := None;
     url.Host := "healthchecks.io"; url.Path := "/api/v3"; url.RawPath := "";
     url.OmitHost := false; url.ForceQuery := false; url.RawQuery := "";
     url.Fragment := ""; url.RawFragment := "" |}.


(** The message of the error document in a body, as far as it decodes. *)
Definition remote_message `{Runtime} (body : string) : string :=
  Error.Error (fst (Decode Error.decode body Error.zero)).



(** The errors of a decoding: those of the scanner, of a value of the wrong
    type, of a time stamp. *)
Definition is_decode_error (err : error) : bool :=
  match err with
  | SyntaxError _ | ErrUnexpectedEOF | EOF | UnmarshalTypeError _ _ _ _ | timeError _ => true
  | _ => false
  end.

(** A transient failure of the transport: an outcome the retry policy
    retries, with no [Retry-After] header to set the wait. *)
Definition transient `{Runtime} (o : http.Response + error) : bool :=
  fst (retryablehttp.DefaultRetryPolicy o)
  && match o with
     | inl resp =>
         bool_decide (parseRetryAfterHeader
                        (default [] (http.RespHeader resp !! "Retry-After")) = None)
     | inr _ => true
     end.

(** The address an operation builds. *)
Definition address_of `{Runtime} (c : client.client) (call : client.Call) : url.URL + error :=
  match call with
  | client.CallCreateCheck _ => client.CreateCheck_address c
  | client.CallGetChecks params => client.GetChecks_address c params
  | client.CallGetCheck identifier => client.GetCheck_address c identifier
  | client.CallUpdateCheck uuid _ => client.UpdateCheck_address c uuid
  | client.CallDeleteCheck uuid => client.DeleteCheck_address c uuid
  | client.CallPauseCheck uuid => client.PauseCheck_address c uuid
  | client.CallResumeCheck uuid => client.ResumeCheck_address c uuid
  | client.CallGetPings identifier => client.GetPings_address c identifier
  | client.CallGetPingBody uuid n => client.GetPingBody_address c uuid n
  | client.CallGetFlips identifier params => client.GetFlips_address c identifier params
  | client.CallPing pingURL _ opts => client.Ping_address pingURL opts
  end.

(** A path [JoinPath] leaves as it is before appending to it: empty, or
    rooted, clean, and not the root alone. *)
Definition clean_path (p : string) : bool :=
  String.eqb p ""
  || (strings.first_is "/" p && String.eqb (path.Clean p) p && negb (String.eqb p "/")).

(** The text of an address up to its path, for an address with a host:
    scheme, user and host. *)
Definition origin (u : url.URL) : string :=
  (if negb (String.eqb (url.Scheme u) "") then url.Scheme u +:+ ":" else "")
  +:+ "//"
  +:+ (match url.User u with Some ui => url.Userinfo_String ui +:+ "@" | None => "" end)
  +:+ url.escape (url.Host u) url.encodeHost.

(** The text of an address after its path: query and fragment. *)
Definition query_and_fragment (u : url.URL) : string :=
  (if url.ForceQuery u || negb (String.eqb (url.RawQuery u) "")
   then "?" +:+ url.RawQuery u else "")
  +:+ (if negb (String.eqb (url.Fragment u) "") then "#" +:+ url.EscapedFragment u else "").

(** [Ping] with the options [opts] sends to the address written [text]:
    this is the text of the address it builds, and the text it creates its
    request from. *)
Definition sends_to `{Runtime} (c : client.client) (pingURL body : string)
    (opts : list client.PingOption) (text : string) : Prop :=
  (exists a, client.Ping_address pingURL opts = inl a /\ url.String_ a = text) /\
  client.Ping_request c pingURL body opts
  = (let? req := retryablehttp.NewRequestWithContext "POST" text (Some body) in
     inl (http.Set_ req "User-Agent" "go-healthchecks-client")).

(** A request with the API key, and with a content type if it has a body. *)
Definition authenticated `{Runtime} (c : client.client) (req : http.Request) : Prop :=
  http.Header_ req !! "X-Api-Key" = Some [client.apiKey c] /\
  (is_Some (http.Body req) ->
   http.Header_ req !! "Content-Type" = Some ["application/json"]).

(** One [key=value] pair of a query, if [present]. *)
Definition pair_if (present : bool) (key value : string) : list string :=
  if present then [key +:+ "=" +:+ url.QueryEscape value] else [].

(** Every error of [o] is a decoding error. *)
Definition decoding (o : option error) : Prop :=
  forall e, o = Some e -> is_decode_error e = true.

(** A response object that echoes a request document: it has every member
    of the request, and no two members whose names match the same field. *)
Definition echoes (sent : json.value) (got : list (string * json.value)) : Prop :=
  match sent with
  | json.Object ms =>
      incl ms got /\ NoDup (map (fun m => json.foldName (fst m)) got)
  | _ => False
  end.

(** A create shape as it comes back from its own encoding: an empty
    [Unique] slice comes back nil. *)
Definition decoded_again (c : CreateCheck.t) : CreateCheck.t :=
  {| CreateCheck.Name := CreateCheck.Name c; CreateCheck.Slug := CreateCheck.Slug c;
     CreateCheck.Tags := CreateCheck.Tags c;
     CreateCheck.Description := CreateCheck.Description c;
     CreateCheck.Timeout := CreateCheck.Timeout c; CreateCheck.Grace := CreateCheck.Grace c;
     CreateCheck.Schedule := CreateCheck.Schedule c;
     CreateCheck.Timezone := CreateCheck.Timezone c;
     CreateCheck.ManualResume := CreateCheck.ManualResume c;
     CreateCheck.Methods := CreateCheck.Methods c;
     CreateCheck.Channels := CreateCheck.Channels c;
     CreateCheck.Unique :=
       match CreateCheck.Unique c with Some [] => None | l => l end;
     CreateCheck.StartKeywords := CreateCheck.StartKeywords c;
     CreateCheck.SuccessKeywords := CreateCheck.SuccessKeywords c;
     CreateCheck.FailureKeywords := CreateCheck.FailureKeywords c;
     CreateCheck.FilterSubject := CreateCheck.FilterSubject c;
     CreateCheck.FilterBody := CreateCheck.FilterBody c;
     CreateCheck.FilterHttpBody := CreateCheck.FilterHttpBody c;
     CreateCheck.FilterDefaultFail := CreateCheck.FilterDefaultFail c |}.

(** The fields of the create shape that [Check] declares too, each held by
    the check [r] whenever the create shape [c] sets it. *)
Definition keeps_create_fields (c : CreateCheck.t) (r : Check.t) : Prop :=
  (CreateCheck.Name c <> "" -> Check.Name r = CreateCheck.Name c) /\
  (CreateCheck.Slug c <> "" -> Check.Slug r = CreateCheck.Slug c) /\
  (CreateCheck.Tags c <> "" -> Check.Tags r = CreateCheck.Tags c) /\
  (CreateCheck.Description c <> "" -> Check.Desc r = CreateCheck.Description c) /\
  (CreateCheck.Timeout c <> 0%Z -> Check.Timeout r = CreateCheck.Timeout c) /\
  (CreateCheck.Grace c <> 0%Z -> Check.Grace r = CreateCheck.Grace c) /\
  (CreateCheck.ManualResume c = true -> Check.ManualResume r = true) /\
  (CreateCheck.Methods c <> "" -> Check.Methods r = CreateCheck.Methods c) /\
  (CreateCheck.Channels c <> "" -> Check.Channels r = CreateCheck.Channels c) /\
  (CreateCheck.StartKeywords c <> "" -> Check.StartKw r = CreateCheck.StartKeywords c) /\
  (CreateCheck.SuccessKeywords c <> "" -> Check.SuccessKw r = CreateCheck.SuccessKeywords c) /\
  (CreateCheck.FailureKeywords c <> "" -> Check.FailureKw r = CreateCheck.FailureKeywords c) /\
  (CreateCheck.FilterSubject c = true -> Check.FilterSubject r = true) /\
  (CreateCheck.FilterBody c = true -> Check.FilterBody r = true) /\
  (CreateCheck.FilterHttpBody c = true -> Check.FilterHTTPBody r = true) /\
  (CreateCheck.FilterDefaultFail c = true -> Check.FilterDefaultFail r = true).

(** An integer a Go [int] can hold. *)
Definition is_int (z : Z) : Prop := (- 2 ^ 63 <= z < 2 ^ 63)%Z.

(** *** Retries *)

(** The waits a retry policy schedules before its retries, when no
    [Retry-After] header sets them: [RetryWaitMin] doubled at each attempt
    and capped at [RetryWaitMax]. *)
Definition backoff_schedule (policy : retryablehttp.Client) : list Z :=
  map (fun i => Z.min (retryablehttp.RetryWaitMax policy)
                      (2 ^ Z.of_nat i * retryablehttp.RetryWaitMin policy))
      (seq 0 (Z.to_nat (retryablehttp.RetryMax policy))).

(** A wait the policy of [NewClient] allows: within its bounds, or asked
    for by a [Retry-After] header. *)
Definition allowed_wait `{Runtime} (w : Z) : Prop :=
  (500 * retryablehttp.Millisecond <= w <= 4 * retryablehttp.Second)%Z
  \/ exists header, parseRetryAfterHeader header = Some w.

(** The text [Do] fails with after [attempts] attempts. *)
Definition gave_up (req : http.Request) (attempts : Z) : string :=
  http.Method req +:+ " " +:+ retryablehttp.redactURL (http.URL req)
  +:+ " giving up after " +:+ strconv.Itoa attempts +:+ " attempt(s)".

(** The error [Do] fails with after [attempts] attempts, the last of which
    had the outcome [last]: it wraps the error of the transport, if that is
    what the last attempt ended with. *)
Definition stopped `{Runtime} (req : http.Request) (attempts : Z)
    (last : http.Response + error) : error :=
  match last with
  | inl _ => errorString (gave_up req attempts)
  | inr e => wrapError (gave_up req attempts +:+ ": " +:+ Error_ e) e
  end.

(** What an operation makes of an error of [Do]: [Ping] formats it into a
    new error, the others return it as it is. *)
Definition do_error `{Runtime} (call : client.Call) (err : error) : error :=
  if client.is_Ping call then errorString ("ping: " +:+ Error_ err) else err.

(** *** Requests *)

(** The method of the request of each operation. *)
Definition method_of (call : client.Call) : string :=
  match call with
  | client.CallCreateCheck _ | client.CallUpdateCheck _ _
  | client.CallPauseCheck _ | client.CallResumeCheck _ | client.CallPing _ _ _ => "POST"
  | client.CallDeleteCheck _ => "DELETE"
  | _ => "GET"
  end.

(** The body of the request of each operation. *)
Definition body_of `{Runtime} (call : client.Call) : option string :=
  match call with
  | client.CallCreateCheck check => Some (encode_text (CreateCheck.Marshal check))
  | client.CallUpdateCheck _ update => Some (encode_text (UpdateCheck.Marshal update))
  | client.CallPing _ body _ => Some body
  | _ => None
  end.

(** The query of the address of each API operation. *)
Definition query_of (call : client.Call) : string :=
  match call with
  | client.CallGetChecks params => url.Encode (client.GetChecks_query params)
  | client.CallGetFlips _ params => url.Encode (client.GetFlips_query params)
  | _ => ""
  end.

(** The operation [call] creates a request with this method and body for
    the address written [text]. *)
Definition requests_at `{Runtime} (c : client.client) (call : client.Call)
    (method : string) (body : option string) (text : string) : Prop :=
  exists req,
    client.request_of c call = inl req /\
    http.Method req = method /\ http.Body req = body /\
    url.String_ (http.URL req) = text.

(** The end of the text of an address with the query [q]. *)
Definition query_text (q : string) : string :=
  if String.eqb q "" then "" else "?" +:+ q.

(** A byte that ends neither the path nor the query of an address when it
    is parsed: no control byte, [?] or [#]. *)
Definition address_byte (c : ascii) : bool :=
  negb ((byte.code c <? 32)%N || Ascii.eqb c "127")
  && negb (Ascii.eqb c "?") && negb (Ascii.eqb c "#").

(** A byte that does not separate the pairs of a query. *)
Definition value_byte (c : ascii) : bool := negb (byte.one_of "&=;" c).

(** *** Documents *)

(** A value [omitempty] leaves out. *)
Definition is_empty_value (v : json.value) : bool :=
  match v with
  | json.Str "" | json.Int 0 | json.Bool false | json.Array [] | json.Null => true
  | _ => false
  end.

(** The members of a document that is an object. *)
Definition members_of (v : json.value) : list (string * json.value) :=
  match v with json.Object ms => ms | _ => [] end.

(* ================================================================== *)
(** ** Example inputs *)

(** The double quote. *)
Definition dq : string := String "034" "".

(** [{"error":"X"}] and [{"error":"X","error":5}] *)
Definition error_document : string :=
  "{" +:+ dq +:+ "error" +:+ dq +:+ ":" +:+ dq +:+ "X" +:+ dq +:+ "}".
Definition twice_error_document : string :=
  "{" +:+ dq +:+ "error" +:+ dq +:+ ":" +:+ dq +:+ "X" +:+ dq +:+ ","
  +:+ dq +:+ "error" +:+ dq +:+ ":5}".

(** [{"name":"db"}] *)
Definition name_document : string :=
  "{" +:+ dq +:+ "name" +:+ dq +:+ ":" +:+ dq +:+ "db" +:+ dq +:+ "}".

(** A runtime that writes and reads the documents of the examples, and
    nothing else as JSON. *)
Definition example_runtime : Runtime :=
  {| Quote := fun s => dq +:+ s +:+ dq;
     encode_text := fun v =>
       match v with
       | json.Object [] => "{}"
       | json.Object [("name", json.Str "db")] => name_document
       | _ => "{...}"
       end;
     scan := fun body =>
       if String.eqb body error_document then
         inl (json.Object [("error", json.Str "X")])
       else if String.eqb body twice_error_document then
         inl (json.Object [("error", json.Str "X"); ("error", json.Int 5)])
       else if String.eqb body name_document then
         inl (json.Object [("name", json.Str "db")])
       else if String.eqb body "{}" then inl (json.Object [])
       else if String.eqb body "" then inr "EOF"
       else inr "invalid character looking for beginning of value";
     float64 := Z;
     float64_zero := 0%Z;
     parseFloat := fun _ => None;
     Time_ := string;
     Time_zero := "";
     Time_UnmarshalJSON := fun v =>
       match v with
       | json.Str s => inl s
       | _ => inr "Time.UnmarshalJSON: input is not a JSON string"
       end;
     parseRetryAfterHeader := fun _ => None |}.

(** Create shapes: one with a name, one with a schedule, one with an empty
    list of unique fields. *)
Definition named_check : CreateCheck.t :=
  {| CreateCheck.Name := "db"; CreateCheck.Slug := ""; CreateCheck.Tags := "";
     CreateCheck.Description := ""; CreateCheck.Timeout := 0%Z; CreateCheck.Grace := 0%Z;
     CreateCheck.Schedule := ""; CreateCheck.Timezone := "";
     CreateCheck.ManualResume := false; CreateCheck.Methods := "";
     CreateCheck.Channels := ""; CreateCheck.Unique := None;
     CreateCheck.StartKeywords := ""; CreateCheck.SuccessKeywords := "";
     CreateCheck.FailureKeywords := ""; CreateCheck.FilterSubject := false;
     CreateCheck.FilterBody := false; CreateCheck.FilterHttpBody := false;
     CreateCheck.FilterDefaultFail := false |}.

Definition cron_check : CreateCheck.t :=
  {| CreateCheck.Name := ""; CreateCheck.Slug := ""; CreateCheck.Tags := "";
     CreateCheck.Description := ""; CreateCheck.Timeout := 0%Z; CreateCheck.Grace := 0%Z;
     CreateCheck.Schedule := "15 5 * * *"; CreateCheck.Timezone := "";
     CreateCheck.ManualResume := false; CreateCheck.Methods := "";
     CreateCheck.Channels := ""; CreateCheck.Unique := None;
     CreateCheck.StartKeywords := ""; CreateCheck.SuccessKeywords := "";
     CreateCheck.FailureKeywords := ""; CreateCheck.FilterSubject := false;
     CreateCheck.FilterBody := false; CreateCheck.FilterHttpBody := false;
     CreateCheck.FilterDefaultFail := false |}.

Definition unique_check : CreateCheck.t :=
  {| CreateCheck.Name := ""; CreateCheck.Slug := ""; CreateCheck.Tags := "";
     CreateCheck.Description := ""; CreateCheck.Timeout := 0%Z; CreateCheck.Grace := 0%Z;
     CreateCheck.Schedule := ""; CreateCheck.Timezone := "";
     CreateCheck.ManualResume := false; CreateCheck.Methods := "";
     CreateCheck.Channels := ""; CreateCheck.Unique := Some [];
     CreateCheck.StartKeywords := ""; CreateCheck.SuccessKeywords := "";
     CreateCheck.FailureKeywords := ""; CreateCheck.FilterSubject := false;
     CreateCheck.FilterBody := false; CreateCheck.FilterHttpBody := false;
     CreateCheck.FilterDefaultFail := false |}.

(** A network that refuses every connection. *)
Definition net_down : http.Client :=
  fun _ _ => inr (transportError "dial tcp: connection refused" false).


Definition reply (code : Z) (body : string) : http.Response :=
  {| http.StatusCode := code; http.RespHeader := ∅; http.RespBody := body |}.

(** A network that refuses the first [n] connections and then answers
    with [resp]. *)
Definition net_recovers (n : nat) (resp : http.Response) : http.Client :=
  fun i req => if (i <? n)%nat then net_down i req else inl resp.

(** A network that refuses the first [n] connections and then fails for
    good with [msg]. *)
Definition net_breaks (n : nat) (msg : string) : http.Client :=
  fun i req => if (i <? n)%nat then net_down i req else inr (transportError msg true).

Example Clean_doc_1 : path.Clean "a//c" = "a/c". Proof. reflexivity. Qed.
Example Clean_doc_2 : path.Clean "/../a/b/../././/c" = "/a/c". Proof. reflexivity. Qed.
Example Clean_doc_3 : path.Clean "abc/../../././../def" = "../../def". Proof. reflexivity. Qed.
Example Clean_doc_4 : path.Clean "abc/def/../../.." = "..". Proof. reflexivity. Qed.
Example Clean_doc_5 : path.Clean "/abc/" = "/abc". Proof. reflexivity. Qed.
Example Itoa_neg : strconv.Itoa (-12) = "-12". Proof. reflexivity. Qed.
Example Itoa_zero : strconv.Itoa 0 = "0". Proof. reflexivity. Qed.

Example Parse_base :
  url.Parse "https://healthchecks.io/api/v3" =
  inl (url.with_Path (url.with_Host {| url.Scheme := "https"; url.Opaque := ""; url.User := None;
         url.Host := ""; url.Path := ""; url.RawPath := ""; url.OmitHost := false;
         url.ForceQuery := false; url.RawQuery := ""; url.Fragment := "";
         url.RawFragment := "" |} "healthchecks.io") "/api/v3" "").
Proof. reflexivity. Qed.

(* ================================================================== *)
(** * Facts about the libraries *)

#[local] Arguments String.app !_ _ / : simpl nomatch.

(* ================================================================== *)
(** * Facts about strings *)

Section StringFacts.

Implicit Types (s t u : string) (c : ascii) (p : ascii -> bool).

Lemma str_app_nil_r s : s +:+ "" = s.
Proof. induction s as [|c s IH]; simpl; [done | by f_equal]. Qed.

Lemma str_app_assoc s t u : (s +:+ t) +:+ u = s +:+ (t +:+ u).
Proof. induction s as [|c s IH]; simpl; [done | by f_equal]. Qed.

Lemma str_app_length s t : String.length (s +:+ t) = String.length s + String.length t.
Proof. induction s as [|c s IH]; simpl; [done | by f_equal]. Qed.

Lemma str_eqb_eq s t : String.eqb s t = true <-> s = t.
Proof. apply String.eqb_eq. Qed.

Lemma str_eqb_refl s : String.eqb s s = true.
Proof. apply String.eqb_refl. Qed.

Lemma str_eqb_neq s t : String.eqb s t = false <-> s <> t.
Proof. apply String.eqb_neq. Qed.

Lemma all_app p s t : strings.all p (s +:+ t) = strings.all p s && strings.all p t.
Proof. induction s as [|c s IH]; simpl; [done | by rewrite <- andb_assoc; f_equal]. Qed.

Lemma all_impl p q s :
  (forall c, p c = true -> q c = true) -> strings.all p s = true -> strings.all q s = true.
Proof.
  intros Hpq. induction s as [|c s IH]; simpl; [done|].
  intros [Hc Hs]%andb_true_iff. rewrite (Hpq _ Hc). by apply IH.
Qed.

Lemma slice_to_app s t : strings.slice_to (String.length s) (s +:+ t) = s.
Proof. induction s as [|c s IH]; simpl; [by destruct t | by f_equal]. Qed.

Lemma slice_from_app s t : strings.slice_from (String.length s) (s +:+ t) = t.
Proof. induction s as [|c s IH]; simpl; [by destruct t | exact IH]. Qed.

Lemma HasPrefix_app s t : strings.HasPrefix (s +:+ t) s = true.
Proof. induction s as [|c s IH]; simpl; [done | by rewrite Ascii.eqb_refl]. Qed.

(** A string whose bytes all differ from [c] does not contain [c]. *)
Lemma Index_byte_none s c :
  strings.all (fun x => negb (Ascii.eqb x c)) s = true ->
  strings.Index s (String c "") = None.
Proof.
  induction s as [|x s IH]; simpl; [done|].
  intros [Hx Hs]%andb_true_iff. apply negb_true_iff in Hx. rewrite Hx. simpl.
  by rewrite IH.
Qed.

Lemma Index_byte_app s t c :
  strings.all (fun x => negb (Ascii.eqb x c)) s = true ->
  strings.Index (s +:+ String c t) (String c "") = Some (String.length s).
Proof.
  induction s as [|x s IH]; simpl.
  - intros _. by rewrite Ascii.eqb_refl.
  - intros [Hx Hs]%andb_true_iff. apply negb_true_iff in Hx. rewrite Hx. simpl.
    by rewrite IH.
Qed.

Lemma Cut_byte_none s c :
  strings.all (fun x => negb (Ascii.eqb x c)) s = true ->
  strings.Cut s (String c "") = (s, "", false).
Proof. intros Hs. unfold strings.Cut. by rewrite Index_byte_none. Qed.

Lemma LastIndex_byte_none s c :
  strings.all (fun x => negb (Ascii.eqb x c)) s = true ->
  strings.LastIndex s (String c "") = None.
Proof.
  induction s as [|x s IH]; simpl; [done|].
  intros [Hx Hs]%andb_true_iff. apply negb_true_iff in Hx. by rewrite IH, Hx.
Qed.

Lemma HasSuffix_byte_none s c :
  strings.all (fun x => negb (Ascii.eqb x c)) s = true ->
  strings.HasSuffix s (String c "") = false.
Proof.
  induction s as [|x s IH]; simpl; [done|].
  intros [Hx Hs]%andb_true_iff. rewrite IH by done.
  apply negb_true_iff in Hx. by rewrite Hx.
Qed.

Lemma HasSuffix_snoc s c d :
  strings.HasSuffix (s +:+ String c "") (String d "") = Ascii.eqb c d.
Proof.
  induction s as [|x s IH]; simpl.
  - by destruct (Ascii.eqb c d).
  - rewrite IH. destruct (Ascii.eqb x d); [|done]. by destruct s.
Qed.

End StringFacts.

(* ================================================================== *)
(** * Facts about [path] *)

Section PathFacts.

Implicit Types (s t buf : string) (e : string) (l out : list string).

Lemma elements_nonnil s : path.elements s <> [].
Proof.
  destruct s as [|c s]; simpl; [done|].
  destruct (Ascii.eqb c "/"); [done|]. by destruct (path.elements s).
Qed.

Lemma elements_no_slash s :
  strings.all not_slash s = true -> path.elements s = [s].
Proof.
  induction s as [|c s IH]; simpl; [done|].
  intros [Hc Hs]%andb_true_iff. apply negb_true_iff in Hc. rewrite Hc.
  by rewrite IH.
Qed.

Lemma elements_app_slash s t :
  path.elements (s +:+ String "/" t) = path.elements s ++ path.elements t.
Proof.
  induction s as [|c s IH]; simpl; [done|].
  destruct (Ascii.eqb c "/"); simpl; [by rewrite IH|].
  rewrite IH. pose proof (elements_nonnil s). by destruct (path.elements s).
Qed.

Lemma elements_all p s :
  strings.all p s = true -> Forall (fun e => strings.all p e = true) (path.elements s).
Proof.
  induction s as [|c s IH]; simpl; [by repeat constructor|].
  intros [Hc Hs]%andb_true_iff. specialize (IH Hs).
  destruct (Ascii.eqb c "/"); [by constructor|].
  pose proof (elements_nonnil s). destruct (path.elements s) as [|e l]; [done|].
  inversion_clear IH. constructor; [|done]. simpl. by rewrite Hc.
Qed.

Lemma elements_not_slash s :
  Forall (fun e => strings.all not_slash e = true) (path.elements s).
Proof.
  induction s as [|c s IH]; simpl; [by repeat constructor|].
  destruct (Ascii.eqb c "/") eqn:Hc; [by constructor|].
  pose proof (elements_nonnil s). destruct (path.elements s) as [|e l]; [done|].
  inversion_clear IH. constructor; [|done]. simpl. unfold not_slash at 1. by rewrite Hc.
Qed.

(** [Clean] keeps the non-empty elements of a path without dots. *)
Lemma clean_step_plain rooted l out :
  Forall (fun e => e = "" \/ not_dots e = true) l ->
  fold_left (path.clean_step rooted) l out = rev (List.filter nonempty l) ++ out.
Proof.
  intros Hl. revert out. induction Hl as [|e l He Hl IH]; intros out; simpl; [done|].
  rewrite IH. unfold path.clean_step, nonempty at 2.
  destruct He as [->|He]; simpl; [done|].
  apply andb_true_iff in He as [H1%negb_true_iff H2%negb_true_iff].
  rewrite H1, H2. destruct (String.eqb e "") eqn:E; simpl; [done|].
  by rewrite <- app_assoc.
Qed.

Lemma join_buf_nonempty buf l :
  buf <> "" ->
  path.join_buf buf l = fold_left (fun b e => b +:+ String "/" e) l buf.
Proof.
  revert buf. induction l as [|e l IH]; intros buf Hbuf; simpl; [done|].
  apply str_eqb_neq in Hbuf. rewrite Hbuf. simpl. apply IH. by destruct buf.
Qed.

Lemma elements_fold_slash buf l :
  path.elements (fold_left (fun b e => b +:+ String "/" e) l buf)
  = path.elements buf ++ flat_map path.elements l.
Proof.
  revert buf. induction l as [|e l IH]; intros buf; simpl; [by rewrite app_nil_r|].
  by rewrite IH, elements_app_slash, <- app_assoc.
Qed.

Lemma filter_flat_map {A B} (f : B -> bool) (g : A -> list B) (l : list A) :
  List.filter f (flat_map g l) = flat_map (fun a => List.filter f (g a)) l.
Proof. induction l as [|a l IH]; simpl; [done|]. by rewrite List.filter_app, IH. Qed.

Lemma Clean_rooted b :
  path.Clean (String "/" b)
  = "/" +:+ strings.Join
              (rev (fold_left (path.clean_step true) (path.elements (String "/" b)) [])) "/".
Proof. reflexivity. Qed.

(** [path.Join] of a rooted first element and further elements, none of
    which has a dot element: the non-empty elements, in order. *)
Lemma Join_plain first l :
  strings.first_is "/" first = true ->
  Forall (fun s => Forall (fun e => e = "" \/ not_dots e = true) (path.elements s))
         (first :: l) ->
  path.Join (first :: l)
  = String "/" (strings.Join (path.components first ++ flat_map path.components l) "/").
Proof.
  intros Hroot Hall. unfold path.Join. simpl forallb.
  destruct first as [|c first]; [done|]. simpl in Hroot.
  replace (String.eqb (String c first) "") with false by done. simpl andb. cbv iota.
  simpl path.join_buf. rewrite join_buf_nonempty by done.
  set (buf := fold_left _ l _).
  assert (exists b, buf = String "/" b) as [b Hb].
  { subst buf. apply Ascii.eqb_eq in Hroot as ->. clear.
    generalize first. induction l as [|e l IH]; intros f; simpl; [by eexists|]. apply IH. }
  rewrite Hb, Clean_rooted, <- Hb. subst buf.
  rewrite elements_fold_slash, clean_step_plain.
  - rewrite app_nil_r, rev_involutive, List.filter_app, filter_flat_map. done.
  - apply Forall_app. inversion_clear Hall as [|? ? H1 H2]. split; [done|].
    clear -H2. induction H2; simpl; [done|]. by apply Forall_app.
Qed.

End PathFacts.

(* ================================================================== *)
(** * Facts about [net/url] escaping *)

Section EscapeFacts.

Implicit Types (s t : string) (c : ascii).

(** Decoding the two hex digits of an escape gives the byte back. *)
Lemma unhex_upperhex c :
  ascii_of_N (N.lor (N.shiftl (byte.unhex (byte.upperhex (N.shiftr (byte.code c) 4))) 4)
                    (byte.unhex (byte.upperhex (N.land (byte.code c) 15)))) = c.
Proof. destruct c as [[] [] [] [] [] [] [] []]; reflexivity. Qed.

Lemma ishex_upperhex c :
  byte.ishex (byte.upperhex (N.shiftr (byte.code c) 4))
  && byte.ishex (byte.upperhex (N.land (byte.code c) 15)) = true.
Proof. destruct c as [[] [] [] [] [] [] [] []]; reflexivity. Qed.

Lemma shouldEscape_pct c mode :
  url.shouldEscape c mode = false -> Ascii.eqb c "%" = false.
Proof.
  destruct (Ascii.eqb_spec c "%") as [->|]; [|done]. by destruct mode.
Qed.

Lemma pct_app c s : url.pct c s = url.pct c "" +:+ s.
Proof. reflexivity. Qed.

Lemma escape_app s t mode :
  url.escape (s +:+ t) mode = url.escape s mode +:+ url.escape t mode.
Proof.
  induction s as [|c s IH]; simpl; [done|]. rewrite IH.
  destruct (url.shouldEscape c mode); [|done].
  destruct mode; try done. by destruct (Ascii.eqb c " ").
Qed.

Lemma escape_eq_nil s mode : url.escape s mode = "" -> s = "".
Proof.
  destruct s as [|c s]; simpl; [done|].
  destruct (url.shouldEscape c mode); [|done].
  destruct mode; try done. by destruct (Ascii.eqb c " ").
Qed.

(** A string without [%] is its own decoding. *)
Lemma unescape_no_pct s :
  strings.all not_pct s = true -> url.unescape s url.encodePath = inl s.
Proof.
  induction s as [|c s IH]; simpl; [done|].
  intros [Hc Hs]%andb_true_iff. apply negb_true_iff in Hc. rewrite Hc, (IH Hs).
  by destruct (Ascii.eqb c "+").
Qed.

(** Decoding undoes escaping. *)
Lemma unescape_escape s :
  url.unescape (url.escape s url.encodePath) url.encodePath = inl s.
Proof.
  induction s as [|c s IH]; simpl; [done|].
  destruct (url.shouldEscape c url.encodePath) eqn:Hc.
  - unfold url.pct. simpl. rewrite ishex_upperhex. simpl. rewrite IH.
    by rewrite unhex_upperhex.
  - simpl. rewrite (shouldEscape_pct _ _ Hc), IH. by destruct (Ascii.eqb c "+").
Qed.

(** Escaping introduces no slash. *)
Lemma pct_not_slash c : strings.all not_slash (url.pct c "") = true.
Proof. destruct c as [[] [] [] [] [] [] [] []]; reflexivity. Qed.

Lemma escape_not_slash s :
  strings.all not_slash s = true ->
  strings.all not_slash (url.escape s url.encodePath) = true.
Proof.
  induction s as [|c s IH]; simpl; [done|].
  intros [Hc Hs]%andb_true_iff.
  destruct (url.shouldEscape c url.encodePath).
  - rewrite pct_app, all_app, pct_not_slash. by apply IH.
  - simpl. rewrite Hc. by apply IH.
Qed.

Lemma escape_slash s :
  url.escape (String "/" s) url.encodePath = String "/" (url.escape s url.encodePath).
Proof. reflexivity. Qed.

Lemma validEncoded_app s t mode :
  url.validEncoded (s +:+ t) mode = url.validEncoded s mode && url.validEncoded t mode.
Proof. induction s as [|c s IH]; simpl; [done|]. by rewrite IH, andb_assoc. Qed.

(** Decoding goes through concatenation. *)
Lemma unescape_app s t s' t' :
  url.unescape s url.encodePath = inl s' ->
  url.unescape t url.encodePath = inl t' ->
  url.unescape (s +:+ t) url.encodePath = inl (s' +:+ t').
Proof.
  intros Hs Ht. revert s' Hs.
  induction s as [s IH] using (induction_ltof1 _ String.length). unfold ltof in IH.
  intros s' Hs. destruct s as [|c s]; [by injection Hs as <-|].
  simpl in Hs |- *.
  destruct (Ascii.eqb c "%").
  - destruct s as [|h [|l s]]; [done..|]. simpl.
    destruct (negb (byte.ishex h && byte.ishex l)); [done|].
    destruct (url.unescape s url.encodePath) as [r|] eqn:Hr; [|done].
    injection Hs as <-. rewrite (IH s) with (s' := r); [done| simpl; lia | done].
  - destruct (Ascii.eqb c "+").
    + destruct (url.unescape s url.encodePath) as [r|] eqn:Hr; [|done].
      injection Hs as <-. rewrite (IH s) with (s' := r); [done| simpl; lia | done].
    + simpl in Hs |- *.
      destruct (url.unescape s url.encodePath) as [r|] eqn:Hr; [|done].
      injection Hs as <-. rewrite (IH s) with (s' := r); [done| simpl; lia | done].
Qed.

End EscapeFacts.

(* ================================================================== *)
(** * Facts about joined paths *)

Section JoinFacts.

Implicit Types (s t e : string) (l : list string).

Lemma HasSuffix_app_byte s t d :
  t <> "" -> strings.HasSuffix (s +:+ t) (String d "") = strings.HasSuffix t (String d "").
Proof.
  intros Ht. induction s as [|x s IH]; simpl; [done|]. rewrite IH.
  destruct (Ascii.eqb x d); [|done].
  destruct (s +:+ t) eqn:E; [|done]. by destruct s, t.
Qed.

Lemma all_Join p l :
  p "/"%char = true -> Forall (fun e => strings.all p e = true) l ->
  strings.all p (strings.Join l "/") = true.
Proof.
  intros Hp Hl. induction Hl as [|e l He Hl IH]; [done|].
  destruct l as [|e' l]; [done|].
  change (strings.Join (e :: e' :: l) "/") with (e +:+ String "/" (strings.Join (e' :: l) "/")).
  rewrite all_app, He. cbn [strings.all andb]. by rewrite Hp, IH.
Qed.

Lemma Join_cons e e' l :
  strings.Join (e :: e' :: l) "/" = e +:+ String "/" (strings.Join (e' :: l) "/").
Proof. reflexivity. Qed.

(** The elements of joined components are the components. *)
Lemma elements_Join l :
  l <> [] -> Forall (fun e => strings.all not_slash e = true) l ->
  path.elements (strings.Join l "/") = l.
Proof.
  intros Hne Hl. induction Hl as [|e l He Hl IH]; [done|].
  destruct l as [|e' l]; [by apply elements_no_slash|].
  rewrite Join_cons, elements_app_slash, elements_no_slash, IH by done. done.
Qed.

Lemma Join_nonempty l :
  l <> [] -> Forall (fun e => nonempty e = true) l -> strings.Join l "/" <> "".
Proof.
  intros Hne Hl. destruct Hl as [|e l He Hl]; [done|].
  apply negb_true_iff, str_eqb_neq in He.
  destruct l; [done|]. rewrite Join_cons. by destruct e.
Qed.

(** Joined non-empty components do not end in a slash. *)
Lemma Join_no_trailing_slash l :
  l <> [] ->
  Forall (fun e => nonempty e = true /\ strings.all not_slash e = true) l ->
  strings.HasSuffix (String "/" (strings.Join l "/")) "/" = false.
Proof.
  intros Hne Hl. induction Hl as [|e l [He1 He2] Hl IH]; [done|].
  apply negb_true_iff, str_eqb_neq in He1.
  destruct l as [|e' l].
  - change (String "/" (strings.Join [e] "/")) with ("/" +:+ e).
    rewrite HasSuffix_app_byte by done. by apply HasSuffix_byte_none.
  - rewrite Join_cons.
    change (String "/" (e +:+ String "/" (strings.Join (e' :: l) "/")))
      with (("/" +:+ e) +:+ String "/" (strings.Join (e' :: l) "/")).
    rewrite HasSuffix_app_byte by done. by apply IH.
Qed.

Lemma escape_Join l :
  url.escape (strings.Join l "/") url.encodePath
  = strings.Join (map (fun e => url.escape e url.encodePath) l) "/".
Proof.
  induction l as [|e l IH]; [done|]. destruct l as [|e' l]; [done|].
  rewrite Join_cons, escape_app, escape_slash, IH. done.
Qed.

Lemma components_spec s :
  Forall (fun e => nonempty e = true /\ strings.all not_slash e = true) (path.components s).
Proof.
  unfold path.components. apply List.Forall_forall. intros e [He1 He2]%filter_In.
  split; [done|]. pose proof (elements_not_slash s) as H.
  rewrite List.Forall_forall in H. by apply H.
Qed.

Lemma components_all p s :
  strings.all p s = true -> Forall (fun e => strings.all p e = true) (path.components s).
Proof.
  intros Hs. unfold path.components. apply List.Forall_forall. intros e [He1 He2]%filter_In.
  pose proof (elements_all p s Hs) as H. rewrite List.Forall_forall in H. by apply H.
Qed.

Lemma forallb_removelast {A} (f : A -> bool) (l : list A) :
  forallb f l = true -> forallb f (removelast l) = true.
Proof.
  induction l as [|a l IH]; [done|]. destruct l as [|b l]; [done|].
  intros [Ha Hl]%andb_true_iff. change (f a && forallb f (removelast (b :: l)) = true).
  by rewrite Ha, IH.
Qed.

(** A rooted path made of non-empty components without slashes, with or
    without a final slash, has no double slash. *)
Lemma no_double_slash_Join l (trailing : bool) :
  l <> [] ->
  Forall (fun e => nonempty e = true /\ strings.all not_slash e = true) l ->
  path.no_double_slash
    (String "/" (strings.Join l "/") +:+ (if trailing then "/" else "")) = true.
Proof.
  intros Hne Hl.
  assert (Hs : Forall (fun e => strings.all not_slash e = true) l)
    by (eapply Forall_impl; [exact Hl | by intros ? []]).
  assert (Hn : forallb nonempty l = true)
    by (apply forallb_forall; intros e He; rewrite List.Forall_forall in Hl; by apply Hl).
  unfold path.no_double_slash. destruct trailing.
  - change (String "/" (strings.Join l "/") +:+ "/")
      with ("" +:+ String "/" (strings.Join l "/" +:+ String "/" "")).
    rewrite elements_app_slash, elements_app_slash, elements_Join by done. simpl.
    rewrite removelast_app by done. simpl. by rewrite app_nil_r.
  - rewrite str_app_nil_r.
    change (String "/" (strings.Join l "/")) with ("" +:+ String "/" (strings.Join l "/")).
    rewrite elements_app_slash, elements_Join by done. simpl.
    by apply (forallb_removelast nonempty).
Qed.

End JoinFacts.

(* ================================================================== *)
(** * Address construction *)

Section AddressFacts.

Context `{Runtime}.
Implicit Types (s : string) (slugs : list string).

Lemma Parse_base_address :
  url.Parse "https://healthchecks.io/api/v3" = inl base_address.
Proof. reflexivity. Qed.

Lemma buildAddress_NewClient net key slugs :
  client.buildAddress (client.NewClient net key) slugs
  = inl (url.JoinPath base_address slugs).
Proof. unfold client.buildAddress. simpl client.baseURL. by rewrite Parse_base_address. Qed.

Lemma last_nonnil {A} (l : list A) d d' : l <> [] -> List.last l d = List.last l d'.
Proof.
  induction l as [|a l IH]; [done|]. intros _. destruct l as [|b l]; [done|].
  change (List.last (b :: l) d = List.last (b :: l) d'). by apply IH.
Qed.

Lemma plain_segment_elements s :
  plain_segment s = true ->
  Forall (fun e => e = "" \/ not_dots e = true) (path.elements s).
Proof.
  intros [_ Hs]%andb_true_iff. apply List.Forall_forall. intros e He.
  rewrite forallb_forall in Hs. specialize (Hs e He).
  apply orb_true_iff in Hs as [?%str_eqb_eq|?]; auto.
Qed.

Lemma joined_components_spec slugs :
  Forall (fun e => nonempty e = true /\ strings.all not_slash e = true)
         (joined_components slugs).
Proof.
  unfold joined_components. apply Forall_app. split; [by repeat constructor|].
  induction slugs as [|s slugs IH]; simpl; [done|].
  apply Forall_app. split; [apply components_spec | done].
Qed.

Lemma joined_components_all p slugs :
  p "a"%char = true -> p "p"%char = true -> p "i"%char = true ->
  p "v"%char = true -> p "3"%char = true ->
  Forall (fun s => strings.all p s = true) slugs ->
  Forall (fun e => strings.all p e = true) (joined_components slugs).
Proof.
  intros Ha Hp Hi Hv H3 Hs. unfold joined_components. apply Forall_app. split.
  - repeat constructor; simpl; by rewrite ?Ha, ?Hp, ?Hi, ?Hv, ?H3.
  - induction Hs as [|s slugs Hs Hrest IH]; simpl; [done|].
    apply Forall_app. split; [by apply components_all | done].
Qed.

Lemma joined_path_all p slugs :
  p "a"%char = true -> p "p"%char = true -> p "i"%char = true ->
  p "v"%char = true -> p "3"%char = true -> p "/"%char = true ->
  Forall (fun s => strings.all p s = true) slugs ->
  strings.all p (joined_path slugs) = true.
Proof.
  intros Ha Hp Hi Hv H3 Hsl Hs. unfold joined_path. rewrite all_app.
  cbn [strings.all]. rewrite Hsl, all_Join by (by auto using joined_components_all).
  by destruct (strings.HasSuffix _ _); simpl; rewrite ?Hsl.
Qed.

(** [JoinPath] on the base address, for plain segments. *)
Lemma JoinPath_base_address slugs :
  Forall (fun s => plain_segment s = true) slugs ->
  url.JoinPath base_address slugs
  = url.with_Path base_address (joined_path slugs)
      (if String.eqb (joined_path slugs) (url.escape (joined_path slugs) url.encodePath)
       then "" else joined_path slugs).
Proof.
  intros Hs. unfold url.JoinPath.
  change (url.EscapedPath base_address) with "/api/v3".
  change (strings.HasPrefix "/api/v3" "/") with true. cbv iota.
  rewrite Join_plain; cycle 1.
  { done. }
  { constructor; [by repeat constructor|].
    eapply Forall_impl; [exact Hs|]. intros s. apply plain_segment_elements. }
  change (path.components "/api/v3" ++ flat_map path.components slugs)
    with (joined_components slugs).
  assert (Hne : joined_components slugs <> []) by done.
  rewrite Join_no_trailing_slash by (done || apply joined_components_spec).
  rewrite andb_true_r.
  assert (Hlast : strings.HasSuffix (List.last slugs "/api/v3") "/"
                  = strings.HasSuffix (List.last slugs "") "/").
  { destruct slugs as [|s slugs]; [done|]. by rewrite (last_nonnil _ "/api/v3" "") by done. }
  rewrite Hlast.
  assert (Hp : (if strings.HasSuffix (List.last slugs "") "/"
                then String "/" (strings.Join (joined_components slugs) "/") +:+ "/"
                else String "/" (strings.Join (joined_components slugs) "/"))
               = joined_path slugs).
  { unfold joined_path.
    destruct (strings.HasSuffix (List.last slugs "") "/"); [done|]. by rewrite str_app_nil_r. }
  rewrite Hp. unfold url.setPath.
  rewrite unescape_no_pct; [done|].
  apply joined_path_all; try done.
  eapply Forall_impl; [exact Hs|]. by intros s [? _]%andb_true_iff.
Qed.

Lemma escape_joined_path slugs :
  url.escape (joined_path slugs) url.encodePath
  = String "/" (strings.Join (map (fun e => url.escape e url.encodePath)
                                  (joined_components slugs)) "/")
    +:+ (if strings.HasSuffix (List.last slugs "") "/" then "/" else "").
Proof.
  unfold joined_path. rewrite escape_app, escape_slash, escape_Join.
  by destruct (strings.HasSuffix _ _).
Qed.

(** The escaped path of such an address is the joined path, as it is or
    escaped. *)
Lemma EscapedPath_joined slugs raw :
  strings.all not_pct (joined_path slugs) = true ->
  raw = "" \/ raw = joined_path slugs ->
  url.EscapedPath (url.with_Path base_address (joined_path slugs) raw) = joined_path slugs
  \/ url.EscapedPath (url.with_Path base_address (joined_path slugs) raw)
     = url.escape (joined_path slugs) url.encodePath.
Proof.
  intros Hp Hraw. unfold url.EscapedPath. simpl url.RawPath. simpl url.Path.
  destruct (negb (String.eqb raw "") && url.validEncoded raw url.encodePath && _) eqn:E.
  - destruct Hraw as [->| ->]; [done | by left].
  - right. by replace (String.eqb (joined_path slugs) "*") with false.
Qed.

End AddressFacts.

Section AddressTheorems.

Context `{Runtime}.

(** The text of an address under the API root. *)
Lemma String_api_address p raw q :
  strings.first_is "/" (url.EscapedPath (url.with_Path base_address p raw)) = true ->
  url.String_ (url.with_RawQuery (url.with_Path base_address p raw) q)
  = "https://healthchecks.io"
    +:+ url.EscapedPath (url.with_Path base_address p raw)
    +:+ (if String.eqb q "" then "" else "?" +:+ q).
Proof.
  intros Hroot. unfold url.String_.
  change (url.EscapedPath (url.with_RawQuery (url.with_Path base_address p raw) q))
    with (url.EscapedPath (url.with_Path base_address p raw)).
  cbn [url.Scheme url.Opaque url.User url.Host url.OmitHost url.ForceQuery url.RawQuery
       url.Fragment url.with_RawQuery url.with_Path base_address].
  rewrite Hroot. rewrite andb_false_r. simpl.
  repeat (apply (f_equal (String _))).
  rewrite andb_false_r. cbn [andb]. rewrite str_app_nil_r.
  by destruct (String.eqb q "").
Qed.

Lemma String_api_path p raw :
  strings.first_is "/" (url.EscapedPath (url.with_Path base_address p raw)) = true ->
  url.String_ (url.with_Path base_address p raw)
  = "https://healthchecks.io" +:+ url.EscapedPath (url.with_Path base_address p raw).
Proof.
  intros Hroot. etransitivity; [exact (String_api_address p raw "" Hroot)|].
  cbn [String.eqb]. by rewrite str_app_nil_r.
Qed.

End AddressTheorems.

(* ================================================================== *)
(** * Requests to the API *)

Section RequestFacts.

Context `{Runtime}.

Lemma path_byte_not c x :
  path_byte x = false -> path_byte c = true -> negb (Ascii.eqb c x) = true.
Proof.
  intros Hx Hc. apply negb_true_iff. destruct (Ascii.eqb_spec c x) as [->|]; [|done].
  by rewrite Hx in Hc.
Qed.

Lemma path_byte_not_ctl c :
  path_byte c = true -> negb ((byte.code c <? 32)%N || Ascii.eqb c "127") = true.
Proof. destruct c as [[] [] [] [] [] [] [] []]; by vm_compute. Qed.

Lemma path_byte_not_escaped c :
  path_byte c = true -> url.shouldEscape c url.encodePath = false.
Proof. destruct c as [[] [] [] [] [] [] [] []]; by vm_compute. Qed.

Lemma escape_path_bytes p :
  strings.all path_byte p = true -> url.escape p url.encodePath = p.
Proof.
  induction p as [|c p IH]; simpl; [done|]. intros [Hc Hp]%andb_true_iff.
  by rewrite (path_byte_not_escaped c Hc), IH.
Qed.

Lemma parse_api_address p :
  strings.all path_byte p = true ->
  url.parse ("https://healthchecks.io" +:+ String "/" p)
  = inl (url.with_Path base_address (String "/" p) "").
Proof.
  intros Hp. unfold url.parse.
  assert (Hctl : url.stringContainsCTLByte ("https://healthchecks.io" +:+ String "/" p) = false).
  { unfold url.stringContainsCTLByte. apply negb_false_iff.
    rewrite all_app. apply andb_true_iff. split; [done|]. simpl.
    eapply all_impl; [|exact Hp]. apply path_byte_not_ctl. }
  rewrite Hctl.
  replace (String.eqb ("https://healthchecks.io" +:+ String "/" p) "*") with false by done.
  change (url.getScheme ("https://healthchecks.io" +:+ String "/" p))
    with (inl ("https", "//healthchecks.io" +:+ String "/" p) : (string * string) + error).
  cbv beta iota.
  assert (Hq : strings.all (fun x => negb (Ascii.eqb x "?"))
                 ("//healthchecks.io" +:+ String "/" p) = true).
  { rewrite all_app. apply andb_true_iff. split; [done|]. simpl.
    eapply all_impl; [|exact Hp]. intros c. by apply path_byte_not. }
  rewrite (HasSuffix_byte_none _ _ Hq). cbn [andb].
  rewrite (Cut_byte_none _ _ Hq). cbv beta iota zeta.
  change (strings.ToLower "https") with "https".
  simpl.
  assert (Hp' : strings.all path_byte (String "/" p) = true) by (simpl; by rewrite Hp).
  unfold url.setPath. rewrite unescape_no_pct; cycle 1.
  { eapply all_impl; [|exact Hp']. intros c. by apply path_byte_not. }
  by rewrite (escape_path_bytes _ Hp'), str_eqb_refl.
Qed.

(** The text of an API address parses back to the address. *)
Lemma Parse_api_address p :
  strings.all path_byte p = true ->
  url.Parse ("https://healthchecks.io" +:+ String "/" p)
  = inl (url.with_Path base_address (String "/" p) "").
Proof.
  intros Hp. unfold url.Parse.
  rewrite Cut_byte_none; cycle 1.
  { rewrite all_app. apply andb_true_iff. split; [done|]. simpl.
    eapply all_impl; [|exact Hp]. intros c. by apply path_byte_not. }
  by rewrite parse_api_address.
Qed.

End RequestFacts.

Section ApiRequests.

Context `{Runtime}.

Lemma path_byte_plain s : strings.all path_byte s = true -> plain_segment s = true.
Proof.
  intros Hs. unfold plain_segment. apply andb_true_iff. split.
  - eapply all_impl; [|exact Hs]. intros c. by apply path_byte_not.
  - apply forallb_forall. intros e He.
    pose proof (elements_all _ _ Hs) as Hall. rewrite List.Forall_forall in Hall.
    specialize (Hall e He). apply orb_true_iff. right. unfold not_dots.
    apply andb_true_iff.
    split; apply negb_true_iff, str_eqb_neq; intros ->; discriminate Hall.
Qed.

Lemma joined_path_bytes slugs :
  Forall (fun s => strings.all path_byte s = true) slugs ->
  strings.all path_byte (joined_path slugs) = true.
Proof. intros Hs. by apply joined_path_all. Qed.

(** [JoinPath] on the base address, for segments made of path bytes. *)
Lemma JoinPath_path_bytes slugs :
  Forall (fun s => strings.all path_byte s = true) slugs ->
  url.JoinPath base_address slugs = url.with_Path base_address (joined_path slugs) "".
Proof.
  intros Hs. rewrite JoinPath_base_address.
  - by rewrite (escape_path_bytes _ (joined_path_bytes _ Hs)), str_eqb_refl.
  - eapply Forall_impl; [exact Hs|]. apply path_byte_plain.
Qed.

Lemma joined_path_rooted slugs :
  exists p, joined_path slugs = String "/" p.
Proof. unfold joined_path. by eexists. Qed.

Lemma EscapedPath_path_bytes slugs :
  Forall (fun s => strings.all path_byte s = true) slugs ->
  url.EscapedPath (url.with_Path base_address (joined_path slugs) "") = joined_path slugs.
Proof.
  intros Hs. pose proof (joined_path_bytes _ Hs) as Hb.
  destruct (joined_path_rooted slugs) as [p Hp]. rewrite Hp in Hb |- *.
  unfold url.EscapedPath. cbn [url.RawPath url.Path url.with_Path].
  change (String.eqb (String "/" p) "*") with false.
  change (negb (String.eqb "" "")) with false. cbn [andb].
  by rewrite (escape_path_bytes _ Hb).
Qed.

Lemma String_path_bytes_query slugs q :
  Forall (fun s => strings.all path_byte s = true) slugs ->
  url.String_ (url.with_RawQuery (url.with_Path base_address (joined_path slugs) "") q)
  = "https://healthchecks.io" +:+ joined_path slugs
    +:+ (if String.eqb q "" then "" else "?" +:+ q).
Proof.
  intros Hs. rewrite String_api_address; rewrite (EscapedPath_path_bytes _ Hs); [done|].
  by destruct (joined_path_rooted slugs) as [p ->].
Qed.

Lemma String_path_bytes slugs :
  Forall (fun s => strings.all path_byte s = true) slugs ->
  url.String_ (url.with_Path base_address (joined_path slugs) "")
  = "https://healthchecks.io" +:+ joined_path slugs.
Proof.
  intros Hs. rewrite String_api_path; rewrite (EscapedPath_path_bytes _ Hs); [done|].
  by destruct (joined_path_rooted slugs) as [p ->].
Qed.

(** The request for an address made of path bytes is created. *)
Lemma NewRequest_path_bytes method slugs body :
  http.validMethod method = true ->
  Forall (fun s => strings.all path_byte s = true) slugs ->
  retryablehttp.NewRequestWithContext method
    (url.String_ (url.with_Path base_address (joined_path slugs) "")) body
  = inl {| http.Method := method;
           http.URL := url.with_Path base_address (joined_path slugs) "";
           http.Header_ := ∅; http.Body := body; http.Host := "healthchecks.io" |}.
Proof.
  intros Hm Hs. rewrite (String_path_bytes _ Hs).
  unfold retryablehttp.NewRequestWithContext, http.NewRequestWithContext.
  assert (Hne : String.eqb method "" = false).
  { apply andb_true_iff in Hm as [Hm _]. by apply negb_true_iff. }
  rewrite Hne, Hm. simpl negb. cbv iota.
  pose proof (joined_path_bytes _ Hs) as Hb.
  destruct (joined_path_rooted slugs) as [p Hp]. rewrite Hp in Hb |- *.
  simpl in Hb. rewrite Parse_api_address by done. done.
Qed.

End ApiRequests.

Section PingBody.

Context `{Runtime}.

Lemma identifier_byte_path c : identifier_byte c = true -> path_byte c = true.
Proof. intros Hc. unfold path_byte. by rewrite Hc. Qed.

Lemma identifier_byte_not_slash c : identifier_byte c = true -> not_slash c = true.
Proof. destruct c as [[] [] [] [] [] [] [] []]; by vm_compute. Qed.

Lemma components_single s :
  nonempty s = true -> strings.all identifier_byte s = true -> path.components s = [s].
Proof.
  intros Hne Hs. unfold path.components. rewrite elements_no_slash.
  - simpl. fold (nonempty s). by rewrite Hne.
  - eapply all_impl; [|exact Hs]. apply identifier_byte_not_slash.
Qed.

Lemma uint_bytes d : strings.all identifier_byte (NilEmpty.string_of_uint d) = true.
Proof. induction d; simpl; done. Qed.

(** A decimal number is a non-empty string of digits, with a sign if
    negative. *)
Lemma Itoa_identifier n : identifier (strconv.Itoa n) = true.
Proof.
  unfold identifier, strconv.Itoa. apply andb_true_iff.
  destruct (Z.to_int n) as [d|d]; simpl.
  - destruct d; simpl; split; try done; apply uint_bytes.
  - split; [done|]. destruct d; simpl; try done; apply uint_bytes.
Qed.

Lemma attempts_first c req remain i :
  exists rest, snd (retryablehttp.attempts c req remain i) = retryablehttp.Sent req :: rest.
Proof.
  destruct remain; simpl;
    destruct (retryablehttp.CheckRetry c _) as [[] ?]; simpl; eauto.
  destruct (retryablehttp.attempts c req remain (S i)). simpl. eauto.
Qed.

(** Whatever happens next, [Do] starts by sending the request. *)
Lemma Do_first c req :
  exists rest, snd (retryablehttp.Do c req) = retryablehttp.Sent req :: rest.
Proof. apply attempts_first. Qed.

Lemma joined_path_ping_body uuid n :
  identifier uuid = true ->
  joined_path ["/checks/"; uuid; "/pings/"; strconv.Itoa n; "/body"]
  = "/api/v3/checks/" +:+ uuid +:+ "/pings/" +:+ strconv.Itoa n +:+ "/body".
Proof.
  intros [Hu1 Hu2]%andb_true_iff.
  pose proof (Itoa_identifier n) as [Hn1 Hn2]%andb_true_iff.
  unfold joined_path, joined_components. simpl flat_map.
  rewrite (components_single uuid), (components_single (strconv.Itoa n)) by done.
  change (path.components "/checks/") with ["checks"].
  change (path.components "/pings/") with ["pings"].
  change (path.components "/body") with ["body"].
  simpl. by rewrite str_app_nil_r, ?str_app_assoc.
Qed.

Lemma ping_body_segments uuid n :
  identifier uuid = true ->
  Forall (fun s => strings.all path_byte s = true)
         ["/checks/"; uuid; "/pings/"; strconv.Itoa n; "/body"].
Proof.
  intros [Hu1 Hu2]%andb_true_iff.
  pose proof (Itoa_identifier n) as [Hn1 Hn2]%andb_true_iff.
  repeat constructor; try done;
    (eapply all_impl; [|eassumption]); apply identifier_byte_path.
Qed.

End PingBody.

(* ================================================================== *)
(** * Headers *)

Section Headers.

Context `{Runtime}.

Lemma NewRequest_fresh method address body req :
  retryablehttp.NewRequestWithContext method address body = inl req ->
  http.Header_ req = ∅ /\ http.Body req = body.
Proof.
  unfold retryablehttp.NewRequestWithContext, http.NewRequestWithContext.
  destruct (negb (http.validMethod _)); [done|].
  destruct (url.Parse address); [|done]. by intros [= <-].
Qed.

Lemma authenticated_without_body c address method r :
  retryablehttp.NewRequestWithContext method address None = inl r ->
  authenticated c (http.Set_ r "X-Api-Key" (client.apiKey c)).
Proof.
  intros [Hh Hb]%NewRequest_fresh. split.
  - simpl. change (http.CanonicalMIMEHeaderKey "X-Api-Key") with "X-Api-Key".
    apply lookup_insert_eq.
  - simpl. rewrite Hb. by intros [? ?].
Qed.

Lemma authenticated_with_body c address method body r :
  retryablehttp.NewRequestWithContext method address (Some body) = inl r ->
  authenticated c
    (http.Set_ (http.Set_ r "X-Api-Key" (client.apiKey c)) "Content-Type" "application/json").
Proof.
  intros [Hh Hb]%NewRequest_fresh. split.
  - simpl. unfold http.Header_Set.
    change (http.CanonicalMIMEHeaderKey "X-Api-Key") with "X-Api-Key".
    change (http.CanonicalMIMEHeaderKey "Content-Type") with "Content-Type".
    rewrite lookup_insert_ne by done. apply lookup_insert_eq.
  - intros _. simpl. unfold http.Header_Set.
    change (http.CanonicalMIMEHeaderKey "Content-Type") with "Content-Type".
    apply lookup_insert_eq.
Qed.

End Headers.

(* ================================================================== *)
(** * Responses *)

Section Responses.

Context `{Runtime}.

Lemma tag_inr {A} (f : A -> client.Value) (e : error) :
  client.tag f (inr e) = inr e.
Proof. reflexivity. Qed.




(** The message of an object with one [error] member that is a string. *)
Lemma remote_message_error body x :
  scan body = inl (json.Object [("error", json.Str x)]) -> remote_message body = x.
Proof. intros Hs. unfold remote_message, Decode. by rewrite Hs. Qed.


End Responses.

(* ================================================================== *)
(** * The errors of a decoding *)

Section DecodeErrors.

Context `{Runtime}.

Lemma decoding_None : decoding None.
Proof. by intros e. Qed.

Lemma decoding_mismatch v typ struct name : decoding (json.mismatch v typ struct name).
Proof. by intros e [= <-]. Qed.



Lemma decoding_first_error errs :
  Forall decoding errs -> decoding (json.first_error errs).
Proof.
  intros Hall. unfold json.first_error.
  induction Hall as [|o errs Ho Hall IH]; [by intros e|].
  destruct o as [e'|]; simpl; [|done]. intros e [= <-]. by apply Ho.
Qed.

Lemma decoding_check_string struct name v : decoding (json.check_string struct name v).
Proof. destruct v; simpl; auto using decoding_None, decoding_mismatch. Qed.



Lemma decoding_check_strings struct name v :
  decoding (json.check_strings struct name v).
Proof.
  destruct v; simpl; auto using decoding_None, decoding_mismatch.
  apply decoding_first_error, Forall_map, Forall_true. intros e.
  apply decoding_check_string.
Qed.


Lemma decoding_saved_error names cs ms :
  Forall (fun c => forall v, decoding (snd c v)) cs ->
  decoding (json.saved_error names cs ms).
Proof.
  intros Hcs. unfold json.saved_error.
  apply decoding_first_error, Forall_map, Forall_true. intros m.
  destruct (json.select names (fst m)) as [n|]; [|apply decoding_None].
  destruct (find _ cs) as [c|] eqn:Hf; [|apply decoding_None].
  apply find_some in Hf as [Hin _]. rewrite List.Forall_forall in Hcs. by apply Hcs.
Qed.

Lemma decoding_object {T} typ names cs (fill : _ -> T -> T) v cur :
  Forall (fun c => forall v, decoding (snd c v)) cs ->
  decoding (snd (json.object typ names cs fill v cur)).
Proof.
  intros Hcs. destruct v; simpl; auto using decoding_None, decoding_mismatch.
  by apply decoding_saved_error.
Qed.

Lemma decoding_Error v cur : decoding (snd (Error.decode v cur)).
Proof.
  apply decoding_object. repeat constructor; simpl; intros;
    auto using decoding_check_string.
Qed.














End DecodeErrors.

(* ================================================================== *)
(** * Retries *)

Section Retries.

Context `{Runtime}.

Lemma transient_retried o :
  transient o = true -> retryablehttp.DefaultRetryPolicy o = (true, None).
Proof.
  intros [Hr _]%andb_true_iff. revert Hr. unfold retryablehttp.DefaultRetryPolicy.
  destruct o as [resp|[]]; simpl; try done.
  - by repeat case_match.
  - by destruct permanent.
Qed.

Lemma transient_backoff o min max i :
  transient o = true ->
  retryablehttp.DefaultBackoff min max i
    (match o with inl resp => Some resp | inr _ => None end)
  = if (max <? 2 ^ i * min)%Z then max else (2 ^ i * min)%Z.
Proof.
  intros [_ Hh]%andb_true_iff. unfold retryablehttp.DefaultBackoff.
  destruct o as [resp|e]; [|done]. apply bool_decide_eq_true in Hh. rewrite Hh.
  by destruct (_ || _).
Qed.


(** An operation does on the network what its call of [Do] does, and
    fails when that call fails. *)
Lemma run_Do c call req :
  client.request_of c call = inl req ->
  snd (client.run c call) = snd (retryablehttp.Do (client.httpClient c) req) /\
  (forall err, fst (retryablehttp.Do (client.httpClient c) req) = inr err ->
               exists err', fst (client.run c call) = inr err').
Proof.
  destruct call; simpl client.request_of; simpl client.run; intros Hreq;
    unfold client.tagged;
    [ unfold client.CreateCheck | unfold client.GetChecks | unfold client.GetCheck
    | unfold client.UpdateCheck | unfold client.DeleteCheck | unfold client.PauseCheck
    | unfold client.ResumeCheck | unfold client.GetPings | unfold client.GetPingBody
    | unfold client.GetFlips | unfold client.Ping ];
    rewrite Hreq; destruct (retryablehttp.Do _ _) as [[resp|e] t]; simpl;
    split; try done; intros ? [= <-]; eauto.
Qed.

End Retries.

(* ================================================================== *)
(** * Query parameters *)

Section Queries.

Context `{Runtime}.

Lemma Encode_GetChecks_query params :
  url.Encode (client.GetChecks_query params)
  = strings.Join
      (pair_if (nonempty (GetChecks.Slug params)) "slug" (GetChecks.Slug params)
       ++ pair_if (nonempty (GetChecks.Tags params)) "tags" (GetChecks.Tags params))
      "&".
Proof.
  unfold client.GetChecks_query, nonempty.
  destruct (String.eqb (GetChecks.Slug params) ""), (String.eqb (GetChecks.Tags params) "");
    reflexivity.
Qed.

Lemma Encode_GetFlips_query params :
  url.Encode (client.GetFlips_query params)
  = strings.Join
      (pair_if (0 <? GetFlipsRequest.End_ params)%Z "end"
               (strconv.Itoa (GetFlipsRequest.End_ params))
       ++ pair_if (0 <? GetFlipsRequest.Seconds params)%Z "seconds"
                  (strconv.Itoa (GetFlipsRequest.Seconds params))
       ++ pair_if (0 <? GetFlipsRequest.Start params)%Z "start"
                  (strconv.Itoa (GetFlipsRequest.Start params)))
      "&".
Proof.
  unfold client.GetFlips_query.
  destruct (0 <? GetFlipsRequest.End_ params)%Z,
           (0 <? GetFlipsRequest.Seconds params)%Z,
           (0 <? GetFlipsRequest.Start params)%Z; reflexivity.
Qed.

End Queries.

(* ================================================================== *)
(** * Ping addresses *)

Section PingAddresses.

Context `{Runtime}.
Implicit Types (u : url.URL) (w ep : string).

(** The text of an address with a host. *)
Lemma String_with_host u :
  url.Opaque u = "" -> url.Host u <> "" ->
  url.String_ u
  = origin u
    +:+ (if negb (String.eqb (url.EscapedPath u) "")
            && negb (strings.first_is "/" (url.EscapedPath u)) then "/" else "")
    +:+ url.EscapedPath u +:+ query_and_fragment u.
Proof.
  intros Hop Hh%str_eqb_neq. unfold url.String_, origin, query_and_fragment.
  rewrite Hop, Hh. cbn [String.eqb negb orb andb].
  rewrite orb_true_r, andb_false_r. cbn [orb andb negb].
  rewrite andb_true_r.
  set (scheme := if negb (String.eqb (url.Scheme u) "") then _ else _).
  set (user := match url.User u with Some _ => _ | None => _ end).
  set (sep := if negb _ && negb _ then _ else _).
  replace (String.eqb _ "" && _) with false.
  - rewrite !str_app_assoc. done.
  - symmetry. apply andb_false_iff. left. apply str_eqb_neq.
    destruct scheme; simpl; [|done]. done.
Qed.

(** Where the escaped path of an address comes from. *)
Lemma EscapedPath_cases u :
  (url.validEncoded (url.EscapedPath u) url.encodePath = true
   /\ url.unescape (url.EscapedPath u) url.encodePath = inl (url.Path u))
  \/ url.EscapedPath u = url.escape (url.Path u) url.encodePath
  \/ url.EscapedPath u = "*".
Proof.
  unfold url.EscapedPath.
  destruct (negb (String.eqb (url.RawPath u) "")) eqn:E1; simpl.
  - destruct (url.validEncoded (url.RawPath u) url.encodePath) eqn:E2; simpl.
    + destruct (url.unescape (url.RawPath u) url.encodePath) as [p|] eqn:E3.
      * destruct (String.eqb p (url.Path u)) eqn:E4.
        -- apply str_eqb_eq in E4 as ->. by left.
        -- destruct (String.eqb (url.Path u) "*"); auto.
      * destruct (String.eqb (url.Path u) "*"); auto.
    + destruct (String.eqb (url.Path u) "*"); auto.
  - destruct (String.eqb (url.Path u) "*"); auto.
Qed.

(** The escaped path of an address decodes to its path, unless it is [*]. *)
Lemma unescape_EscapedPath u :
  strings.first_is "/" (url.EscapedPath u) = true ->
  url.unescape (url.EscapedPath u) url.encodePath = inl (url.Path u).
Proof.
  intros Hroot. destruct (EscapedPath_cases u) as [[_ E]|[E|E]]; [done| |].
  - rewrite E. apply unescape_escape.
  - by rewrite E in Hroot.
Qed.

Lemma Join_snoc l w :
  l <> [] -> strings.Join (l ++ [w]) "/" = strings.Join l "/" +:+ String "/" w.
Proof.
  induction l as [|e l IH]; [done|]. intros _. destruct l as [|e' l]; [done|].
  change ((e :: e' :: l) ++ [w]) with (e :: e' :: (l ++ [w])). rewrite Join_cons.
  change (e' :: (l ++ [w])) with ((e' :: l) ++ [w]). rewrite IH by done.
  by rewrite Join_cons, str_app_assoc.
Qed.

(** A word: a non-empty string of identifier bytes. *)
Lemma word_facts w :
  identifier w = true ->
  w <> "" /\ strings.all not_slash w = true /\ strings.all path_byte w = true
  /\ not_dots w = true /\ path.elements w = [w].
Proof.
  intros [Hne Hw]%andb_true_iff.
  assert (Hs : strings.all not_slash w = true)
    by (eapply all_impl; [|exact Hw]; apply identifier_byte_not_slash).
  assert (Hp : strings.all path_byte w = true)
    by (eapply all_impl; [|exact Hw]; apply identifier_byte_path).
  split_and!; try done.
  - by apply negb_true_iff, str_eqb_neq in Hne.
  - pose proof (path_byte_plain w Hp) as [_ Hd]%andb_true_iff.
    rewrite elements_no_slash in Hd by done. simpl in Hd.
    apply negb_true_iff, str_eqb_neq in Hne.
    apply str_eqb_neq in Hne. rewrite Hne in Hd. simpl in Hd. by rewrite andb_true_r in Hd.
  - by apply elements_no_slash.
Qed.

(** [path.Join] of a clean rooted path and a word appends the word. *)
Lemma Join_clean_word ep w :
  strings.first_is "/" ep = true -> path.Clean ep = ep -> ep <> "/" ->
  identifier w = true ->
  path.Join [ep; String "/" w] = ep +:+ String "/" w.
Proof.
  intros Hroot Hclean Hne (Hw1 & Hw2 & Hw3 & Hw4 & Hw5)%word_facts.
  destruct ep as [|c b]; [done|]. simpl in Hroot. apply Ascii.eqb_eq in Hroot as ->.
  unfold path.Join. cbn [forallb String.eqb andb]. cbv iota.
  cbn [path.join_buf String.eqb negb]. cbv iota.
  change (String "/" b +:+ "/" +:+ String "/" w)
    with (String "/" (b +:+ String "/" (String "/" w))).
  rewrite Clean_rooted.
  change (String "/" (b +:+ String "/" (String "/" w)))
    with (String "/" b +:+ String "/" (String "/" w)).
  rewrite elements_app_slash, fold_left_app.
  rewrite Clean_rooted in Hclean.
  set (X := fold_left (path.clean_step true) (path.elements (String "/" b)) []) in *.
  change (path.elements (String "/" w)) with ("" :: path.elements w). rewrite Hw5.
  cbn [fold_left]. unfold path.clean_step at 2. cbn [String.eqb orb]. cbv iota.
  unfold path.clean_step. unfold not_dots in Hw4.
  apply andb_true_iff in Hw4 as [H1%negb_true_iff H2%negb_true_iff].
  apply str_eqb_neq in Hw1. rewrite Hw1, H1, H2. cbn [orb]. cbv iota.
  cbn [rev]. assert (rev X <> []).
  { intros E. rewrite E in Hclean. by injection Hclean as <-. }
  rewrite Join_snoc by done.
  change ("/" +:+ strings.Join (rev X) "/" +:+ String "/" w)
    with (("/" +:+ strings.Join (rev X) "/") +:+ String "/" w).
  by rewrite Hclean.
Qed.

Lemma Join_root_word w :
  identifier w = true -> path.Join ["/"; String "/" w] = String "/" w.
Proof.
  intros (Hw1 & Hw2 & Hw3 & Hw4 & Hw5)%word_facts.
  unfold path.Join. cbn [forallb String.eqb andb]. cbv iota.
  cbn [path.join_buf String.eqb negb]. cbv iota.
  change ("/" +:+ "/" +:+ String "/" w) with (String "/" (String "/" (String "/" w))).
  rewrite Clean_rooted.
  change (path.elements (String "/" (String "/" (String "/" w))))
    with ("" :: "" :: "" :: path.elements w).
  rewrite Hw5. cbn [fold_left]. unfold path.clean_step at 2 3 4. cbn [String.eqb orb].
  cbv iota. unfold path.clean_step. unfold not_dots in Hw4.
  apply andb_true_iff in Hw4 as [H1%negb_true_iff H2%negb_true_iff].
  apply str_eqb_neq in Hw1. by rewrite Hw1, H1, H2.
Qed.

Lemma not_star p w : p +:+ String "/" w <> "*".
Proof. destruct p as [|c [|d p]]; simpl; [done| |done]. by intros [= ->]. Qed.

Lemma validEncoded_path_bytes s :
  strings.all path_byte s = true -> url.validEncoded s url.encodePath = true.
Proof.
  induction s as [|c s IH]; simpl; [done|]. intros [Hc Hs]%andb_true_iff.
  rewrite (path_byte_not_escaped c Hc), IH by done. by rewrite orb_true_r.
Qed.

(** [JoinPath] with one word on an address whose path is clean: the
    escaped path gets the word appended, nothing else changes. *)
Lemma JoinPath_word u w :
  clean_path (url.EscapedPath u) = true -> identifier w = true ->
  exists p raw,
    url.JoinPath u [String "/" w] = url.with_Path u p raw /\
    url.EscapedPath (url.with_Path u p raw)
    = (if String.eqb (url.EscapedPath u) "" then w
       else url.EscapedPath u +:+ String "/" w).
Proof.
  intros Hclean Hw. pose proof (word_facts w Hw) as (Hw1 & Hw2 & Hw3 & Hw4 & Hw5).
  assert (Hsuffix : strings.HasSuffix (String "/" w) "/" = false).
  { change (String "/" w) with ("/" +:+ w). rewrite HasSuffix_app_byte by done.
    by apply HasSuffix_byte_none. }
  assert (Hwpct : strings.all not_pct w = true)
    by (eapply all_impl; [|exact Hw3]; intros c; by apply path_byte_not).
  unfold url.JoinPath. cbn [List.last]. rewrite Hsuffix. cbn [andb]. cbv iota.
  unfold clean_path in Hclean. apply orb_true_iff in Hclean as [He|Hc].
  - (* no path *)
    apply str_eqb_eq in He. rewrite He. cbn [strings.HasPrefix String.eqb]. cbv iota.
    change ("/" +:+ "") with "/". rewrite Join_root_word by done.
    cbn [strings.slice_from]. unfold url.setPath.
    rewrite unescape_no_pct, escape_path_bytes, str_eqb_refl by done.
    eexists _, _. split; [reflexivity|].
    unfold url.EscapedPath. cbn [url.RawPath url.Path url.with_Path String.eqb negb andb].
    rewrite escape_path_bytes by done.
    destruct (String.eqb w "*") eqn:E; [|done]. apply str_eqb_eq in E. by subst w.
  - (* a clean rooted path *)
    apply andb_true_iff in Hc as [[Hroot Hc%str_eqb_eq]%andb_true_iff Hne%negb_true_iff].
    apply str_eqb_neq in Hne.
    assert (Hne' : String.eqb (url.EscapedPath u) "" = false).
    { apply str_eqb_neq. intros E. by rewrite E in Hroot. }
    rewrite Hne'.
    assert (Hpre : strings.HasPrefix (url.EscapedPath u) "/" = true).
    { destruct (url.EscapedPath u); [done|]. simpl in Hroot |- *. by rewrite Hroot. }
    rewrite Hpre. cbv iota. rewrite Join_clean_word by done.
    unfold url.setPath.
    rewrite (unescape_app _ _ (url.Path u) (String "/" w));
      [| by apply unescape_EscapedPath | apply unescape_no_pct; simpl; by rewrite Hwpct].
    eexists _, _. split; [reflexivity|].
    set (p := url.EscapedPath u +:+ String "/" w).
    set (d := url.Path u +:+ String "/" w).
    assert (Hd : url.unescape p url.encodePath = inl d).
    { apply unescape_app; [by apply unescape_EscapedPath|].
      apply unescape_no_pct. simpl. by rewrite Hwpct. }
    assert (Hstar : String.eqb d "*" = false) by (apply str_eqb_neq, not_star).
    unfold url.EscapedPath at 1. cbn [url.RawPath url.Path url.with_Path].
    destruct (String.eqb p (url.escape d url.encodePath)) eqn:E.
    + cbn [String.eqb negb andb]. rewrite Hstar. by apply str_eqb_eq in E.
    + assert (Hp : String.eqb p "" = false).
      { apply str_eqb_neq. subst p. by destruct (url.EscapedPath u). }
      rewrite Hp, Hd, str_eqb_refl. cbn [negb andb]. rewrite andb_true_r.
      assert (Hv : url.validEncoded p url.encodePath = true); [|by rewrite Hv].
      subst p. rewrite validEncoded_app. apply andb_true_iff. split.
      * destruct (EscapedPath_cases u) as [[Hv _]|[Hx|Hx]]; [done| |].
        -- exfalso. apply str_eqb_neq in E. apply E. subst d.
           rewrite Hx at 1. rewrite escape_app. f_equal.
           symmetry. apply escape_path_bytes. simpl. by rewrite Hw3.
        -- by rewrite Hx in Hroot.
      * apply validEncoded_path_bytes. simpl. by rewrite Hw3.
Qed.

(** What [Ping] sends to: the address as parsed, with the word of the
    option, if any, appended to its path. *)
Lemma String_JoinPath_word u w :
  url.Opaque u = "" -> url.Host u <> "" ->
  clean_path (url.EscapedPath u) = true -> identifier w = true ->
  url.String_ u = origin u +:+ url.EscapedPath u +:+ query_and_fragment u /\
  url.String_ (url.JoinPath u [String "/" w])
  = origin u +:+ url.EscapedPath u +:+ String "/" w +:+ query_and_fragment u.
Proof.
  intros Hop Hh Hclean Hw.
  pose proof (word_facts w Hw) as (Hw1 & Hw2 & Hw3 & Hw4 & Hw5).
  destruct (JoinPath_word u w Hclean Hw) as (p & raw & -> & Hep).
  rewrite (String_with_host u), (String_with_host (url.with_Path u p raw)) by done.
  rewrite Hep.
  change (origin (url.with_Path u p raw)) with (origin u).
  change (query_and_fragment (url.with_Path u p raw)) with (query_and_fragment u).
  unfold clean_path in Hclean. apply orb_true_iff in Hclean as [He|Hc].
  - rewrite He. apply str_eqb_eq in He. rewrite He. cbn [String.eqb negb andb].
    apply str_eqb_neq in Hw1. rewrite Hw1. cbn [negb andb].
    replace (strings.first_is "/" w) with false; [done|].
    destruct w as [|c w]; [done|]. simpl in Hw2 |- *.
    apply andb_true_iff in Hw2 as [Hc _]. unfold not_slash in Hc.
    by apply negb_true_iff in Hc.
  - apply andb_true_iff in Hc as [[Hroot _]%andb_true_iff _].
    assert (Hne' : String.eqb (url.EscapedPath u) "" = false).
    { apply str_eqb_neq. intros E. by rewrite E in Hroot. }
    rewrite Hne', Hroot. cbn [negb andb].
    replace (strings.first_is "/" (url.EscapedPath u +:+ String "/" w)) with true.
    + rewrite andb_false_r. cbn [String.app]. by rewrite !str_app_assoc.
    + destruct (url.EscapedPath u); [done|]. done.
Qed.

End PingAddresses.

(* ================================================================== *)
(** * Encoding and decoding a check *)

Section RoundTrip.

Implicit Types (ms : list (string * json.value)) (names : list string).

Lemma field_app {A} names name (read : json.value -> A -> A) ms1 ms2 cur :
  json.field names name read (ms1 ++ ms2) cur
  = json.field names name read ms2 (json.field names name read ms1 cur).
Proof. unfold json.field. apply fold_left_app. Qed.

Lemma field_nil {A} names name (read : json.value -> A -> A) cur :
  json.field names name read [] cur = cur.
Proof. reflexivity. Qed.

(** A member that selects another field leaves this one alone. *)
Lemma field_miss {A} names name (read : json.value -> A -> A) k v cur :
  json.selects names name k = false ->
  json.field names name read [(k, v)] cur = cur.
Proof. intros Hk. unfold json.field. simpl. by rewrite Hk. Qed.

Lemma field_hit {A} names name (read : json.value -> A -> A) k v cur :
  json.selects names name k = true ->
  json.field names name read [(k, v)] cur = read v cur.
Proof. intros Hk. unfold json.field. simpl. by rewrite Hk. Qed.

Lemma field_miss_string {A} names name (read : json.value -> A -> A) k s cur :
  json.selects names name k = false ->
  json.field names name read (json.omitempty_string k s) cur = cur.
Proof.
  intros Hk. unfold json.omitempty_string.
  destruct (String.eqb s ""); [done|]. by apply field_miss.
Qed.

Lemma field_miss_int {A} names name (read : json.value -> A -> A) k z cur :
  json.selects names name k = false ->
  json.field names name read (json.omitempty_int k z) cur = cur.
Proof. intros Hk. unfold json.omitempty_int. destruct (z =? 0)%Z; [done|]. by apply field_miss. Qed.

Lemma field_miss_bool {A} names name (read : json.value -> A -> A) k b cur :
  json.selects names name k = false ->
  json.field names name read (json.omitempty_bool k b) cur = cur.
Proof. intros Hk. destruct b; [|done]. by apply field_miss. Qed.

Lemma field_miss_strings {A} names name (read : json.value -> A -> A) k l cur :
  json.selects names name k = false ->
  json.field names name read (json.omitempty_strings k l) cur = cur.
Proof. intros Hk. destruct l as [[|x l]|]; try done. by apply field_miss. Qed.

(** An [omitempty] member read back into a zero field gives the value. *)
Lemma field_hit_string names name k s :
  json.selects names name k = true ->
  json.field names name json.read_string (json.omitempty_string k s) "" = s.
Proof.
  intros Hk. unfold json.omitempty_string. destruct (String.eqb s "") eqn:E.
  - by apply str_eqb_eq in E.
  - by rewrite field_hit.
Qed.

Lemma field_hit_int names name k z :
  is_int z -> json.selects names name k = true ->
  json.field names name json.read_int (json.omitempty_int k z) 0%Z = z.
Proof.
  intros Hz Hk. unfold json.omitempty_int. destruct (z =? 0)%Z eqn:E.
  - by apply Z.eqb_eq in E.
  - rewrite field_hit by done. simpl. unfold json.in_int_range.
    unfold is_int in Hz.
    destruct (Z.leb_spec (- 2 ^ 63) z), (Z.ltb_spec z (2 ^ 63)); simpl; (done || lia).
Qed.

Lemma field_hit_bool names name k b :
  json.selects names name k = true ->
  json.field names name json.read_bool (json.omitempty_bool k b) false = b.
Proof. intros Hk. destruct b; [|done]. unfold json.omitempty_bool. by rewrite field_hit. Qed.

Lemma imap_read_strings (f : nat -> string) l :
  imap (fun i e => json.read_string e (f i)) (map json.Str l) = l.
Proof.
  revert f. induction l as [|x l IH]; intros f; simpl; [done|]. f_equal.
  apply (IH (f ∘ S)).
Qed.

Lemma field_hit_strings names name k l :
  json.selects names name k = true ->
  json.field names name json.read_strings (json.omitempty_strings k l) None
  = match l with Some [] => None | _ => l end.
Proof.
  intros Hk. destruct l as [[|x l]|]; try done. unfold json.omitempty_strings.
  rewrite field_hit by done.
  unfold json.read_strings. cbn [default]. f_equal.
  apply (imap_read_strings (fun i => nth i [] EmptyString) (x :: l)).
Qed.

Lemma first_error_app a b :
  json.first_error (a ++ b)
  = match json.first_error a with Some e => Some e | None => json.first_error b end.
Proof.
  unfold json.first_error. induction a as [|[e|] a IH]; simpl; [done|done|exact IH].
Qed.

Lemma saved_error_app names cs ms1 ms2 :
  json.saved_error names cs ms1 = None -> json.saved_error names cs ms2 = None ->
  json.saved_error names cs (ms1 ++ ms2) = None.
Proof.
  unfold json.saved_error. intros H1 H2. by rewrite map_app, first_error_app, H1, H2.
Qed.

Lemma check_strings_ok struct name l :
  json.check_strings struct name (json.Array (map json.Str l)) = None.
Proof. simpl. unfold json.first_error. by induction l. Qed.

Lemma in_int_range_is_int z : is_int z -> json.in_int_range z = true.
Proof.
  unfold is_int, json.in_int_range. intros Hz.
  apply andb_true_iff. split; [apply Z.leb_le | apply Z.ltb_lt]; lia.
Qed.

Lemma check_int_ok struct name z :
  is_int z -> json.check_int struct name (json.Int z) = None.
Proof. intros Hz. simpl. by rewrite in_int_range_is_int. Qed.

Lemma saved_error_single names cs k v n c :
  json.select names k = Some n ->
  find (fun c => String.eqb (fst c) n) cs = Some c ->
  snd c v = None ->
  json.saved_error names cs [(k, v)] = None.
Proof. intros Hs Hf Hc. unfold json.saved_error. simpl. by rewrite Hs, Hf, Hc. Qed.

Ltac skip_members :=
  repeat match goal with
    | |- context [json.field ?ns ?n ?r (json.omitempty_string ?k ?s) ?cur] =>
        rewrite (field_miss_string ns n r k s cur) by reflexivity
    | |- context [json.field ?ns ?n ?r (json.omitempty_int ?k ?s) ?cur] =>
        rewrite (field_miss_int ns n r k s cur) by reflexivity
    | |- context [json.field ?ns ?n ?r (json.omitempty_bool ?k ?s) ?cur] =>
        rewrite (field_miss_bool ns n r k s cur) by reflexivity
    | |- context [json.field ?ns ?n ?r (json.omitempty_strings ?k ?s) ?cur] =>
        rewrite (field_miss_strings ns n r k s cur) by reflexivity
    end.

(** Decoding the encoding of a create shape gives the shape back. *)
Lemma CreateCheck_round_trip c :
  is_int (CreateCheck.Timeout c) -> is_int (CreateCheck.Grace c) ->
  CreateCheck.decode (CreateCheck.Marshal c) CreateCheck.zero = (decoded_again c, None).
Proof.
  intros Ht Hg. unfold CreateCheck.decode, CreateCheck.Marshal, json.object. f_equal.
  - unfold CreateCheck.fill, decoded_again. cbn [CreateCheck.zero CreateCheck.Name
      CreateCheck.Slug CreateCheck.Tags CreateCheck.Description CreateCheck.Timeout
      CreateCheck.Grace CreateCheck.Schedule CreateCheck.Timezone CreateCheck.ManualResume
      CreateCheck.Methods CreateCheck.Channels CreateCheck.Unique CreateCheck.StartKeywords
      CreateCheck.SuccessKeywords CreateCheck.FailureKeywords CreateCheck.FilterSubject
      CreateCheck.FilterBody CreateCheck.FilterHttpBody CreateCheck.FilterDefaultFail].
    rewrite !field_app. skip_members.
    rewrite !field_hit_string by reflexivity.
    rewrite !field_hit_int by (assumption || reflexivity).
    rewrite !field_hit_bool by reflexivity.
    rewrite field_hit_strings by reflexivity.
    by destruct (CreateCheck.Unique c) as [[|? ?]|].
  - repeat (apply saved_error_app);
      first [ by unfold json.omitempty_string; case_match
            | by unfold json.omitempty_bool; case_match
            | idtac ].
    + unfold json.omitempty_int. case_match; [done|].
      eapply saved_error_single; [reflexivity | reflexivity |]. by apply check_int_ok.
    + unfold json.omitempty_int. case_match; [done|].
      eapply saved_error_single; [reflexivity | reflexivity |]. by apply check_int_ok.
    + destruct (CreateCheck.Unique c) as [[|x l]|]; try done.
      unfold json.omitempty_strings.
      eapply saved_error_single; [reflexivity | reflexivity |].
      apply (check_strings_ok "CreateCheck" "unique" (x :: l)).
Qed.

(** A member that selects a field has the name of the field, up to case. *)
Lemma selects_fold names name k :
  json.selects names name k = true -> json.foldName k = json.foldName name.
Proof.
  unfold json.selects, json.select.
  destruct (find (String.eqb k) names) as [n|] eqn:E1.
  - intros Hn. apply str_eqb_eq in Hn. subst n.
    apply find_some in E1 as [_ E1]. apply str_eqb_eq in E1. by subst k.
  - destruct (find (fun n => _) names) as [n|] eqn:E2; [|done].
    intros Hn. apply str_eqb_eq in Hn. subst n.
    apply find_some in E2 as [_ E2]. apply str_eqb_eq in E2. by rewrite E2.
Qed.

Lemma field_none {A} names name (read : json.value -> A -> A) ms cur :
  (forall m, In m ms -> json.selects names name (fst m) = false) ->
  json.field names name read ms cur = cur.
Proof.
  revert cur. induction ms as [|m ms IH]; intros cur Hms; [done|].
  unfold json.field. cbn [fold_left]. rewrite (Hms m) by (by left).
  apply IH. intros m' Hm'. apply Hms. by right.
Qed.

(** In an object where no two members match the same field, a field holds
    what its member says. *)
Lemma field_of_member {A} names name (read : json.value -> A -> A) ms k v cur :
  NoDup (map (fun m => json.foldName (fst m)) ms) ->
  In (k, v) ms ->
  json.selects names name k = true ->
  (forall a b, read v a = read v b) ->
  json.field names name read ms cur = read v cur.
Proof.
  intros Hnd Hin Hk Hread. revert cur.
  induction ms as [|m ms IH]; intros cur; [done|].
  apply NoDup_cons in Hnd as [Hm Hnd]. unfold json.field. cbn [fold_left].
  destruct Hin as [->|Hin].
  - cbn [fst snd]. rewrite Hk. apply field_none. intros m' Hm'.
    destruct (json.selects names name (fst m')) eqn:E; [|done].
    exfalso. apply Hm. apply selects_fold in E. apply selects_fold in Hk.
    cbn [fst]. rewrite Hk, <- E. apply list_elem_of_In, in_map_iff. by exists m'.
  - fold (json.field names name read ms
            (if json.selects names name (fst m) then read (snd m) cur else cur)).
    rewrite IH by done. apply Hread.
Qed.

Lemma read_int_ok z a : is_int z -> json.read_int (json.Int z) a = z.
Proof. intros Hz. simpl. by rewrite in_int_range_is_int. Qed.

Ltac member_here :=
  first [ unfold json.omitempty_string; rewrite (proj2 (str_eqb_neq _ _)) by assumption
        | unfold json.omitempty_int; rewrite (proj2 (Z.eqb_neq _ _)) by assumption
        | unfold json.omitempty_bool;
          match goal with Hb : _ = true |- _ => rewrite Hb end ];
  by left.

Ltac find_member :=
  repeat (apply in_or_app; first [ left; solve [member_here] | right ]);
  try solve [member_here].

(** The check decoded from an echo of a create shape keeps the fields of
    the shape that [Check] declares. *)
Lemma echo_keeps_create_fields c ms :
  is_int (CreateCheck.Timeout c) -> is_int (CreateCheck.Grace c) ->
  echoes (CreateCheck.Marshal c) ms ->
  keeps_create_fields c (fst (Check.decode (json.Object ms) Check.zero)).
Proof.
  intros Ht Hg [Hincl Hnd]. cbn [Check.decode json.object fst]. unfold Check.fill.
  unfold keeps_create_fields. cbn [Check.Name Check.Slug Check.Tags Check.Desc
    Check.Timeout Check.Grace Check.ManualResume Check.Methods Check.Channels
    Check.StartKw Check.SuccessKw Check.FailureKw Check.FilterSubject Check.FilterBody
    Check.FilterHTTPBody Check.FilterDefaultFail].
  split_and!; intros Hset.
  - rewrite (field_of_member _ _ _ ms "name" (json.Str (CreateCheck.Name c)));
      [done | done | apply Hincl; find_member | done | done].
  - rewrite (field_of_member _ _ _ ms "slug" (json.Str (CreateCheck.Slug c)));
      [done | done | apply Hincl; find_member | done | done].
  - rewrite (field_of_member _ _ _ ms "tags" (json.Str (CreateCheck.Tags c)));
      [done | done | apply Hincl; find_member | done | done].
  - rewrite (field_of_member _ _ _ ms "desc" (json.Str (CreateCheck.Description c)));
      [done | done | apply Hincl; find_member | done | done].
  - rewrite (field_of_member _ _ _ ms "timeout" (json.Int (CreateCheck.Timeout c)));
      [by apply read_int_ok | done | apply Hincl; find_member | done
      | intros; by rewrite !read_int_ok].
  - rewrite (field_of_member _ _ _ ms "grace" (json.Int (CreateCheck.Grace c)));
      [by apply read_int_ok | done | apply Hincl; find_member | done
      | intros; by rewrite !read_int_ok].
  - rewrite (field_of_member _ _ _ ms "manual_resume" (json.Bool true));
      [done | done | apply Hincl; find_member | done | done].
  - rewrite (field_of_member _ _ _ ms "methods" (json.Str (CreateCheck.Methods c)));
      [done | done | apply Hincl; find_member | done | done].
  - rewrite (field_of_member _ _ _ ms "channels" (json.Str (CreateCheck.Channels c)));
      [done | done | apply Hincl; find_member | done | done].
  - rewrite (field_of_member _ _ _ ms "start_kw" (json.Str (CreateCheck.StartKeywords c)));
      [done | done | apply Hincl; find_member | done | done].
  - rewrite (field_of_member _ _ _ ms "success_kw" (json.Str (CreateCheck.SuccessKeywords c)));
      [done | done | apply Hincl; find_member | done | done].
  - rewrite (field_of_member _ _ _ ms "failure_kw" (json.Str (CreateCheck.FailureKeywords c)));
      [done | done | apply Hincl; find_member | done | done].
  - rewrite (field_of_member _ _ _ ms "filter_subject" (json.Bool true));
      [done | done | apply Hincl; find_member | done | done].
  - rewrite (field_of_member _ _ _ ms "filter_body" (json.Bool true));
      [done | done | apply Hincl; find_member | done | done].
  - rewrite (field_of_member _ _ _ ms "filter_http_body" (json.Bool true));
      [done | done | apply Hincl; find_member | done | done].
  - rewrite (field_of_member _ _ _ ms "filter_default_fail" (json.Bool true));
      [done | done | apply Hincl; find_member | done | done].
Qed.

End RoundTrip.

(* ================================================================== *)
(** * The operations of the client *)

Section Operations.

Context `{Runtime}.

(** What a call makes of the response its request gets. *)
Lemma run_response c call req resp trace :
  client.request_of c call = inl req ->
  retryablehttp.Do (client.httpClient c) req = (inl resp, trace) ->
  client.run c call = (client.response_of call resp, trace).
Proof.
  destruct call; simpl client.request_of; simpl client.run; intros Hreq Hdo;
    unfold client.tagged;
    [ unfold client.CreateCheck | unfold client.GetChecks | unfold client.GetCheck
    | unfold client.UpdateCheck | unfold client.DeleteCheck | unfold client.PauseCheck
    | unfold client.ResumeCheck | unfold client.GetPings | unfold client.GetPingBody
    | unfold client.GetFlips | unfold client.Ping ];
    rewrite Hreq, Hdo; reflexivity.
Qed.


Ltac api_request :=
  match goal with
  | |- context [match ?a with inl _ => _ | inr _ => _ end] =>
      destruct a as [?|?] eqn:?; [|done]
  end.

(** C1 (amended): the request each of the ten API operations builds carries
    the API key of the client under [X-Api-Key], and [Content-Type:
    application/json] whenever it has a body. The request [Ping] builds
    always has a body, and its only header is [User-Agent]: it carries
    neither the API key nor a content type. *)
Theorem request_headers c call req :
  client.request_of c call = inl req ->
  match call with
  | client.CallPing _ body _ =>
      http.Header_ req = {[ "User-Agent" := ["go-healthchecks-client"] ]} /\
      http.Body req = Some body
  | _ => authenticated c req
  end.
Proof.
  destruct call; simpl client.request_of;
    [ unfold client.CreateCheck_request | unfold client.GetChecks_request
    | unfold client.GetCheck_request | unfold client.UpdateCheck_request
    | unfold client.DeleteCheck_request | unfold client.PauseCheck_request
    | unfold client.ResumeCheck_request | unfold client.GetPings_request
    | unfold client.GetPingBody_request | unfold client.GetFlips_request
    | unfold client.Ping_request ];
    cbv zeta; do 2 api_request; intros [= <-];
    eauto using authenticated_without_body, authenticated_with_body.
  match goal with Hr : retryablehttp.NewRequestWithContext _ _ _ = inl _ |- _ =>
    apply NewRequest_fresh in Hr as [Hh Hb] end.
  split; [|done]. simpl. rewrite Hh. unfold http.Header_Set.
  change (http.CanonicalMIMEHeaderKey "User-Agent") with "User-Agent". done.
Qed.




End Operations.

(* ================================================================== *)
(** * The addresses of the operations *)

Section Addresses.

Context `{Runtime}.

(** [JoinPath] changes the path of an address and nothing else. *)
Lemma JoinPath_cases u elem :
  exists p raw, url.JoinPath u elem = url.with_Path u p raw.
Proof.
  unfold url.JoinPath. cbv zeta. set (p := if _ && _ then _ else _).
  unfold url.setPath. destruct (url.unescape p url.encodePath) as [q|e]; simpl; [eauto|].
  exists (url.Path u), (url.RawPath u). by destruct u.
Qed.

(** The text of an address with a host, with a query added to it. *)
Lemma String_with_RawQuery a q :
  url.Opaque a = "" -> url.Host a <> "" -> url.ForceQuery a = false ->
  url.RawQuery a = "" -> url.Fragment a = "" ->
  url.String_ (url.with_RawQuery a q)
  = url.String_ a +:+ (if String.eqb q "" then "" else "?" +:+ q).
Proof.
  intros Hop Hh Hf Hq Hfr.
  rewrite (String_with_host a), (String_with_host (url.with_RawQuery a q)) by done.
  change (url.EscapedPath (url.with_RawQuery a q)) with (url.EscapedPath a).
  change (origin (url.with_RawQuery a q)) with (origin a).
  unfold query_and_fragment.
  cbn [url.ForceQuery url.RawQuery url.Fragment url.with_RawQuery].
  rewrite Hf, Hq, Hfr. cbn [String.eqb negb orb]. rewrite !str_app_nil_r.
  rewrite !str_app_assoc. by destruct (String.eqb q "").
Qed.

(** The text of an address under the API root, with a query. *)
Lemma String_base_query slugs q :
  url.String_ (url.with_RawQuery (url.JoinPath base_address slugs) q)
  = url.String_ (url.JoinPath base_address slugs)
    +:+ (if String.eqb q "" then "" else "?" +:+ q).
Proof.
  destruct (JoinPath_cases base_address slugs) as (p & raw & ->).
  by apply String_with_RawQuery.
Qed.

(** C5 (amended): for segments without percent sign and without [.] or
    [..] element, [buildAddress] of a client made by [NewClient] returns the
    address whose path is the path of the base address followed by the
    non-empty elements of the segments, in the order given and separated by
    single slashes, with a final slash if the last segment has one. The
    escaped path decodes to that path and has no double slash, and the text
    of the address is the origin of the base address followed by it. *)
Theorem buildAddress_plain_segments net key slugs :
  Forall (fun s => plain_segment s = true) slugs ->
  exists u,
    client.buildAddress (client.NewClient net key) slugs = inl u /\
    url.Path u = joined_path slugs /\
    url.unescape (url.EscapedPath u) url.encodePath = inl (url.Path u) /\
    path.no_double_slash (url.EscapedPath u) = true /\
    url.String_ u = "https://healthchecks.io" +:+ url.EscapedPath u.
Proof.
  intros Hs. eexists. split; [apply buildAddress_NewClient|].
  rewrite JoinPath_base_address by done.
  set (raw := if String.eqb _ _ then _ else _).
  assert (Hpct : strings.all not_pct (joined_path slugs) = true).
  { apply joined_path_all; try done.
    eapply Forall_impl; [exact Hs|]. by intros s [? _]%andb_true_iff. }
  assert (Hraw : raw = "" \/ raw = joined_path slugs).
  { subst raw. destruct (String.eqb _ _); auto. }
  set (u := url.with_Path base_address (joined_path slugs) raw).
  assert (Hroot : strings.first_is "/" (url.EscapedPath u) = true).
  { destruct (EscapedPath_joined slugs raw Hpct Hraw) as [E|E]; fold u in E; rewrite E; [done|].
    by rewrite escape_joined_path. }
  rewrite (String_api_path _ _ Hroot : url.String_ u = _).
  split; [done|]. change (url.Path u) with (joined_path slugs).
  destruct (EscapedPath_joined slugs raw Hpct Hraw) as [E|E]; fold u in E; rewrite E.
  - split; [by apply unescape_no_pct|]. split; [|by fold u; rewrite E].
    apply no_double_slash_Join; [done | apply joined_components_spec].
  - split; [apply unescape_escape|]. split; [|by fold u; rewrite E].
    rewrite escape_joined_path. apply no_double_slash_Join; [done|].
    pose proof (joined_components_spec slugs) as Hc.
    apply Forall_map. eapply Forall_impl; [exact Hc|]. intros e [He1 He2]. split.
    + apply negb_true_iff, str_eqb_neq. intros He%escape_eq_nil.
      subst e. done.
    + by apply escape_not_slash.
Qed.

(** C6: the query of the address [GetChecks] builds has [slug] if and only
    if the slug is not empty, and [tags] if and only if the tags are not
    empty; the query of the address [GetFlips] builds has [seconds],
    [start] and [end] if and only if the number is positive. A parameter
    that is present has its value, escaped; the text of the address ends
    with the query after a question mark, and with nothing when no
    parameter is present. *)
Theorem query_parameters net key :
  (forall params,
     exists u,
       client.GetChecks_address (client.NewClient net key) params = inl u /\
       url.RawQuery u
       = strings.Join
           (pair_if (nonempty (GetChecks.Slug params)) "slug" (GetChecks.Slug params)
            ++ pair_if (nonempty (GetChecks.Tags params)) "tags" (GetChecks.Tags params))
           "&" /\
       url.String_ u
       = "https://healthchecks.io/api/v3/checks/"
         +:+ (if String.eqb (url.RawQuery u) "" then "" else "?" +:+ url.RawQuery u)) /\
  (forall identifier params,
     exists a u,
       client.buildAddress (client.NewClient net key) ["/checks/"; identifier; "/flips/"]
       = inl a /\
       client.GetFlips_address (client.NewClient net key) identifier params = inl u /\
       url.RawQuery u
       = strings.Join
           (pair_if (0 <? GetFlipsRequest.End_ params)%Z "end"
                    (strconv.Itoa (GetFlipsRequest.End_ params))
            ++ pair_if (0 <? GetFlipsRequest.Seconds params)%Z "seconds"
                       (strconv.Itoa (GetFlipsRequest.Seconds params))
            ++ pair_if (0 <? GetFlipsRequest.Start params)%Z "start"
                       (strconv.Itoa (GetFlipsRequest.Start params)))
           "&" /\
       url.String_ u
       = url.String_ a
         +:+ (if String.eqb (url.RawQuery u) "" then "" else "?" +:+ url.RawQuery u)).
Proof.
  split.
  - intros params. eexists. unfold client.GetChecks_address.
    rewrite buildAddress_NewClient. split; [reflexivity|].
    cbn [url.RawQuery url.with_RawQuery]. split; [apply Encode_GetChecks_query|].
    by rewrite String_base_query.
  - intros identifier params. do 2 eexists. unfold client.GetFlips_address.
    rewrite buildAddress_NewClient. split; [reflexivity|]. split; [reflexivity|].
    cbn [url.RawQuery url.with_RawQuery]. split; [apply Encode_GetFlips_query|].
    apply String_base_query.
Qed.

(** C7 (amended): for a ping address with a host whose path is empty or
    clean, [Ping] without option builds the address as [url.Parse] read it:
    origin, path, then query and fragment. With [WithStart] it builds the
    address with [/start] joined onto the path, and with [WithFail] the
    address with [/fail] joined onto the path: the word comes after the
    path and before the query and the fragment of the ping address. *)
Theorem Ping_addresses c pingURL body u :
  url.Parse pingURL = inl u ->
  url.Opaque u = "" -> url.Host u <> "" ->
  clean_path (url.EscapedPath u) = true ->
  sends_to c pingURL body []
    (origin u +:+ url.EscapedPath u +:+ query_and_fragment u) /\
  sends_to c pingURL body [client.WithStart]
    (origin u +:+ url.EscapedPath u +:+ "/start" +:+ query_and_fragment u) /\
  sends_to c pingURL body [client.WithFail]
    (origin u +:+ url.EscapedPath u +:+ "/fail" +:+ query_and_fragment u).
Proof.
  intros Hp Hop Hh Hc.
  destruct (String_JoinPath_word u "start" Hop Hh Hc eq_refl) as [H0 H1].
  destruct (String_JoinPath_word u "fail" Hop Hh Hc eq_refl) as [_ H2].
  unfold sends_to, client.Ping_request, client.Ping_address. rewrite Hp.
  cbn [fold_left]. unfold client.WithStart, client.WithFail. rewrite H0, H1, H2.
  repeat split; eauto.
Qed.

(** C9: [buildAddress] of a client made by [NewClient] returns an address
    and no error, for every list of segments: the base address parses. So
    does the address construction of each of the ten operations that use
    it. *)
Theorem buildAddress_never_fails net key :
  (forall slugs,
     client.buildAddress (client.NewClient net key) slugs
     = inl (url.JoinPath base_address slugs)) /\
  (forall call,
     match call with
     | client.CallPing _ _ _ => True
     | _ => exists u, address_of (client.NewClient net key) call = inl u
     end).
Proof.
  split; [apply buildAddress_NewClient|].
  intros call; destruct call; [..|done]; simpl address_of;
    [ unfold client.CreateCheck_address | unfold client.GetChecks_address
    | unfold client.GetCheck_address | unfold client.UpdateCheck_address
    | unfold client.DeleteCheck_address | unfold client.PauseCheck_address
    | unfold client.ResumeCheck_address | unfold client.GetPings_address
    | unfold client.GetPingBody_address | unfold client.GetFlips_address ];
    rewrite buildAddress_NewClient; eauto.
Qed.

(** C10: for every integer [n], zero and negative ones too, [GetPingBody]
    builds a [GET] request without body for the address
    [/checks/{uuid}/pings/{n in decimal}/body] under the API root, and
    hands it to the transport: the first event of the operation is the
    sending of this request. *)
Theorem GetPingBody_sends net key uuid n :
  identifier uuid = true ->
  exists req rest,
    client.GetPingBody_request (client.NewClient net key) uuid n = inl req /\
    http.Method req = "GET" /\
    http.Body req = None /\
    url.String_ (http.URL req)
    = "https://healthchecks.io/api/v3/checks/" +:+ uuid +:+ "/pings/"
      +:+ strconv.Itoa n +:+ "/body" /\
    snd (client.GetPingBody (client.NewClient net key) uuid n)
    = retryablehttp.Sent req :: rest.
Proof.
  intros Hu. pose proof (ping_body_segments uuid n Hu) as Hs.
  assert (Hreq : client.GetPingBody_request (client.NewClient net key) uuid n
                 = inl (http.Set_
                          {| http.Method := "GET";
                             http.URL := url.with_Path base_address
                               (joined_path ["/checks/"; uuid; "/pings/"; strconv.Itoa n; "/body"]) "";
                             http.Header_ := ∅; http.Body := None;
                             http.Host := "healthchecks.io" |}
                          "X-Api-Key" key)).
  { unfold client.GetPingBody_request, client.GetPingBody_address.
    rewrite buildAddress_NewClient, JoinPath_path_bytes by done.
    by rewrite NewRequest_path_bytes. }
  eexists. 
  destruct (Do_first (client.httpClient (client.NewClient net key))
              (http.Set_
                 {| http.Method := "GET";
                    http.URL := url.with_Path base_address
                      (joined_path ["/checks/"; uuid; "/pings/"; strconv.Itoa n; "/body"]) "";
                    http.Header_ := ∅; http.Body := None;
                    http.Host := "healthchecks.io" |}
                 "X-Api-Key" key)) as [rest Hrest].
  exists rest. split; [exact Hreq|]. split; [done|]. split; [done|]. split.
  - cbn [http.URL http.Set_ http.with_Header].
    by rewrite String_path_bytes, joined_path_ping_body.
  - unfold client.GetPingBody. rewrite Hreq.
    destruct (retryablehttp.Do _ _) as [[resp|err] t]; exact Hrest.
Qed.

End Addresses.

(* ================================================================== *)
(** * The create shape *)

Section CreateShape.

Context `{Runtime}.

(** C8 (amended): a create shape whose document reads back from its text
    decodes, as a create shape, to itself, except that an empty [Unique]
    list comes back nil. A response that echoes the document decodes, as the
    [Check] the operation returns, to a check with the fields of the create
    shape that [Check] declares; [Schedule], [Timezone] and [Unique] are
    not among them. *)
Theorem create_shape_round_trip c body ms :
  is_int (CreateCheck.Timeout c) -> is_int (CreateCheck.Grace c) ->
  scan (encode_text (CreateCheck.Marshal c)) = inl (CreateCheck.Marshal c) ->
  scan body = inl (json.Object ms) ->
  echoes (CreateCheck.Marshal c) ms ->
  Decode CreateCheck.decode (encode_text (CreateCheck.Marshal c)) CreateCheck.zero
  = (decoded_again c, None) /\
  keeps_create_fields c (fst (Decode Check.decode body Check.zero)).
Proof.
  intros Ht Hg Htext Hbody Hecho. unfold Decode. rewrite Htext, Hbody. split.
  - by apply CreateCheck_round_trip.
  - by apply echo_keeps_create_fields.
Qed.

End CreateShape.

(* ================================================================== *)
(** * What a call does on the network *)

Section Traces.

Context `{Runtime}.

Lemma invocations_Sent req t :
  retryablehttp.invocations (retryablehttp.Sent req :: t)
  = S (retryablehttp.invocations t).
Proof. reflexivity. Qed.

Lemma invocations_Slept w t :
  retryablehttp.invocations (retryablehttp.Slept w :: t) = retryablehttp.invocations t.
Proof. reflexivity. Qed.

(** The trace of the retry loop, whatever the transport does: the same
    request each time, at least once and at most once more than retries
    are left, with one wait between two invocations. *)
Lemma attempts_shape c req remain i :
  let t := snd (retryablehttp.attempts c req remain i) in
  retryablehttp.requests t = repeat req (retryablehttp.invocations t) /\
  (1 <= retryablehttp.invocations t <= S remain)%nat /\
  length (retryablehttp.waits t) = (retryablehttp.invocations t - 1)%nat.
Proof.
  assert (Hone : retryablehttp.requests [retryablehttp.Sent req]
                 = repeat req (retryablehttp.invocations [retryablehttp.Sent req]) /\
                 (1 <= retryablehttp.invocations [retryablehttp.Sent req] <= 1)%nat /\
                 length (retryablehttp.waits [retryablehttp.Sent req])
                 = (retryablehttp.invocations [retryablehttp.Sent req] - 1)%nat).
  { by vm_compute. }
  revert i. induction remain as [|remain IH]; intros i; cbn zeta;
    cbn [retryablehttp.attempts];
    destruct (retryablehttp.CheckRetry c _) as [[] checkErr]; cbn [negb snd];
    try exact Hone.
  - specialize (IH (S i)). cbn zeta in IH.
    destruct (retryablehttp.attempts c req remain (S i)) as [r t]. cbn [snd] in *.
    destruct IH as (Hr & Hn & Hw).
    rewrite invocations_Sent, invocations_Slept.
    change (retryablehttp.requests (retryablehttp.Sent req :: retryablehttp.Slept _ :: t))
      with (req :: retryablehttp.requests t).
    change (retryablehttp.waits (retryablehttp.Sent req :: retryablehttp.Slept ?w :: t))
      with (w :: retryablehttp.waits t).
    cbn [length repeat]. rewrite Hr, Hw. repeat split; try lia.
  - destruct Hone as (? & ? & ?). repeat split; try done; lia.
Qed.

(** The wait before a retry of the policy of [NewClient]. *)
Lemma DefaultBackoff_allowed i o :
  allowed_wait
    (retryablehttp.DefaultBackoff (500 * retryablehttp.Millisecond)
       (4 * retryablehttp.Second) (Z.of_nat i) o).
Proof.
  assert (Hcap : forall m, m = (2 ^ Z.of_nat i * (500 * retryablehttp.Millisecond))%Z ->
            (500 * retryablehttp.Millisecond
             <= (if (4 * retryablehttp.Second <? m)%Z then 4 * retryablehttp.Second else m)
             <= 4 * retryablehttp.Second)%Z).
  { intros m ->.
    assert (Hp : (0 < 2 ^ Z.of_nat i)%Z) by (apply Z.pow_pos_nonneg; lia).
    unfold retryablehttp.Millisecond, retryablehttp.Second.
    set (p := (2 ^ Z.of_nat i)%Z) in *.
    destruct (Z.ltb_spec (4 * 1000000000) (p * (500 * 1000000))); lia. }
  unfold retryablehttp.DefaultBackoff. cbv zeta.
  destruct o as [r|]; [|left; by apply Hcap].
  destruct (_ || _); [|left; by apply Hcap].
  destruct (parseRetryAfterHeader _) as [sleep|] eqn:Hs; [|left; by apply Hcap].
  right. eauto.
Qed.

Lemma attempts_waits_allowed net key req remain i :
  Forall allowed_wait
    (retryablehttp.waits
       (snd (retryablehttp.attempts (client.httpClient (client.NewClient net key))
               req remain i))).
Proof.
  revert i. induction remain as [|remain IH]; intros i;
    cbn [retryablehttp.attempts];
    destruct (retryablehttp.CheckRetry _ _) as [[] checkErr]; cbn [negb];
    try (cbn; by constructor).
  specialize (IH (S i)).
  destruct (retryablehttp.attempts _ req remain (S i)) as [r t]. cbn [snd] in *.
  unfold retryablehttp.waits in *. cbn [omap]. cbn [mbind option_bind].
  constructor; [|exact IH]. apply DefaultBackoff_allowed.
Qed.

(** A call whose request cannot be created does nothing on the network. *)
Lemma run_without_request c call err :
  client.request_of c call = inr err -> client.run c call = (inr err, []).
Proof.
  destruct call; simpl client.request_of; simpl client.run; intros Hreq;
    unfold client.tagged;
    [ unfold client.CreateCheck | unfold client.GetChecks | unfold client.GetCheck
    | unfold client.UpdateCheck | unfold client.DeleteCheck | unfold client.PauseCheck
    | unfold client.ResumeCheck | unfold client.GetPings | unfold client.GetPingBody
    | unfold client.GetFlips | unfold client.Ping ];
    by rewrite Hreq.
Qed.

(** What a call returns when [Do] fails. *)
Lemma run_failed c call req err trace :
  client.request_of c call = inl req ->
  retryablehttp.Do (client.httpClient c) req = (inr err, trace) ->
  client.run c call = (inr (do_error call err), trace).
Proof.
  destruct call; simpl client.request_of; simpl client.run; intros Hreq Hdo;
    unfold client.tagged;
    [ unfold client.CreateCheck | unfold client.GetChecks | unfold client.GetCheck
    | unfold client.UpdateCheck | unfold client.DeleteCheck | unfold client.PauseCheck
    | unfold client.ResumeCheck | unfold client.GetPings | unfold client.GetPingBody
    | unfold client.GetFlips | unfold client.Ping ];
    by rewrite Hreq, Hdo.
Qed.

(** X1: whatever the transport does, a call of a client made by
    [NewClient] whose request is created invokes the transport at least
    once and at most six times, each time with that same request, and
    waits once between two invocations, each time within the bounds of the
    policy or as long as a [Retry-After] header asked. A call whose
    request cannot be created returns the error without invoking the
    transport. *)
Theorem call_trace net key call :
  let c := client.NewClient net key in
  let t := snd (client.run c call) in
  match client.request_of c call with
  | inl req =>
      retryablehttp.requests t = repeat req (retryablehttp.invocations t) /\
      (1 <= retryablehttp.invocations t <= 6)%nat /\
      length (retryablehttp.waits t) = (retryablehttp.invocations t - 1)%nat /\
      Forall allowed_wait (retryablehttp.waits t)
  | inr err => client.run c call = (inr err, [])
  end.
Proof.
  intros c t. destruct (client.request_of c call) as [req|err] eqn:Hreq;
    [|by apply run_without_request].
  destruct (run_Do c call req Hreq) as [Ht _]. subst t. rewrite Ht.
  unfold retryablehttp.Do.
  pose proof (attempts_shape (client.httpClient c) req 5 0) as (Hr & Hn & Hw).
  split; [exact Hr|]. split; [exact Hn|]. split; [exact Hw|].
  apply attempts_waits_allowed.
Qed.

(** The wait the policy of [NewClient] schedules after attempt [i]. *)
Lemma wait_after_transient net key req i :
  transient (net i req) = true ->
  retryablehttp.Backoff (client.httpClient (client.NewClient net key))
    (500 * retryablehttp.Millisecond) (4 * retryablehttp.Second) (Z.of_nat i)
    (match net i req with inl resp => Some resp | inr _ => None end)
  = Z.min (4 * retryablehttp.Second) (2 ^ Z.of_nat i * (500 * retryablehttp.Millisecond)).
Proof.
  intros Ht. cbn [retryablehttp.Backoff client.httpClient client.NewClient
                  retryablehttp.NewClient].
  rewrite (transient_backoff _ _ _ _ Ht).
  destruct (Z.ltb_spec (4 * retryablehttp.Second)
              (2 ^ Z.of_nat i * (500 * retryablehttp.Millisecond))); lia.
Qed.

Lemma DefaultRetryPolicy_no_error o : snd (retryablehttp.DefaultRetryPolicy o) = None.
Proof.
  unfold retryablehttp.DefaultRetryPolicy. destruct o as [resp|[]]; try done.
  by repeat case_match.
Qed.

(** The retry loop of a client made by [NewClient], while the transport
    fails transiently and retries are left, and when it meets an outcome
    the policy does not retry. *)
Lemma attempts_final net key req o n :
  forall remain i,
    (n <= remain)%nat ->
    (forall j, (j < n)%nat -> transient (net (i + j)%nat req) = true) ->
    net (i + n)%nat req = o ->
    fst (retryablehttp.DefaultRetryPolicy o) = false ->
    exists t,
      retryablehttp.attempts (client.httpClient (client.NewClient net key)) req remain i
      = (retryablehttp.finish req o false None (S (i + n)), t) /\
      retryablehttp.requests t = repeat req (S n) /\
      retryablehttp.waits t
      = map (fun j => Z.min (4 * retryablehttp.Second)
                            (2 ^ Z.of_nat j * (500 * retryablehttp.Millisecond)))
            (seq i n).
Proof.
  induction n as [|n IH]; intros remain i Hn Hpre Ho Hstop.
  - rewrite Nat.add_0_r in Ho |- *. exists [retryablehttp.Sent req].
    split; [|done].
    pose proof (DefaultRetryPolicy_no_error o) as Hnone.
    destruct remain;
      cbn [retryablehttp.attempts client.httpClient client.NewClient
           retryablehttp.HTTPClient retryablehttp.CheckRetry retryablehttp.NewClient];
      rewrite Ho; destruct (retryablehttp.DefaultRetryPolicy o) as [sr ce];
      cbn [fst snd] in *; by subst.
  - destruct remain as [|remain]; [lia|].
    destruct (IH remain (S i)) as (t & Ht & Hr & Hw); [lia | | | done |].
    { intros j Hj. replace (S i + j)%nat with (i + S j)%nat by lia. apply Hpre. lia. }
    { by replace (S i + n)%nat with (i + S n)%nat by lia. }
    assert (Hi : transient (net i req) = true).
    { specialize (Hpre 0%nat). rewrite Nat.add_0_r in Hpre. apply Hpre. lia. }
    exists (retryablehttp.Sent req
              :: retryablehttp.Slept
                   (Z.min (4 * retryablehttp.Second)
                          (2 ^ Z.of_nat i * (500 * retryablehttp.Millisecond)))
              :: t).
    split; [|split].
    + cbn [retryablehttp.attempts]. fold (@retryablehttp.attempts H).
      change (retryablehttp.HTTPClient (client.httpClient (client.NewClient net key)))
        with net.
      change (retryablehttp.CheckRetry (client.httpClient (client.NewClient net key)))
        with retryablehttp.DefaultRetryPolicy.
      rewrite (transient_retried _ Hi). cbn [negb].
      change (retryablehttp.RetryWaitMin (client.httpClient (client.NewClient net key)))
        with (500 * retryablehttp.Millisecond)%Z.
      change (retryablehttp.RetryWaitMax (client.httpClient (client.NewClient net key)))
        with (4 * retryablehttp.Second)%Z.
      rewrite (wait_after_transient net key req i Hi), Ht.
      by replace (S (S i + n)) with (S (i + S n)) by lia.
    + change (retryablehttp.requests (retryablehttp.Sent req :: retryablehttp.Slept _ :: t))
        with (req :: retryablehttp.requests t). by rewrite Hr.
    + change (retryablehttp.waits (retryablehttp.Sent req :: retryablehttp.Slept ?w :: t))
        with (w :: retryablehttp.waits t). by rewrite Hw.
Qed.

Lemma backoff_schedule_NewClient net key n :
  (n <= 5)%nat ->
  take n (backoff_schedule (client.httpClient (client.NewClient net key)))
  = map (fun j => Z.min (4 * retryablehttp.Second)
                        (2 ^ Z.of_nat j * (500 * retryablehttp.Millisecond)))
        (seq 0 n).
Proof.
  intros Hn. do 6 (destruct n as [|n]; [reflexivity|]). lia.
Qed.

(** X2: when the transport fails transiently [n] times, [n] at most 5, and
    then answers with a response the policy does not retry, the call of a
    client made by [NewClient] returns what the operation makes of that
    response, after [n + 1] invocations with the same request and the
    first [n] waits of the schedule in between. *)
Theorem retried_until_answered net key call req resp n :
  let c := client.NewClient net key in
  client.request_of c call = inl req ->
  (n <= 5)%nat ->
  (forall j, (j < n)%nat -> transient (net j req) = true) ->
  net n req = inl resp ->
  fst (retryablehttp.DefaultRetryPolicy (inl resp)) = false ->
  exists t,
    client.run c call = (client.response_of call resp, t) /\
    retryablehttp.requests t = repeat req (S n) /\
    retryablehttp.waits t = take n (backoff_schedule (client.httpClient c)).
Proof.
  intros c Hreq Hn Hpre Hresp Hstop. subst c.
  destruct (attempts_final net key req (inl resp) n 5 0 Hn Hpre Hresp Hstop)
    as (t & Ht & Hr & Hw).
  exists t. split; [|split; [exact Hr|]].
  - apply (run_response _ call req resp t Hreq). exact Ht.
  - by rewrite backoff_schedule_NewClient.
Qed.

(** X3: when the transport fails with an error the policy does not retry
    (too many redirects, an unsupported scheme, an invalid header, an
    untrusted certificate), after [n] transient failures, [n] at most 5,
    the call ends there: it returns the error of [Do] that says it gave up
    after [n + 1] attempts and wraps the error of the transport, which
    [Ping] formats into a new error. *)
Theorem permanent_failure_ends net key call req msg n :
  let c := client.NewClient net key in
  client.request_of c call = inl req ->
  (n <= 5)%nat ->
  (forall j, (j < n)%nat -> transient (net j req) = true) ->
  net n req = inr (transportError msg true) ->
  exists t,
    client.run c call
    = (inr (do_error call
              (stopped req (Z.of_nat (S n)) (inr (transportError msg true)))), t) /\
    retryablehttp.requests t = repeat req (S n) /\
    retryablehttp.waits t = take n (backoff_schedule (client.httpClient c)).
Proof.
  intros c Hreq Hn Hpre Hlast. subst c.
  destruct (attempts_final net key req _ n 5 0 Hn Hpre Hlast eq_refl)
    as (t & Ht & Hr & Hw).
  exists t. split; [|split; [exact Hr|]].
  - apply (run_failed _ call req _ t Hreq). exact Ht.
  - by rewrite backoff_schedule_NewClient.
Qed.

(** The error of [Do] after six transient failures. *)
Lemma Do_exhausted net key req :
  (forall i, transient (net i req) = true) ->
  fst (retryablehttp.Do (client.httpClient (client.NewClient net key)) req)
  = inr (stopped req 6 (net 5%nat req)).
Proof.
  intros Hnet. unfold retryablehttp.Do.
  change (Z.to_nat (retryablehttp.RetryMax (client.httpClient (client.NewClient net key))))
    with 5%nat.
  cbn [retryablehttp.attempts client.httpClient client.NewClient retryablehttp.HTTPClient
       retryablehttp.CheckRetry retryablehttp.Backoff retryablehttp.NewClient
       retryablehttp.RetryWaitMin retryablehttp.RetryWaitMax].
  rewrite !transient_retried by apply Hnet. cbn [negb fst].
  unfold retryablehttp.finish, stopped. by destruct (net 5%nat req).
Qed.

(** X4: when the transport fails transiently at every attempt, the error
    the call returns says that [Do] gave up after 6 attempts. It wraps the
    error of the last attempt if that was an error of the transport; if the
    last attempt was a response, such as a 500, neither its status nor its
    body is reported. [Ping] formats the error of [Do] into a new error. *)
Theorem exhausted_error net key call req :
  let c := client.NewClient net key in
  client.request_of c call = inl req ->
  (forall i, transient (net i req) = true) ->
  fst (client.run c call) = inr (do_error call (stopped req 6 (net 5%nat req))).
Proof.
  intros c Hreq Hnet. subst c.
  pose proof (Do_exhausted net key req Hnet) as Hdo.
  destruct (retryablehttp.Do _ req) as [r t] eqn:E. cbn [fst] in Hdo. subst r.
  by rewrite (run_failed _ call req _ t Hreq E).
Qed.

End Traces.

(* ================================================================== *)
(** * The requests of the API operations, for all arguments *)

Section ApiRequestsInGeneral.

Context `{Runtime}.

Lemma valid_byte_address c :
  byte.one_of "!$&'()*+,;=:@[]%" c || negb (url.shouldEscape c url.encodePath) = true ->
  address_byte c = true.
Proof. destruct c as [[] [] [] [] [] [] [] []]; by vm_compute. Qed.

Lemma validEncoded_address s :
  url.validEncoded s url.encodePath = true -> strings.all address_byte s = true.
Proof.
  induction s as [|c s IH]; simpl; [done|]. intros [Hc Hs]%andb_true_iff.
  by rewrite (valid_byte_address c Hc), IH.
Qed.

Lemma validEncoded_pct c : url.validEncoded (url.pct c "") url.encodePath = true.
Proof. destruct c as [[] [] [] [] [] [] [] []]; by vm_compute. Qed.

Lemma validEncoded_escape s :
  url.validEncoded (url.escape s url.encodePath) url.encodePath = true.
Proof.
  induction s as [|c s IH]; simpl; [done|].
  destruct (url.shouldEscape c url.encodePath) eqn:Hc.
  - by rewrite pct_app, validEncoded_app, validEncoded_pct, IH.
  - simpl. by rewrite Hc, orb_true_r, IH.
Qed.

(** The escaped path of an address is a valid encoding. *)
Lemma EscapedPath_valid u : url.validEncoded (url.EscapedPath u) url.encodePath = true.
Proof.
  unfold url.EscapedPath.
  destruct (negb (String.eqb (url.RawPath u) "")); cbn [andb];
    [destruct (url.validEncoded (url.RawPath u) url.encodePath) eqn:Hv; cbn [andb];
     [destruct (url.unescape (url.RawPath u) url.encodePath) as [p|];
      [destruct (String.eqb p (url.Path u)); [exact Hv|] |] |] |];
    (destruct (String.eqb (url.Path u) "*"); [done | apply validEncoded_escape]).
Qed.

Lemma query_byte_address c :
  url.shouldEscape c url.encodeQueryComponent = false -> address_byte c = true.
Proof. destruct c as [[] [] [] [] [] [] [] []]; by vm_compute. Qed.

Lemma pct_address c : strings.all address_byte (url.pct c "") = true.
Proof. destruct c as [[] [] [] [] [] [] [] []]; by vm_compute. Qed.

Lemma QueryEscape_address s : strings.all address_byte (url.QueryEscape s) = true.
Proof.
  unfold url.QueryEscape. induction s as [|c s IH]; simpl; [done|].
  destruct (url.shouldEscape c url.encodeQueryComponent) eqn:Hc.
  - destruct (Ascii.eqb c " "); [by simpl; rewrite IH|].
    by rewrite pct_app, all_app, pct_address, IH.
  - simpl. by rewrite (query_byte_address c Hc), IH.
Qed.

Lemma all_Join_sep p l sep :
  strings.all p sep = true -> Forall (fun e => strings.all p e = true) l ->
  strings.all p (strings.Join l sep) = true.
Proof.
  intros Hp Hl. induction Hl as [|e l He Hl IH]; [done|].
  destruct l as [|e' l]; [done|].
  change (strings.Join (e :: e' :: l) sep)
    with (e +:+ sep +:+ strings.Join (e' :: l) sep).
  by rewrite !all_app, He, Hp, IH.
Qed.

Lemma pair_if_address b key value :
  strings.all address_byte key = true ->
  Forall (fun e => strings.all address_byte e = true) (pair_if b key value).
Proof.
  intros Hk. destruct b; [|done]. repeat constructor.
  by rewrite !all_app, Hk, QueryEscape_address.
Qed.

(** The query of an operation has no byte that would end it. *)
Lemma query_of_address call : strings.all address_byte (query_of call) = true.
Proof.
  destruct call; try done; unfold query_of.
  - rewrite Encode_GetChecks_query. apply all_Join_sep; [done|].
    apply Forall_app. split; by apply pair_if_address.
  - rewrite Encode_GetFlips_query. apply all_Join_sep; [done|].
    repeat (apply Forall_app; split); by apply pair_if_address.
Qed.

Lemma HasSuffix_app_none s t c :
  t <> "" -> strings.all (fun x => negb (Ascii.eqb x c)) t = true ->
  strings.HasSuffix (s +:+ t) (String c "") = false.
Proof.
  intros Hne Ht. induction s as [|x s IH]; [by apply HasSuffix_byte_none|].
  change (String x s +:+ t) with (String x (s +:+ t)).
  cbn [strings.HasSuffix]. rewrite IH, orb_false_r.
  cbn [String.eqb]. destruct (Ascii.eqb x c); [|done].
  destruct s; [by destruct t | done].
Qed.

Lemma address_byte_not c x :
  address_byte x = false -> address_byte c = true -> negb (Ascii.eqb c x) = true.
Proof.
  intros Hx Hc. apply negb_true_iff. destruct (Ascii.eqb_spec c x) as [->|]; [|done].
  by rewrite Hx in Hc.
Qed.

Lemma address_byte_not_ctl c :
  address_byte c = true -> negb ((byte.code c <? 32)%N || Ascii.eqb c "127") = true.
Proof. by intros [[? _]%andb_true_iff _]%andb_true_iff. Qed.

(** The text of an address under the API host, with a valid path and a
    query, parses into its parts. *)
Lemma parse_address_text ep q p :
  url.validEncoded (String "/" ep) url.encodePath = true ->
  url.unescape (String "/" ep) url.encodePath = inl p ->
  strings.all address_byte q = true ->
  url.Parse ("https://healthchecks.io" +:+ String "/" ep
             +:+ (if String.eqb q "" then "" else "?" +:+ q))
  = inl (url.with_RawQuery
           (url.with_Path base_address p
              (if String.eqb (String "/" ep) (url.escape p url.encodePath)
               then "" else String "/" ep)) q).
Proof.
  intros Hv Hu Hq. pose proof (validEncoded_address _ Hv) as Hep.
  set (tail := if String.eqb q "" then "" else "?" +:+ q).
  assert (Hnot : forall x, address_byte x = false -> x <> "?"%char ->
            strings.all (fun c => negb (Ascii.eqb c x))
              ("https://healthchecks.io" +:+ String "/" ep +:+ tail) = true).
  { intros x Hx Hx'. rewrite !all_app. apply andb_true_iff. split.
    - destruct x as [[] [] [] [] [] [] [] []]; by vm_compute in Hx |- *.
    - apply andb_true_iff. split.
      + eapply all_impl; [|exact Hep]. intros c. by apply address_byte_not.
      + subst tail. destruct (String.eqb q ""); [done|].
        change ("?" +:+ q) with (String "?" q). cbn [strings.all].
        apply andb_true_iff. split.
        * apply negb_true_iff, Ascii.eqb_neq. congruence.
        * eapply all_impl; [|exact Hq]. intros c. by apply address_byte_not. }
  unfold url.Parse. rewrite (Cut_byte_none _ "#"%char) by (by apply Hnot).
  unfold url.parse.
  assert (Hctl : url.stringContainsCTLByte
                   ("https://healthchecks.io" +:+ String "/" ep +:+ tail) = false).
  { unfold url.stringContainsCTLByte. apply negb_false_iff.
    rewrite !all_app. apply andb_true_iff. split; [done|]. apply andb_true_iff. split.
    - eapply all_impl; [|exact Hep]. apply address_byte_not_ctl.
    - subst tail. destruct (String.eqb q ""); [done|].
      change ("?" +:+ q) with (String "?" q). cbn [strings.all].
      apply andb_true_iff. split; [done|].
      eapply all_impl; [|exact Hq]. apply address_byte_not_ctl. }
  rewrite Hctl.
  replace (String.eqb ("https://healthchecks.io" +:+ String "/" ep +:+ tail) "*")
    with false by done.
  change (url.getScheme ("https://healthchecks.io" +:+ String "/" ep +:+ tail))
    with (inl ("https", "//healthchecks.io" +:+ String "/" ep +:+ tail)
          : (string * string) + error).
  cbv beta iota.
  assert (Hpath : strings.all (fun x => negb (Ascii.eqb x "?"))
                    ("//healthchecks.io" +:+ String "/" ep) = true).
  { rewrite all_app. apply andb_true_iff. split; [done|].
    eapply all_impl; [|exact Hep]. intros c. by apply address_byte_not. }
  assert (Hcut :
    (if strings.HasSuffix ("//healthchecks.io" +:+ String "/" ep +:+ tail) "?"
        && Nat.eqb (strings.CountByte ("//healthchecks.io" +:+ String "/" ep +:+ tail) "?") 1
     then (strings.slice_to
             (String.length ("//healthchecks.io" +:+ String "/" ep +:+ tail) - 1)
             ("//healthchecks.io" +:+ String "/" ep +:+ tail), true, EmptyString)
     else let '(r, q0, _) :=
            strings.Cut ("//healthchecks.io" +:+ String "/" ep +:+ tail) "?" in
          (r, false, q0))
    = ("//healthchecks.io" +:+ String "/" ep, false, q)).
  { subst tail. destruct (String.eqb q "") eqn:Eq.
    - apply str_eqb_eq in Eq. subst q.
      change ("//healthchecks.io" +:+ String "/" ep +:+ "")
        with ("//healthchecks.io" +:+ (String "/" ep +:+ "")).
      rewrite str_app_nil_r.
      rewrite (HasSuffix_byte_none _ _ Hpath). cbn [andb].
      by rewrite (Cut_byte_none _ _ Hpath).
    - apply str_eqb_neq in Eq.
      replace ("//healthchecks.io" +:+ String "/" ep +:+ "?" +:+ q)
        with (("//healthchecks.io" +:+ String "/" ep +:+ "?") +:+ q)
        by (by rewrite !str_app_assoc).
      rewrite HasSuffix_app_none; [|done|]; cycle 1.
      { eapply all_impl; [|exact Hq]. intros c. by apply address_byte_not. }
      cbn [andb]. unfold strings.Cut.
      replace (("//healthchecks.io" +:+ String "/" ep +:+ "?") +:+ q)
        with (("//healthchecks.io" +:+ String "/" ep) +:+ String "?" q)
        by (by rewrite !str_app_assoc).
      rewrite (Index_byte_app _ _ _ Hpath), slice_to_app.
      replace (strings.slice_from _ _) with q; [done|].
      replace (("//healthchecks.io" +:+ String "/" ep) +:+ String "?" q)
        with ((("//healthchecks.io" +:+ String "/" ep) +:+ "?") +:+ q)
        by (by rewrite !str_app_assoc).
      rewrite <- (slice_from_app (("//healthchecks.io" +:+ String "/" ep) +:+ "?") q) at 1.
      f_equal. rewrite str_app_length. simpl. lia. }
  rewrite Hcut. cbv beta iota zeta.
  change (strings.ToLower "https") with "https".
  change (strings.HasPrefix ("//healthchecks.io" +:+ String "/" ep) "/") with true.
  change (strings.HasPrefix ("//healthchecks.io" +:+ String "/" ep) "//") with true.
  cbn [negb andb orb String.eqb Ascii.eqb Bool.eqb].
  change (strings.slice_from 2 ("//healthchecks.io" +:+ String "/" ep))
    with ("healthchecks.io" +:+ String "/" ep).
  rewrite (Index_byte_app "healthchecks.io" ep "/") by done.
  rewrite slice_to_app.
  change (String.length "healthchecks.io") with (String.length "healthchecks.io" + 0)%nat.
  change ("healthchecks.io" +:+ String "/" ep)
    with ("healthchecks.io" +:+ (String "/" ep)).
  rewrite Nat.add_0_r, slice_from_app.
  change (url.parseAuthority "healthchecks.io")
    with (inl (None, "healthchecks.io") : (option url.Userinfo * string) + error).
  cbv beta iota. unfold url.setPath. rewrite Hu. reflexivity.
Qed.

Lemma fold_slash_rooted l b :
  exists b', fold_left (fun b e => b +:+ String "/" e) l (String "/" b) = String "/" b'.
Proof. revert b. induction l as [|e l IH]; intros b; simpl; [eauto | apply IH]. Qed.

Lemma unescape_rooted s p :
  url.unescape (String "/" s) url.encodePath = inl p -> exists p', p = String "/" p'.
Proof.
  cbn [url.unescape]. change (Ascii.eqb "/" "%") with false.
  change (Ascii.eqb "/" "+") with false. cbn [url.is_host_mode andb].
  destruct (url.unescape s url.encodePath) as [t|]; [|done]. intros [= <-]. eauto.
Qed.

(** An escaped path is rooted when the path is, and the raw path too if
    there is one. *)
Lemma EscapedPath_rooted u :
  strings.first_is "/" (url.Path u) = true ->
  url.RawPath u = "" \/ strings.first_is "/" (url.RawPath u) = true ->
  strings.first_is "/" (url.EscapedPath u) = true.
Proof.
  intros Hp Hraw. unfold url.EscapedPath.
  destruct (negb (String.eqb (url.RawPath u) "") && _ && _) eqn:E.
  - destruct Hraw as [Hraw|Hraw]; [|done]. by rewrite Hraw in E.
  - destruct (url.Path u) as [|c p]; [done|]. simpl in Hp.
    apply Ascii.eqb_eq in Hp as ->. by destruct p.
Qed.

(** Whatever the segments, the address [buildAddress] returns has a
    rooted path. *)
Lemma JoinPath_base_rooted slugs :
  strings.first_is "/" (url.EscapedPath (url.JoinPath base_address slugs)) = true.
Proof.
  unfold url.JoinPath.
  change (url.EscapedPath base_address) with "/api/v3".
  change (strings.HasPrefix "/api/v3" "/") with true. cbv iota zeta.
  assert (exists p0, path.Join ("/api/v3" :: slugs) = String "/" p0) as [p0 ->].
  { unfold path.Join. cbn [forallb String.eqb Ascii.eqb Bool.eqb andb].
    cbn [path.join_buf String.eqb negb].
    rewrite join_buf_nonempty by done.
    destruct (fold_slash_rooted slugs "api/v3") as [b ->].
    rewrite Clean_rooted. by eexists. }
  set (p := if _ && _ then _ else _).
  assert (exists p', p = String "/" p') as [p' ->].
  { subst p. destruct (_ && _); by eexists. }
  unfold url.setPath.
  destruct (url.unescape (String "/" p') url.encodePath) as [path|] eqn:Hu; [|done].
  apply unescape_rooted in Hu as [path' ->].
  apply EscapedPath_rooted; [done|]. cbn [url.RawPath url.with_Path].
  destruct (String.eqb _ _); [by left | by right].
Qed.

(** The escaped path of an address parsed from its own text. *)
Lemma EscapedPath_reparsed u ep p :
  url.validEncoded (String "/" ep) url.encodePath = true ->
  url.unescape (String "/" ep) url.encodePath = inl p ->
  url.EscapedPath
    (url.with_Path u p
       (if String.eqb (String "/" ep) (url.escape p url.encodePath)
        then "" else String "/" ep))
  = String "/" ep.
Proof.
  intros Hv Hu. unfold url.EscapedPath. cbn [url.RawPath url.Path url.with_Path].
  destruct (String.eqb (String "/" ep) (url.escape p url.encodePath)) eqn:E.
  - cbn [String.eqb negb andb]. apply str_eqb_eq in E.
    destruct (unescape_rooted _ _ Hu) as [p' ->].
    change (String.eqb (String "/" p') "*") with false. by cbv iota.
  - change (String.eqb (String "/" ep) "") with false. cbn [negb andb].
    by rewrite Hv, Hu, str_eqb_refl.
Qed.

(** The request for the address [buildAddress] returns, with a query:
    it is created, and it goes to that address. *)
Lemma NewRequest_address slugs q method body :
  http.validMethod method = true ->
  strings.all address_byte q = true ->
  exists req,
    retryablehttp.NewRequestWithContext method
      (url.String_ (url.with_RawQuery (url.JoinPath base_address slugs) q)) body
    = inl req /\
    http.Method req = method /\ http.Body req = body /\ http.Header_ req = ∅ /\
    http.Host req = "healthchecks.io" /\
    url.String_ (http.URL req)
    = url.String_ (url.with_RawQuery (url.JoinPath base_address slugs) q) /\
    url.Scheme (http.URL req) = "https" /\
    url.Host (http.URL req) = "healthchecks.io" /\
    url.Path (http.URL req) = url.Path (url.JoinPath base_address slugs) /\
    url.RawQuery (http.URL req) = q /\
    url.Fragment (http.URL req) = "".
Proof.
  intros Hm Hq.
  pose proof (JoinPath_base_rooted slugs) as Hroot.
  pose proof (EscapedPath_valid (url.JoinPath base_address slugs)) as Hv.
  pose proof (unescape_EscapedPath _ Hroot) as Hu.
  destruct (JoinPath_cases base_address slugs) as (p & raw & E). rewrite E in *.
  rewrite (String_api_address p raw q Hroot).
  destruct (url.EscapedPath (url.with_Path base_address p raw)) as [|c ep] eqn:Eep;
    [done|].
  simpl in Hroot. apply Ascii.eqb_eq in Hroot as ->.
  unfold retryablehttp.NewRequestWithContext, http.NewRequestWithContext.
  assert (Hne : String.eqb method "" = false).
  { apply andb_true_iff in Hm as [Hm _]. by apply negb_true_iff. }
  rewrite Hne, Hm. cbn [negb]. cbv iota.
  rewrite (parse_address_text ep q _ Hv Hu Hq). cbv beta iota zeta.
  eexists. split; [reflexivity|].
  cbn [http.Method http.Body http.Header_ http.Host http.URL url.Host url.Scheme
       url.Path url.RawQuery url.Fragment url.with_Host url.with_RawQuery url.with_Path
       base_address].
  repeat split; try done.
  set (raw' := if String.eqb _ _ then _ else _).
  change (url.with_Host _ _)
    with (url.with_RawQuery (url.with_Path base_address (url.Path (url.with_Path base_address p raw)) raw') q).
  cbn [url.Path url.with_Path].
  assert (Hep : url.EscapedPath (url.with_Path base_address p raw') = String "/" ep).
  { subst raw'. by apply EscapedPath_reparsed. }
  rewrite String_api_address by (by rewrite Hep). by rewrite Hep.
Qed.

Lemma JoinPath_base_no_query slugs :
  url.with_RawQuery (url.JoinPath base_address slugs) "" = url.JoinPath base_address slugs.
Proof. by destruct (JoinPath_cases base_address slugs) as (p & raw & ->). Qed.

Ltac built_request slugs q method body :=
  let Hreq := fresh "Hreq" in
  destruct (NewRequest_address slugs q method body eq_refl)
    as (req & Hreq & Hm & Hb & Hh & Hhost & Hs & Hsch & Huh & _ & Hrq & Hf);
  [ try done
  | rewrite ?JoinPath_base_no_query in Hreq, Hs;
    eexists; eexists; split; [reflexivity|];
    rewrite Hreq; split; [reflexivity|];
    cbn [http.Method http.Body http.Host http.URL http.Set_ http.with_Header];
    rewrite ?JoinPath_base_no_query; done ].

(** X5: whatever the identifiers and parameters, each of the ten API
    operations of a client made by [NewClient] builds its address and
    creates its request. The request has the method and the body of the
    operation, it goes to the address built, and to the host
    [healthchecks.io] over [https]: its query is the query of the
    operation and it has no fragment, so no byte of an identifier ends up
    in the host, the query or the fragment. *)
Theorem api_request_built net key call :
  match call with
  | client.CallPing _ _ _ => True
  | _ =>
      exists address req,
        address_of (client.NewClient net key) call = inl address /\
        client.request_of (client.NewClient net key) call = inl req /\
        http.Method req = method_of call /\
        http.Body req = body_of call /\
        http.Host req = "healthchecks.io" /\
        url.String_ (http.URL req) = url.String_ address /\
        url.Scheme (http.URL req) = "https" /\
        url.Host (http.URL req) = "healthchecks.io" /\
        url.RawQuery (http.URL req) = query_of call /\
        url.Fragment (http.URL req) = ""
  end.
Proof.
  destruct call as [check|params|identifier|uuid update|uuid|uuid|uuid|identifier
                    |uuid n|identifier params|pingURL body opts]; [..|done];
    cbn [address_of client.request_of method_of body_of query_of];
    [ unfold client.CreateCheck_request, client.CreateCheck_address
    | unfold client.GetChecks_request, client.GetChecks_address
    | unfold client.GetCheck_request, client.GetCheck_address
    | unfold client.UpdateCheck_request, client.UpdateCheck_address
    | unfold client.DeleteCheck_request, client.DeleteCheck_address
    | unfold client.PauseCheck_request, client.PauseCheck_address
    | unfold client.ResumeCheck_request, client.ResumeCheck_address
    | unfold client.GetPings_request, client.GetPings_address
    | unfold client.GetPingBody_request, client.GetPingBody_address
    | unfold client.GetFlips_request, client.GetFlips_address ];
    rewrite buildAddress_NewClient; cbv zeta.
  - built_request ["/checks/"] "" "POST" (Some (encode_text (CreateCheck.Marshal check))).
  - built_request ["/checks/"] (url.Encode (client.GetChecks_query params)) "GET"
      (@None string).
    apply (query_of_address (client.CallGetChecks params)).
  - built_request ["/checks/"; identifier] "" "GET" (@None string).
  - built_request ["/checks/"; uuid] "" "POST"
      (Some (encode_text (UpdateCheck.Marshal update))).
  - built_request ["/checks/"; uuid] "" "DELETE" (@None string).
  - built_request ["/checks/"; uuid; "/pause"] "" "POST" (@None string).
  - built_request ["/checks/"; uuid; "/resume"] "" "POST" (@None string).
  - built_request ["/checks/"; identifier; "/pings/"] "" "GET" (@None string).
  - built_request ["/checks/"; uuid; "/pings/"; strconv.Itoa n; "/body"] "" "GET"
      (@None string).
  - built_request ["/checks/"; identifier; "/flips/"]
      (url.Encode (client.GetFlips_query params)) "GET" (@None string).
    apply (query_of_address (client.CallGetFlips identifier params)).
Qed.

End ApiRequestsInGeneral.

(* ================================================================== *)
(** * The requests of the API operations, for identifiers *)

Section Catalogue.

Context `{Runtime}.

Lemma identifier_no_slash_suffix id :
  identifier id = true -> strings.HasSuffix id "/" = false.
Proof.
  intros [_ Hid]%andb_true_iff. apply HasSuffix_byte_none.
  eapply all_impl; [|exact Hid]. apply identifier_byte_not_slash.
Qed.

Lemma identifier_path_bytes id :
  identifier id = true -> strings.all path_byte id = true.
Proof.
  intros [_ Hid]%andb_true_iff. eapply all_impl; [|exact Hid]. apply identifier_byte_path.
Qed.

(** The paths of the operations on one check. *)
Lemma joined_path_check id :
  identifier id = true ->
  joined_path ["/checks/"; id] = "/api/v3/checks/" +:+ id /\
  joined_path ["/checks/"; id; "/pause"] = "/api/v3/checks/" +:+ id +:+ "/pause" /\
  joined_path ["/checks/"; id; "/resume"] = "/api/v3/checks/" +:+ id +:+ "/resume" /\
  joined_path ["/checks/"; id; "/pings/"] = "/api/v3/checks/" +:+ id +:+ "/pings/" /\
  joined_path ["/checks/"; id; "/flips/"] = "/api/v3/checks/" +:+ id +:+ "/flips/".
Proof.
  intros Hid. pose proof (identifier_no_slash_suffix id Hid) as Hsuf.
  destruct (andb_prop _ _ Hid) as [Hne Hb].
  unfold joined_path, joined_components. simpl flat_map.
  rewrite (components_single id) by done.
  change (path.components "/checks/") with ["checks"].
  change (path.components "/pause") with ["pause"].
  change (path.components "/resume") with ["resume"].
  change (path.components "/pings/") with ["pings"].
  change (path.components "/flips/") with ["flips"].
  cbn [List.last]. rewrite Hsuf. simpl.
  by rewrite ?str_app_nil_r, ?str_app_assoc.
Qed.

Ltac catalogue call slugs q method body Hpath :=
  let req := fresh "req" in
  let Hreq := fresh "Hreq" in
  let Hm := fresh "Hm" in
  let Hb := fresh "Hb" in
  let Hs := fresh "Hs" in
  unfold requests_at; cbn [client.request_of];
  unfold client.CreateCheck_request, client.GetChecks_request, client.GetCheck_request,
    client.UpdateCheck_request, client.DeleteCheck_request, client.PauseCheck_request,
    client.ResumeCheck_request, client.GetPings_request, client.GetFlips_request;
  unfold client.CreateCheck_address, client.GetChecks_address, client.GetCheck_address,
    client.UpdateCheck_address, client.DeleteCheck_address, client.PauseCheck_address,
    client.ResumeCheck_address, client.GetPings_address, client.GetFlips_address;
  rewrite buildAddress_NewClient; cbv zeta;
  destruct (NewRequest_address slugs q method body eq_refl)
    as (req & Hreq & Hm & Hb & _ & _ & Hs & _);
  [ first [ done | apply (query_of_address call) ]
  | rewrite ?JoinPath_base_no_query in Hreq, Hs; rewrite Hreq;
    eexists; split; [reflexivity|];
    cbn [http.Method http.Body http.URL http.Set_ http.with_Header];
    split; [exact Hm|]; split; [exact Hb|];
    rewrite Hs, (JoinPath_path_bytes slugs) by (repeat constructor; done);
    first [ rewrite (String_path_bytes_query slugs) by (repeat constructor; done)
          | rewrite (String_path_bytes slugs) by (repeat constructor; done) ];
    rewrite ?Hpath; unfold query_text; by rewrite ?str_app_assoc ].

(** X6: [CreateCheck] posts the encoded create shape to [/checks/] under
    the API root, and [GetChecks] gets [/checks/] with its query, if it has
    one: the slash at the end of the path is kept. *)
Theorem list_requests net key check params :
  let c := client.NewClient net key in
  requests_at c (client.CallCreateCheck check) "POST"
    (Some (encode_text (CreateCheck.Marshal check)))
    "https://healthchecks.io/api/v3/checks/" /\
  requests_at c (client.CallGetChecks params) "GET" None
    ("https://healthchecks.io/api/v3/checks/"
     +:+ query_text (url.Encode (client.GetChecks_query params))).
Proof.
  intros c. subst c. split.
  - catalogue (client.CallCreateCheck check) ["/checks/"] ""
      "POST" (Some (encode_text (CreateCheck.Marshal check))) (eq_refl "").
  - catalogue (client.CallGetChecks params) ["/checks/"]
      (url.Encode (client.GetChecks_query params)) "GET" (@None string) (eq_refl "").
Qed.

(** X7: for an identifier made of letters, digits, [-] and [_], the
    operations on one check create these requests under the API root:
    [GetCheck] gets, [UpdateCheck] posts the encoded update shape to, and
    [DeleteCheck] deletes [/checks/{id}]; [PauseCheck] and [ResumeCheck]
    post, without body, to [/checks/{id}/pause] and [/checks/{id}/resume];
    [GetPings] gets [/checks/{id}/pings/] and [GetFlips] gets
    [/checks/{id}/flips/] with its query, if it has one. *)
Theorem check_requests net key id update params :
  let c := client.NewClient net key in
  let root := "https://healthchecks.io/api/v3/checks/" +:+ id in
  identifier id = true ->
  requests_at c (client.CallGetCheck id) "GET" None root /\
  requests_at c (client.CallUpdateCheck id update) "POST"
    (Some (encode_text (UpdateCheck.Marshal update))) root /\
  requests_at c (client.CallDeleteCheck id) "DELETE" None root /\
  requests_at c (client.CallPauseCheck id) "POST" None (root +:+ "/pause") /\
  requests_at c (client.CallResumeCheck id) "POST" None (root +:+ "/resume") /\
  requests_at c (client.CallGetPings id) "GET" None (root +:+ "/pings/") /\
  requests_at c (client.CallGetFlips id params) "GET" None
    (root +:+ "/flips/" +:+ query_text (url.Encode (client.GetFlips_query params))).
Proof.
  intros c root Hid. subst c root.
  pose proof (identifier_path_bytes id Hid) as Hbytes.
  destruct (joined_path_check id Hid) as (H1 & H2 & H3 & H4 & H5).
  repeat split.
  - catalogue (client.CallGetCheck id) ["/checks/"; id] "" "GET" (@None string) H1.
  - catalogue (client.CallUpdateCheck id update) ["/checks/"; id] ""
      "POST" (Some (encode_text (UpdateCheck.Marshal update))) H1.
  - catalogue (client.CallDeleteCheck id) ["/checks/"; id] "" "DELETE" (@None string) H1.
  - catalogue (client.CallPauseCheck id) ["/checks/"; id; "/pause"] ""
      "POST" (@None string) H2.
  - catalogue (client.CallResumeCheck id) ["/checks/"; id; "/resume"] ""
      "POST" (@None string) H3.
  - catalogue (client.CallGetPings id) ["/checks/"; id; "/pings/"] ""
      "GET" (@None string) H4.
  - catalogue (client.CallGetFlips id params) ["/checks/"; id; "/flips/"]
      (url.Encode (client.GetFlips_query params)) "GET" (@None string) H5.
Qed.

End Catalogue.

(* ================================================================== *)
(** * Documents sent and received *)

Section Documents.

Context `{Runtime}.

Lemma set_member_string k s :
  Forall (fun m => is_empty_value (snd m) = false) (json.omitempty_string k s).
Proof.
  unfold json.omitempty_string. destruct (String.eqb s "") eqn:E; [constructor|].
  repeat constructor. simpl. by destruct s.
Qed.

Lemma set_member_int k z :
  Forall (fun m => is_empty_value (snd m) = false) (json.omitempty_int k z).
Proof.
  unfold json.omitempty_int. destruct (z =? 0)%Z eqn:E; [constructor|].
  repeat constructor. simpl. by destruct z.
Qed.

Lemma set_member_bool k b :
  Forall (fun m => is_empty_value (snd m) = false) (json.omitempty_bool k b).
Proof. destruct b; by repeat constructor. Qed.

Lemma set_member_strings k l :
  Forall (fun m => is_empty_value (snd m) = false) (json.omitempty_strings k l).
Proof. destruct l as [[|x l]|]; by repeat constructor. Qed.

Lemma sublist_omit_string k s ms names :
  sublist (map fst ms) names ->
  sublist (map fst (json.omitempty_string k s ++ ms)) (k :: names).
Proof.
  intros Hs. unfold json.omitempty_string.
  destruct (String.eqb s ""); [by apply sublist_cons | by apply sublist_skip].
Qed.

Lemma sublist_omit_int k z ms names :
  sublist (map fst ms) names ->
  sublist (map fst (json.omitempty_int k z ++ ms)) (k :: names).
Proof.
  intros Hs. unfold json.omitempty_int.
  destruct (z =? 0)%Z; [by apply sublist_cons | by apply sublist_skip].
Qed.

Lemma sublist_omit_bool k b ms names :
  sublist (map fst ms) names ->
  sublist (map fst (json.omitempty_bool k b ++ ms)) (k :: names).
Proof. intros Hs. destruct b; [by apply sublist_skip | by apply sublist_cons]. Qed.

Lemma sublist_omit_strings k l ms names :
  sublist (map fst ms) names ->
  sublist (map fst (json.omitempty_strings k l ++ ms)) (k :: names).
Proof.
  intros Hs. destruct l as [[|x l]|]; [by apply sublist_cons | by apply sublist_skip
                                      | by apply sublist_cons].
Qed.

Ltac omitted :=
  repeat first [ apply sublist_omit_string | apply sublist_omit_int
               | apply sublist_omit_bool | apply sublist_omit_strings
               | apply sublist_cons ];
  apply sublist_nil.

Ltac all_set :=
  repeat (apply Forall_app; split);
  first [ apply set_member_string | apply set_member_int | apply set_member_bool
        | apply set_member_strings ].

(** X8: the document of a create shape or of an update shape has a member
    only for a field that is set: no member is an empty string, a zero, a
    false or an empty list. Its members are named after fields of the
    create shape, each at most once and in the order of the struct. The
    document of the zero shape is the empty object: an update cannot set
    a field back to its zero value. *)
Theorem documents_hold_set_fields :
  (forall c,
     Forall (fun m => is_empty_value (snd m) = false) (members_of (CreateCheck.Marshal c)) /\
     sublist (map fst (members_of (CreateCheck.Marshal c))) CreateCheck.names) /\
  (forall u,
     Forall (fun m => is_empty_value (snd m) = false) (members_of (UpdateCheck.Marshal u)) /\
     sublist (map fst (members_of (UpdateCheck.Marshal u))) CreateCheck.names) /\
  CreateCheck.Marshal CreateCheck.zero = json.Object [] /\
  UpdateCheck.Marshal UpdateCheck.zero = json.Object [].
Proof.
  split; [|split; [|done]].
  - intros c. unfold CreateCheck.Marshal, members_of, CreateCheck.names. split.
    + all_set.
    + rewrite <- (app_nil_r (json.omitempty_bool "filter_default_fail" _)).
      omitted.
  - intros u. unfold UpdateCheck.Marshal, members_of, CreateCheck.names. split.
    + all_set.
    + rewrite <- (app_nil_r (json.omitempty_bool "filter_default_fail" _)).
      omitted.
Qed.

(** A member that selects no field changes no field. *)
Lemma field_skip {A} names name (read : json.value -> A -> A) ms1 ms2 k v cur :
  json.select names k = None ->
  json.field names name read (ms1 ++ (k, v) :: ms2) cur
  = json.field names name read (ms1 ++ ms2) cur.
Proof.
  intros Hk. rewrite !field_app.
  change ((k, v) :: ms2) with ([(k, v)] ++ ms2). rewrite field_app.
  rewrite (field_miss names name read k v); [done|].
  unfold json.selects. by rewrite Hk.
Qed.

Lemma saved_error_skip names cs ms1 ms2 k v :
  json.select names k = None ->
  json.saved_error names cs (ms1 ++ (k, v) :: ms2)
  = json.saved_error names cs (ms1 ++ ms2).
Proof.
  intros Hk. unfold json.saved_error. rewrite !map_app, !first_error_app.
  cbn [map fst]. rewrite Hk.
  change (None :: ?l) with ([@None error] ++ l). by rewrite first_error_app.
Qed.

(** X9: a member of a response whose name matches no field of [Check],
    not even without regard to case, is ignored when the response is
    decoded: the check and the error are those of the response without
    it. *)
Theorem unknown_member_ignored ms1 ms2 k v cur :
  json.select Check.names k = None ->
  Check.decode (json.Object (ms1 ++ (k, v) :: ms2)) cur
  = Check.decode (json.Object (ms1 ++ ms2)) cur.
Proof.
  intros Hk. unfold Check.decode, json.object. f_equal.
  - unfold Check.fill. by rewrite !(field_skip Check.names _ _ ms1 ms2 k v) by done.
  - by apply saved_error_skip.
Qed.

End Documents.

(* ================================================================== *)
(** * Query values and ping addresses *)

Section QueryValues.

Context `{Runtime}.

Lemma escape_query_cons c s :
  url.escape (String c s) url.encodeQueryComponent
  = url.escape (String c "") url.encodeQueryComponent
    +:+ url.escape s url.encodeQueryComponent.
Proof. apply (escape_app (String c "") s). Qed.

Lemma escape_query_byte c :
  strings.all value_byte (url.escape (String c "") url.encodeQueryComponent) = true.
Proof. destruct c as [[] [] [] [] [] [] [] []]; reflexivity. Qed.

Lemma unescape_query_byte c s :
  url.unescape (url.escape (String c "") url.encodeQueryComponent +:+ s)
    url.encodeQueryComponent
  = match url.unescape s url.encodeQueryComponent with
    | inl t => inl (String c t)
    | inr e => inr e
    end.
Proof.
  destruct c as [[] [] [] [] [] [] [] []];
    cbn [url.escape url.shouldEscape]; reflexivity.
Qed.

(** X10: a value that [GetChecks] or [GetFlips] puts in its query is
    escaped so that it can be read back: unescaping the escaped value as a
    query component gives the value, and the escaped value has none of the
    bytes [&], [=] and [;] that separate the pairs of a query. *)
Theorem query_value_read_back value :
  url.unescape (url.QueryEscape value) url.encodeQueryComponent = inl value /\
  strings.all value_byte (url.QueryEscape value) = true.
Proof.
  unfold url.QueryEscape. induction value as [|c s [IH1 IH2]]; [done|].
  rewrite escape_query_cons. split.
  - by rewrite unescape_query_byte, IH1.
  - by rewrite all_app, escape_query_byte, IH2.
Qed.


End QueryValues.

(* ================================================================== *)
(** * The theorems at example inputs *)

#[local] Existing Instance example_runtime.

(** C1, at [CreateCheck] of the zero create shape. *)
Lemma request_headers_witness :
  exists req,
    client.request_of (client.NewClient net_down "secret")
      (client.CallCreateCheck CreateCheck.zero) = inl req /\
    authenticated (client.NewClient net_down "secret") req.
Proof.
  eexists. split; [reflexivity|].
  exact (request_headers (client.NewClient net_down "secret")
           (client.CallCreateCheck CreateCheck.zero) _ eq_refl).
Defined.

(** C1 fails at [Ping]: its request has a body, and neither the API key nor
    a content type. *)
Lemma ping_request_unauthenticated :
  exists req,
    client.request_of (client.NewClient net_down "secret")
      (client.CallPing "https://hc-ping.com/abc" "done" []) = inl req /\
    http.Header_ req !! "X-Api-Key" = None /\
    http.Body req = Some "done" /\
    http.Header_ req !! "Content-Type" = None.
Proof. eexists. split; [reflexivity|]. by vm_compute. Qed.






(** C5, at the segments of [PauseCheck]. *)
Lemma buildAddress_plain_segments_witness :
  exists u,
    client.buildAddress (client.NewClient net_down "secret") ["/checks/"; "abc"; "/pause"]
    = inl u /\
    url.String_ u = "https://healthchecks.io/api/v3/checks/abc/pause".
Proof.
  destruct (buildAddress_plain_segments net_down "secret" ["/checks/"; "abc"; "/pause"])
    as (u & Hu & _); [by repeat constructor|].
  exists u. split; [exact Hu|]. injection Hu as <-. reflexivity.
Defined.

(** C5 fails at segments with a [..] element, which removes the segment
    before it; at a segment with a malformed escape, after which no segment
    is joined at all; and at a segment with an escaped slash and a space,
    which leaves a double slash where the segment begins. *)
Lemma segments_rewritten :
  (exists u,
     client.buildAddress (client.NewClient net_down "secret") ["/checks/"; ".."; "x"]
     = inl u /\
     url.String_ u = "https://healthchecks.io/api/v3/x") /\
  (exists u,
     client.buildAddress (client.NewClient net_down "secret") ["/checks/"; "%zz"]
     = inl u /\
     url.String_ u = "https://healthchecks.io/api/v3") /\
  (exists u,
     client.buildAddress (client.NewClient net_down "secret") ["/checks/"; "%2F "]
     = inl u /\
     url.String_ u = "https://healthchecks.io/api/v3/checks//%20" /\
     path.no_double_slash (url.EscapedPath u) = false).
Proof.
  split; [|split]; eexists; (split; [reflexivity|]); try reflexivity.
  split; reflexivity.
Qed.

(** C7, at a ping address of [hc-ping.com]. *)
Lemma Ping_addresses_witness :
  sends_to (client.NewClient net_down "secret") "https://hc-ping.com/abc" "done" []
    "https://hc-ping.com/abc" /\
  sends_to (client.NewClient net_down "secret") "https://hc-ping.com/abc" "done"
    [client.WithStart] "https://hc-ping.com/abc/start" /\
  sends_to (client.NewClient net_down "secret") "https://hc-ping.com/abc" "done"
    [client.WithFail] "https://hc-ping.com/abc/fail".
Proof.
  eassert (Hp : url.Parse "https://hc-ping.com/abc" = inl _) by reflexivity.
  exact (Ping_addresses (client.NewClient net_down "secret") "https://hc-ping.com/abc"
           "done" _ Hp eq_refl ltac:(discriminate) eq_refl).
Defined.

(** C7 fails at a ping address with a query: the request goes to the
    address with [/start] before the query, not appended to the address. *)
Lemma ping_start_with_query :
  exists req,
    client.request_of (client.NewClient net_down "secret")
      (client.CallPing "https://hc-ping.com/abc?rid=1" "" [client.WithStart]) = inl req /\
    url.String_ (http.URL req) = "https://hc-ping.com/abc/start?rid=1" /\
    url.String_ (http.URL req) <> "https://hc-ping.com/abc?rid=1" +:+ "/start".
Proof. eexists. split; [reflexivity|]. split; [reflexivity|]. by vm_compute. Qed.

(** C8, at the create shape with the name [db]. *)
Lemma create_shape_round_trip_witness :
  Decode CreateCheck.decode (encode_text (CreateCheck.Marshal named_check)) CreateCheck.zero
  = (named_check, None) /\
  Check.Name (fst (Decode Check.decode name_document Check.zero)) = "db".
Proof.
  destruct (create_shape_round_trip named_check name_document [("name", json.Str "db")])
    as [Hc Hk]; [by vm_compute | by vm_compute | reflexivity | reflexivity | |].
  - split; [by apply incl_refl | by repeat constructor; set_solver].
  - split; [exact Hc|]. by apply Hk.
Defined.

(** C8 fails at a create shape with a schedule, of which the [Check]
    decoded from the echo of the document keeps nothing, and at a create
    shape with an empty list of unique fields, which comes back nil. *)
Lemma create_fields_lost :
  CreateCheck.Marshal cron_check = json.Object [("schedule", json.Str "15 5 * * *")] /\
  fst (Check.decode (CreateCheck.Marshal cron_check) Check.zero) = Check.zero /\
  CreateCheck.Unique unique_check = Some [] /\
  CreateCheck.Unique
    (fst (CreateCheck.decode (CreateCheck.Marshal unique_check) CreateCheck.zero)) = None.
Proof. repeat split; reflexivity. Qed.

(** C10, at a negative ping number. *)
Lemma GetPingBody_sends_witness :
  exists req rest,
    client.GetPingBody_request (client.NewClient net_down "secret") "abc" (-3) = inl req /\
    http.Method req = "GET" /\
    http.Body req = None /\
    url.String_ (http.URL req) = "https://healthchecks.io/api/v3/checks/abc/pings/-3/body" /\
    snd (client.GetPingBody (client.NewClient net_down "secret") "abc" (-3))
    = retryablehttp.Sent req :: rest.
Proof. exact (GetPingBody_sends net_down "secret" "abc" (-3) eq_refl). Defined.

(** X2, at [GetCheck] on a network that refuses two connections and then
    answers with 200 and the empty object. *)
Lemma retried_until_answered_witness :
  exists req t,
    client.request_of (client.NewClient (net_recovers 2 (reply 200 "{}")) "secret")
      (client.CallGetCheck "abc") = inl req /\
    client.run (client.NewClient (net_recovers 2 (reply 200 "{}")) "secret")
      (client.CallGetCheck "abc") = (inl (client.ACheck Check.zero), t) /\
    retryablehttp.requests t = [req; req; req] /\
    retryablehttp.waits t = [500000000; 1000000000]%Z.
Proof.
  eassert (Hreq : client.request_of
                    (client.NewClient (net_recovers 2 (reply 200 "{}")) "secret")
                    (client.CallGetCheck "abc") = inl _) by reflexivity.
  destruct (retried_until_answered (net_recovers 2 (reply 200 "{}")) "secret"
              (client.CallGetCheck "abc") _ (reply 200 "{}") 2 Hreq)
    as (t & Hrun & Hr & Hw).
  - lia.
  - intros [|[|j]] Hj; [reflexivity | reflexivity | lia].
  - reflexivity.
  - reflexivity.
  - eexists. exists t. split; [exact Hreq|]. split; [exact Hrun|].
    split; [exact Hr | exact Hw].
Defined.

(** X3, at [GetCheck] on a network that refuses one connection and then
    meets too many redirects. *)
Lemma permanent_failure_ends_witness :
  exists req t,
    client.request_of (client.NewClient (net_breaks 1 "stopped after 10 redirects") "secret")
      (client.CallGetCheck "abc") = inl req /\
    client.run (client.NewClient (net_breaks 1 "stopped after 10 redirects") "secret")
      (client.CallGetCheck "abc")
    = (inr (wrapError
              ("GET https://healthchecks.io/api/v3/checks/abc giving up after 2 attempt(s): "
               +:+ "stopped after 10 redirects")
              (transportError "stopped after 10 redirects" true)), t) /\
    retryablehttp.requests t = [req; req] /\
    retryablehttp.waits t = [500000000]%Z.
Proof.
  eassert (Hreq : client.request_of
                    (client.NewClient (net_breaks 1 "stopped after 10 redirects") "secret")
                    (client.CallGetCheck "abc") = inl _) by reflexivity.
  destruct (permanent_failure_ends (net_breaks 1 "stopped after 10 redirects") "secret"
              (client.CallGetCheck "abc") _ "stopped after 10 redirects" 1 Hreq)
    as (t & Hrun & Hr & Hw).
  - lia.
  - intros [|j] Hj; [reflexivity | lia].
  - reflexivity.
  - eexists. exists t. split; [exact Hreq|]. split; [exact Hrun|].
    split; [exact Hr | exact Hw].
Defined.

(** X4, at [Ping] on a network that refuses every connection. *)
Lemma exhausted_error_witness :
  fst (client.run (client.NewClient net_down "secret")
         (client.CallPing "https://hc-ping.com/abc" "done" []))
  = inr (errorString
           ("ping: POST https://hc-ping.com/abc giving up after 6 attempt(s): "
            +:+ "dial tcp: connection refused")).
Proof.
  eassert (Hreq : client.request_of (client.NewClient net_down "secret")
                    (client.CallPing "https://hc-ping.com/abc" "done" []) = inl _)
    by reflexivity.
  exact (exhausted_error net_down "secret"
           (client.CallPing "https://hc-ping.com/abc" "done" []) _ Hreq
           (fun _ => eq_refl)).
Defined.

(** X7, at the identifier [abc]. *)
Lemma check_requests_witness :
  requests_at (client.NewClient net_down "secret") (client.CallPauseCheck "abc")
    "POST" None "https://healthchecks.io/api/v3/checks/abc/pause".
Proof.
  destruct (check_requests net_down "secret" "abc" UpdateCheck.zero
              {| GetFlipsRequest.Seconds := 0; GetFlipsRequest.Start := 0;
                 GetFlipsRequest.End_ := 0 |} eq_refl) as (_ & _ & _ & Hpause & _).
  exact Hpause.
Defined.

(** X9, at a response with a member [extra]. *)
Lemma unknown_member_ignored_witness :
  Check.decode (json.Object [("name", json.Str "db"); ("extra", json.Int 1)]) Check.zero
  = Check.decode (json.Object [("name", json.Str "db")]) Check.zero.
Proof.
  exact (unknown_member_ignored [("name", json.Str "db")] [] "extra" (json.Int 1)
           Check.zero eq_refl).
Defined.

